(** * Signal-to-execution pipeline of the Kalshi trading bot

    A shallow embedding of
    - [src/execution/trade_executor.py]  (PositionSizer, OrderValidator,
      CircuitBreaker, TradeExecutor),
    - [src/execution/paper_trader.py]    (PaperTrader),
    - [src/execution/position_manager.py] (PositionManager),
    and the properties of the specification that concern them.

    Python numbers.  An [int] is a [Z].  A [float] is an element of a type
    [F] carrying the interface [PyFloat]; the interface has two instances:
    exact rational arithmetic ([Q]), over which the universally quantified
    properties are proved, and IEEE binary64 (Rocq's primitive floats, the
    arithmetic CPython really runs), on which concrete runs are evaluated.

    Effects.  Exceptions are an error monad [res].  Calls on the external
    collaborators (broker, persistent store, alert callback, clock) are
    answered by an explicit environment record and are recorded in an event
    trace returned next to the new state. *)

From Stdlib Require Import ZArith QArith Qround Qminmax Lia Lqa String List Bool.
From Stdlib Require Import PrimFloat FloatOps Uint63.
From stdpp Require Import base option gmap strings.

Local Open Scope string_scope.
Local Open Scope list_scope.
Local Open Scope Z_scope.

(** ** Exceptions *)

Inductive exn : Set :=
| ZeroDivisionError
| ValueError
| OverflowError
| TypeError
| BrokerError
| StoreError.

Inductive res (A : Type) : Type :=
| Ok (a : A)
| Raise (e : exn).
Arguments Ok {A} a.
Arguments Raise {A} e.

#[global] Instance res_ret : MRet res := fun A a => Ok a.
#[global] Instance res_bind : MBind res := fun A B f m =>
  match m with
  | Ok a => f a
  | Raise e => Raise e
  end.

(** ** Python floats *)

Class PyFloat (F : Type) : Type := {
  of_int : Z -> F;          (* implicit int -> float coercion *)
  lit : Q -> F;             (* a decimal literal of the source text *)
  fadd : F -> F -> F;
  fsub : F -> F -> F;
  fmul : F -> F -> F;
  fdiv : F -> F -> F;       (* quotient by a non-zero divisor *)
  fneg : F -> F;
  fltb : F -> F -> bool;    (* [<] *)
  fleb : F -> F -> bool;    (* [<=] *)
  feqb : F -> F -> bool;    (* [==] *)
  to_int : F -> res Z       (* [int(x)]: truncation towards zero *)
}.
Arguments lit {F _} q%_Q.

Section PyOps.
Context {F : Type} {float_ops : PyFloat F}.

(** [a / b]: Python raises on a zero divisor, for ints and floats alike. *)
Definition py_div (a b : F) : res F :=
  if feqb b (of_int 0) then Raise ZeroDivisionError else Ok (fdiv a b).

(** Truth value of a number: [bool(x)] is [x != 0]. *)
Definition truthy (x : F) : bool := negb (feqb x (of_int 0)).

(** Truth value of an [Optional[float]]: [None] and zero are false. *)
Definition truthy_opt (x : option F) : bool :=
  match x with
  | Some p => truthy p
  | None => false
  end.

(** [min(a, b)] and [max(a, b)] keep the first argument unless the second
  is strictly smaller (resp. larger). *)
Definition py_min (a b : F) : F := if fltb b a then b else a.
Definition py_max (a b : F) : F := if fltb a b then b else a.

Definition py_abs (a : F) : F := if fltb a (of_int 0) then fneg a else a.

(** [sum(xs)] starts from the int [0]. *)
Definition py_sum (xs : list F) : F := fold_left fadd xs (of_int 0).
End PyOps.

(** [config.get(key, default)] on a key that may be absent. *)
Definition dict_get {A : Type} (entry : option A) (dflt : A) : A :=
  default dflt entry.

(** *** Instance 1: exact rationals *)

Definition Qltb (x y : Q) : bool :=
  (Qnum x * QDen y <? Qnum y * QDen x)%Z.

Definition Qtrunc (x : Q) : Z := Z.quot (Qnum x) (Zpos (Qden x)).

#[global] Instance Q_PyFloat : PyFloat Q := {|
  of_int := inject_Z;
  lit := fun q => q;
  fadd := Qplus;
  fsub := Qminus;
  fmul := Qmult;
  fdiv := Qdiv;
  fneg := Qopp;
  fltb := Qltb;
  fleb := Qle_bool;
  feqb := Qeq_bool;
  to_int := fun x => Ok (Qtrunc x)
|}.

(** *** Instance 2: IEEE 754 binary64 *)

Definition float_of_Z (z : Z) : float :=
  match z with
  | Z0 => PrimFloat.zero
  | Zpos _ => PrimFloat.of_uint63 (Uint63.of_Z z)
  | Zneg p => PrimFloat.opp (PrimFloat.of_uint63 (Uint63.of_Z (Zpos p)))
  end.

(** A decimal literal [n / 10^k] denotes the double nearest to it, which is
    what the correctly rounded quotient of the two integers gives. *)
Definition float_lit (q : Q) : float :=
  PrimFloat.div (float_of_Z (Qnum q)) (float_of_Z (Zpos (Qden q))).

Definition float_to_int (x : float) : res Z :=
  match Prim2SF x with
  | SpecFloat.S754_zero _ => Ok 0
  | SpecFloat.S754_infinity _ => Raise OverflowError
  | SpecFloat.S754_nan => Raise ValueError
  | SpecFloat.S754_finite s m e =>
      let a := match e with
               | Z0 => Zpos m
               | Zpos k => Z.shiftl (Zpos m) (Zpos k)
               | Zneg k => Z.shiftr (Zpos m) (Zpos k)
               end in
      Ok (if s then - a else a)
  end.

#[global] Instance binary64_PyFloat : PyFloat float := {|
  of_int := float_of_Z;
  lit := float_lit;
  fadd := PrimFloat.add;
  fsub := PrimFloat.sub;
  fmul := PrimFloat.mul;
  fdiv := PrimFloat.div;
  fneg := PrimFloat.opp;
  fltb := PrimFloat.ltb;
  fleb := PrimFloat.leb;
  feqb := PrimFloat.eqb;
  to_int := float_to_int
|}.

(** ** Shared data *)

(** [TradeSignal] of [src/edge_detection/speed_arbitrage.py]. *)
Record TradeSignal (F : Type) : Type := {
  signal_id : string;
  timestamp : Z;
  source : string;
  ticker : string;
  side : string;
  signal_type : string;
  confidence : F;
  edge_percentage : F;
  current_price : option F;
  fair_value : F;
  reasoning : string
}.
Arguments signal_id {F} _.
Arguments timestamp {F} _.
Arguments source {F} _.
Arguments ticker {F} _.
Arguments side {F} _.
Arguments signal_type {F} _.
Arguments confidence {F} _.
Arguments edge_percentage {F} _.
Arguments current_price {F} _.
Arguments fair_value {F} _.
Arguments reasoning {F} _.

(** The configuration dict, one optional entry per key the pipeline reads. *)
Record Config (F : Type) : Type := {
  cfg_max_position_size_usd : option F;
  cfg_max_portfolio_heat : option F;
  cfg_kelly_fraction : option F;
  cfg_min_edge_threshold : option F;
  cfg_max_trades_per_hour : option Z;
  cfg_max_trades_per_day : option Z;
  cfg_max_daily_loss : option F;
  cfg_stop_loss_percentage : option F;
  cfg_cooldown_after_loss_seconds : option Z;
  cfg_circuit_breaker_consecutive_losses : option Z;
  cfg_enabled : option bool;
  cfg_profit_target_multiplier : option F;
  cfg_position_timeout_hours : option F
}.
Arguments cfg_max_position_size_usd {F} _.
Arguments cfg_max_portfolio_heat {F} _.
Arguments cfg_kelly_fraction {F} _.
Arguments cfg_min_edge_threshold {F} _.
Arguments cfg_max_trades_per_hour {F} _.
Arguments cfg_max_trades_per_day {F} _.
Arguments cfg_max_daily_loss {F} _.
Arguments cfg_stop_loss_percentage {F} _.
Arguments cfg_cooldown_after_loss_seconds {F} _.
Arguments cfg_circuit_breaker_consecutive_losses {F} _.
Arguments cfg_enabled {F} _.
Arguments cfg_profit_target_multiplier {F} _.
Arguments cfg_position_timeout_hours {F} _.

(** The empty dict: every [get] answers its default. *)
Definition empty_config {F : Type} : Config F :=
  {| cfg_max_position_size_usd := None;
     cfg_max_portfolio_heat := None;
     cfg_kelly_fraction := None;
     cfg_min_edge_threshold := None;
     cfg_max_trades_per_hour := None;
     cfg_max_trades_per_day := None;
     cfg_max_daily_loss := None;
     cfg_stop_loss_percentage := None;
     cfg_cooldown_after_loss_seconds := None;
     cfg_circuit_breaker_consecutive_losses := None;
     cfg_enabled := None;
     cfg_profit_target_multiplier := None;
     cfg_position_timeout_hours := None |}.

(** ** PositionSizer *)

Module PositionSizer.
Section WithFloat.
Context {F : Type} {float_ops : PyFloat F}.

Definition kelly_position_size
  (edge confidence kelly_fraction bankroll : F) : res F :=
  let win_prob := confidence in
  let loss_prob := fsub (of_int 1) win_prob in
  if fleb edge (of_int 0) || fleb (of_int 1) edge then Ok (of_int 0) else
  b ← py_div edge (fsub (of_int 1) edge);
  kelly_pct ← py_div (fsub (fmul b win_prob) loss_prob) b;
  let kelly_pct := fmul kelly_pct kelly_fraction in
  let kelly_pct := py_max (of_int 0) (py_min kelly_pct (lit 0.25)) in
  let position_size := fmul bankroll kelly_pct in
  Ok position_size.

(** What the sizer writes to the log: the heat-limit warning, or the
  "Position sizing: Kelly=.., Final=.., Contracts=.. @ ..c" line. *)
Inductive SizerLog : Type :=
  | HeatLimitReached
  | PositionSizing (kelly_size position_size_usd : F)
               (num_contracts price_cents : Z).

(** Line 131: [int(position_size_usd * 100 / price_cents)]. *)
Definition contracts_at (position_size_usd : F) (price_cents : Z) : res Z :=
  q ← py_div (fmul position_size_usd (of_int 100)) (of_int price_cents);
  to_int q.

Definition calculate_position_size
  (signal : TradeSignal F) (config : Config F)
  (current_balance current_exposure : F) : res (Z * SizerLog) :=
  let max_position := dict_get (cfg_max_position_size_usd config) (of_int 500) in
  let max_heat := dict_get (cfg_max_portfolio_heat config) (lit 0.20) in
  let kelly_fraction := dict_get (cfg_kelly_fraction config) (lit 0.25) in
  kelly_size ← kelly_position_size (edge_percentage signal)
                (confidence signal) kelly_fraction current_balance;
  let position_size_usd := py_min kelly_size max_position in
  let max_exposure := fmul current_balance max_heat in
  let remaining_capacity := fsub max_exposure current_exposure in
  if fleb remaining_capacity (of_int 0) then Ok (0, HeatLimitReached) else
  let position_size_usd := py_min position_size_usd remaining_capacity in
  price_cents ←
  (if truthy_opt (current_price signal)
   then match current_price signal with
        | Some p => to_int (fmul p (of_int 100))
        | None => Raise TypeError
        end
   else Ok 50);
  num_contracts ← contracts_at position_size_usd price_cents;
  let num_contracts := Z.max 1 num_contracts in
  Ok (num_contracts,
    PositionSizing kelly_size position_size_usd num_contracts price_cents).
End WithFloat.
Arguments SizerLog F : clear implicits.
End PositionSizer.

(** ** OrderValidator *)

(** [hashlib.md5(s.encode()).hexdigest()], a function of the standard
    library: any function on strings can stand for it. *)
Class Hashlib : Type := md5_hexdigest : string -> string.

(** Rejection reasons.  The source renders them as text; the numbers that
    the text interpolates are kept as arguments:
    - ["Duplicate signal"]
    - [f"Confidence {confidence:.2f} below threshold"]
    - [f"Edge {edge_percentage:.2%} below threshold"]
    - [f"Invalid price: {current_price}"]
    - [f"Invalid side: {side}"]
    - ["Missing ticker"]
    - [f"Invalid quantity: {quantity}"]
    - [f"Invalid price: {price} (must be 1-99 cents)"] *)
Inductive Rejection (F : Type) : Type :=
| DuplicateSignal
| ConfidenceBelowThreshold (confidence : F)
| EdgeBelowThreshold (edge : F)
| InvalidPrice (price : F)
| InvalidSide (side : string)
| MissingTicker
| InvalidQuantity (quantity : Z)
| InvalidOrderPrice (price : Z).
Arguments DuplicateSignal {F}.
Arguments ConfidenceBelowThreshold {F} _.
Arguments EdgeBelowThreshold {F} _.
Arguments InvalidPrice {F} _.
Arguments InvalidSide {F} _.
Arguments MissingTicker {F}.
Arguments InvalidQuantity {F} _.
Arguments InvalidOrderPrice {F} _.

(** [side in ["yes", "no"]] *)
Definition side_is_yes_or_no (s : string) : bool :=
  String.eqb s "yes" || String.eqb s "no".

Module OrderValidator.
Section WithFloat.
Context {F : Type} {float_ops : PyFloat F} {hashlib : Hashlib}.

Definition validate_signal
  (signal : TradeSignal F) (config : Config F)
  (seen_signals : gset string) : bool * option (Rejection F) :=
  let signal_hash := md5_hexdigest (signal_id signal) in
  if bool_decide (signal_hash ∈ seen_signals)
  then (false, Some DuplicateSignal) else
  let min_confidence := dict_get (cfg_min_edge_threshold config) (lit 0.05) in
  if fltb (confidence signal) min_confidence
  then (false, Some (ConfidenceBelowThreshold (confidence signal))) else
  let min_edge := dict_get (cfg_min_edge_threshold config) (lit 0.05) in
  if fltb (edge_percentage signal) min_edge
  then (false, Some (EdgeBelowThreshold (edge_percentage signal))) else
  match current_price signal with
  | Some p =>
    if truthy p && (fltb p (lit 0.01) || fltb (lit 0.99) p)
    then (false, Some (InvalidPrice p)) else
    if negb (side_is_yes_or_no (side signal))
    then (false, Some (InvalidSide (side signal)))
    else (true, None)
  | None =>
    if negb (side_is_yes_or_no (side signal))
    then (false, Some (InvalidSide (side signal)))
    else (true, None)
  end.

Definition validate_order
  (ticker side : string) (quantity price : Z)
  : bool * option (Rejection F) :=
  if String.eqb ticker "" then (false, Some MissingTicker) else
  if negb (side_is_yes_or_no side) then (false, Some (InvalidSide side)) else
  if quantity <=? 0 then (false, Some (InvalidQuantity quantity)) else
  if negb ((1 <=? price) && (price <=? 99))
  then (false, Some (InvalidOrderPrice price))
  else (true, None).
End WithFloat.
End OrderValidator.

(** ** CircuitBreaker *)

(** Time stamps ([datetime]) are seconds on the integer line. *)
Definition datetime : Set := Z.

Module CircuitBreaker.
Record t : Set := {
  max_consecutive_losses : Z;
  consecutive_losses : Z;
  is_tripped : bool;
  trip_time : option datetime
  }.

Definition init {F : Type} (config : Config F) : t :=
  {| max_consecutive_losses :=
       dict_get (cfg_circuit_breaker_consecutive_losses config) 3;
     consecutive_losses := 0;
     is_tripped := false;
     trip_time := None |}.

(** [now] is the answer of [datetime.now()]. *)
Definition trip (now : datetime) (self : t) : t :=
  if negb (is_tripped self)
  then {| max_consecutive_losses := max_consecutive_losses self;
          consecutive_losses := consecutive_losses self;
          is_tripped := true;
          trip_time := Some now |}
  else self.

Definition reset (self : t) : t :=
  {| max_consecutive_losses := max_consecutive_losses self;
     consecutive_losses := 0;
     is_tripped := false;
     trip_time := None |}.

Definition record_trade {F : Type} {float_ops : PyFloat F}
    (now : datetime) (self : t) (pnl : F) : t :=
  if fltb pnl (of_int 0) then
    let self := {| max_consecutive_losses := max_consecutive_losses self;
                   consecutive_losses := consecutive_losses self + 1;
                   is_tripped := is_tripped self;
                   trip_time := trip_time self |} in
    if max_consecutive_losses self <=? consecutive_losses self
    then trip now self
    else self
  else
    let self := {| max_consecutive_losses := max_consecutive_losses self;
                   consecutive_losses := 0;
                   is_tripped := is_tripped self;
                   trip_time := trip_time self |} in
    if is_tripped self then reset self else self.

Definition can_trade (self : t) : bool * option string :=
  if is_tripped self
  then (false, Some "Circuit breaker tripped - trading paused")
  else (true, None).

(** A run of results, each with the clock reading at its recording. *)
Definition record_trades {F : Type} {float_ops : PyFloat F}
    (self : t) (results : list (datetime * F)) : t :=
  fold_left (fun cb r => record_trade (fst r) cb (snd r)) results self.
End CircuitBreaker.

(** ** PaperTrader *)

(** [Order] of [src/api/kalshi_client.py]. *)
Record Order : Set := {
  order_id : string;
  order_ticker : string;
  order_side : string;
  order_quantity : Z;
  order_price : Z;
  order_status : string;
  order_created_at : datetime;
  order_filled_quantity : Z
}.

Module PaperTrader.
Record PaperOrder : Set := {
  po_order_id : string;
  po_ticker : string;
  po_side : string;
  po_quantity : Z;
  po_price : Z;
  po_status : string;
  po_created_time : datetime;
  po_filled_count : Z
  }.

Definition to_order (o : PaperOrder) : Order :=
  {| order_id := po_order_id o;
     order_ticker := po_ticker o;
     order_side := po_side o;
     order_quantity := po_quantity o;
     order_price := po_price o;
     order_status := po_status o;
     order_created_at := po_created_time o;
     order_filled_quantity := po_filled_count o |}.

(** One entry of the [paper_trades] list. *)
Record TradeRecord : Set := {
  tr_timestamp : datetime;
  tr_order : PaperOrder;
  tr_fill_price : option Z;
  tr_fill_quantity : Z
  }.

Section WithFloat.
Context {F : Type} {float_ops : PyFloat F}.

(** One value of the [paper_positions] dict. *)
Record Position : Type := {
  pos_ticker : string;
  pos_side : string;
  pos_quantity : Z;
  pos_avg_price : F;
  pos_total_cost : Z
  }.

(** The simulator.  [paper_positions] is a dict in insertion order. *)
Record t : Type := {
  paper_trades : list TradeRecord;
  paper_positions : list (string * Position);
  total_pnl : F;
  simulated_fill_rate : F;
  simulated_slippage : F
  }.

Definition init : t :=
  {| paper_trades := [];
   paper_positions := [];
   total_pnl := lit 0.0;
   simulated_fill_rate := lit 0.95;
   simulated_slippage := lit 0.01 |}.

Fixpoint dict_lookup (key : string) (d : list (string * Position))
  : option Position :=
  match d with
  | [] => None
  | (k, v) :: d' => if String.eqb k key then Some v else dict_lookup key d'
  end.

(** [d[key] = v]: overwrite in place, or append a new key. *)
Fixpoint dict_store (key : string) (v : Position)
  (d : list (string * Position)) : list (string * Position) :=
  match d with
  | [] => [(key, v)]
  | (k, w) :: d' =>
    if String.eqb k key then (k, v) :: d'
    else (k, w) :: dict_store key v d'
  end.

(** What [place_order] leaves in the local variables of its fill branch:
  the fill quantity and, when something filled, the fill price. *)
Definition fill_quantity_of (self : t) (quantity : Z) : res Z :=
  to_int (fmul (of_int quantity) (simulated_fill_rate self)).

(** [uuid] is the answer of [uuid.uuid4().hex[:16]], [now] the clock. *)
Definition place_order (self : t) (uuid : string) (now : datetime)
  (ticker side : string) (quantity limit_price : Z)
  : res (PaperOrder * t) :=
  let order_id := ("PAPER_" ++ uuid)%string in
  fill_quantity ← fill_quantity_of self quantity;
  if 0 <? fill_quantity then
  let slippage_cents := if limit_price <? 90 then 1 else 0 in
  let fill_price := limit_price + slippage_cents in
  let paper_order :=
    {| po_order_id := order_id; po_ticker := ticker; po_side := side;
       po_quantity := quantity; po_price := limit_price;
       po_status := if fill_quantity =? quantity
                    then "filled" else "partial";
       po_created_time := now;
       po_filled_count := fill_quantity |} in
  let position_key := (ticker ++ "_" ++ side)%string in
  let pos :=
    match dict_lookup position_key (paper_positions self) with
    | Some p => p
    | None => {| pos_ticker := ticker; pos_side := side;
                 pos_quantity := 0; pos_avg_price := of_int 0;
                 pos_total_cost := 0 |}
    end in
  let new_cost := fill_quantity * fill_price in
  let quantity' := pos_quantity pos + fill_quantity in
  let total_cost' := pos_total_cost pos + new_cost in
  avg_price' ← py_div (of_int total_cost') (of_int quantity');
  let pos' := {| pos_ticker := pos_ticker pos; pos_side := pos_side pos;
                 pos_quantity := quantity';
                 pos_avg_price := avg_price';
                 pos_total_cost := total_cost' |} in
  Ok (paper_order,
      {| paper_trades :=
           paper_trades self ++
           [{| tr_timestamp := now; tr_order := paper_order;
               tr_fill_price := Some fill_price;
               tr_fill_quantity := fill_quantity |}];
         paper_positions :=
           dict_store position_key pos' (paper_positions self);
         total_pnl := total_pnl self;
         simulated_fill_rate := simulated_fill_rate self;
         simulated_slippage := simulated_slippage self |})
  else
  let paper_order :=
    {| po_order_id := order_id; po_ticker := ticker; po_side := side;
       po_quantity := quantity; po_price := limit_price;
       po_status := "canceled";
       po_created_time := now;
       po_filled_count := 0 |} in
  Ok (paper_order,
      {| paper_trades :=
           paper_trades self ++
           [{| tr_timestamp := now; tr_order := paper_order;
               tr_fill_price := None;
               tr_fill_quantity := fill_quantity |}];
         paper_positions := paper_positions self;
         total_pnl := total_pnl self;
         simulated_fill_rate := simulated_fill_rate self;
         simulated_slippage := simulated_slippage self |}).

(** [get_balance()]: the ["balance"] and ["total_exposure"] entries. *)
Definition get_balance (self : t) : F * F :=
  let starting_capital := lit 10000.0 in
  let total_exposure :=
  py_sum (map (fun kv => fdiv (of_int (pos_total_cost (snd kv)))
                              (of_int 100))
              (paper_positions self)) in
  let available := fadd (fsub starting_capital total_exposure)
                      (total_pnl self) in
  (available, total_exposure).

(** The net P&L in dollars that [simulate_position_close] books for a
    position closed at [exit_price] cents: 7% of a profit goes in fees. *)
Definition close_net_pnl (pos : Position) (exit_price : Z) : F :=
  let entry_cost := pos_total_cost pos in
  let exit_value := pos_quantity pos * exit_price in
  let pnl_cents := exit_value - entry_cost in
  let pnl_dollars := fdiv (of_int pnl_cents) (of_int 100) in
  let fee_rate := lit 0.07 in
  let fees :=
    if fltb (of_int 0) pnl_dollars
    then py_max (of_int 0) (fmul pnl_dollars fee_rate)
    else of_int 0 in
  fsub pnl_dollars fees.

Definition simulate_position_close (self : t) (ticker side : string)
    (exit_price : Z) : t :=
  let position_key := (ticker ++ "_" ++ side)%string in
  match dict_lookup position_key (paper_positions self) with
  | None => self
  | Some pos =>
      if pos_quantity pos =? 0 then self else
      let net_pnl := close_net_pnl pos exit_price in
      {| paper_trades := paper_trades self;
         paper_positions :=
           dict_store position_key
             {| pos_ticker := pos_ticker pos; pos_side := pos_side pos;
                pos_quantity := 0; pos_avg_price := of_int 0;
                pos_total_cost := 0 |}
             (paper_positions self);
         total_pnl := fadd (total_pnl self) net_pnl;
         simulated_fill_rate := simulated_fill_rate self;
         simulated_slippage := simulated_slippage self |}
  end.

End WithFloat.
Arguments Position F : clear implicits.
Arguments t F : clear implicits.
End PaperTrader.

(** ** The collaborators: broker, store, alerts *)

(** Modelled from the spec: [Trade] of [src/database/models.py], a file
    that is not among the sources ("Trade/Position: references the
    originating Signal, broker order id, ticker, side, quantity, entry_price,
    status, optional exit_price, close_reason, fees, net P&L, created/closed
    timestamps").  The fields are the ones the executor and the position
    manager assign. *)
Record Trade (F : Type) : Type := {
  trade_signal_id : option Z;
  trade_order_id : string;
  trade_ticker : string;
  trade_side : string;
  trade_quantity : Z;
  trade_entry_price : F;
  trade_fill_price : option F;
  trade_status : string;
  trade_exit_price : option F;
  trade_pnl : option F;
  trade_fees : option F;
  trade_close_reason : option string;
  trade_closed_at : option datetime
}.
Arguments trade_signal_id {F} _.
Arguments trade_order_id {F} _.
Arguments trade_ticker {F} _.
Arguments trade_side {F} _.
Arguments trade_quantity {F} _.
Arguments trade_entry_price {F} _.
Arguments trade_fill_price {F} _.
Arguments trade_status {F} _.
Arguments trade_exit_price {F} _.
Arguments trade_pnl {F} _.
Arguments trade_fees {F} _.
Arguments trade_close_reason {F} _.
Arguments trade_closed_at {F} _.

(** How the exchange answers a [POST /portfolio/orders]: an order, a
    response without one, or a request that fails after its retries. *)
Inductive BrokerReply : Set :=
| BrokerOrder (o : Order)
| BrokerNoOrder
| BrokerFails.

(** [KalshiClient.place_order]: it raises on a malformed request before
    anything is sent, and re-raises a failed request. *)
Definition kalshi_place_order (reply : BrokerReply)
    (side : string) (quantity limit_price : Z) : res (option Order) :=
  if negb (side_is_yes_or_no side) then Raise ValueError else
  if negb ((1 <=? limit_price) && (limit_price <=? 99)) then Raise ValueError else
  if quantity <=? 0 then Raise ValueError else
  match reply with
  | BrokerOrder o => Ok (Some o)
  | BrokerNoOrder => Ok None
  | BrokerFails => Raise BrokerError
  end.

(** Messages handed to [_send_alert], with the values they interpolate. *)
Inductive Alert (F : Type) : Type :=
| SignalRejectedAlert (reason : option string)
| DailyLossAlert (daily_pnl : F)
| TradeExecutedAlert (paper : bool) (quantity : Z) (side ticker : string)
                     (limit_price : Z) (edge confidence : F)
| TradeFailedAlert (e : exn)
| PositionClosedAlert (ticker : string) (entry exit net_pnl : F)
                      (reason : string)
| CloseErrorAlert (ticker : string) (e : exn).
Arguments SignalRejectedAlert {F} _.
Arguments DailyLossAlert {F} _.
Arguments TradeExecutedAlert {F} _ _ _ _ _ _ _.
Arguments TradeFailedAlert {F} _.
Arguments PositionClosedAlert {F} _ _ _ _ _.
Arguments CloseErrorAlert {F} _ _.

(** The lines [execute_signal] itself writes to the log. *)
Inductive LogLine (F : Type) : Type :=
| LogTradingDisabled
| LogBreakerRejected (reason : option string)
| LogSignalRejected (reason : option (Rejection F))
| LogRateLimitExceeded
| LogDailyLossLimit (daily_pnl : F)
| LogCooldown (seconds_since_loss : Z)
| LogSizer (l : PositionSizer.SizerLog F)
| LogZeroSize
| LogOrderValidationFailed (reason : option (Rejection F))
| LogPlacingOrder (paper : bool) (quantity : Z) (side : string)
                  (limit_price : Z) (ticker : string)
| LogOrderPlacementFailed
| LogTradeExecuted (o : Order)
| LogExecutionError (e : exn).
Arguments LogTradingDisabled {F}.
Arguments LogBreakerRejected {F} _.
Arguments LogSignalRejected {F} _.
Arguments LogRateLimitExceeded {F}.
Arguments LogDailyLossLimit {F} _.
Arguments LogCooldown {F} _.
Arguments LogSizer {F} _.
Arguments LogZeroSize {F}.
Arguments LogOrderValidationFailed {F} _.
Arguments LogPlacingOrder {F} _ _ _ _ _.
Arguments LogOrderPlacementFailed {F}.
Arguments LogTradeExecuted {F} _.
Arguments LogExecutionError {F} _.

(** What a call does to the outside world, in the order it does it. *)
Inductive Event (F : Type) : Type :=
| EvLog (l : LogLine F)
| EvAlert (a : Alert F)
    (* the alert callback is awaited on this message *)
| EvPlaceOrder (paper : bool) (ticker side : string)
               (quantity limit_price : Z) (reply : option Order)
    (* [place_order] is called on the gateway; [reply] is the order it
       returns, if it returns one *)
| EvDbSignalRejected (signal_id : string) (reason : option (Rejection F))
| EvDbTradeAdded (t : Trade F)
| EvDbSignalExecuted (signal_id : string) (at_time : datetime)
| EvDbTradeClosed (t : Trade F).
Arguments EvLog {F} _.
Arguments EvAlert {F} _.
Arguments EvPlaceOrder {F} _ _ _ _ _ _.
Arguments EvDbSignalRejected {F} _ _.
Arguments EvDbTradeAdded {F} _.
Arguments EvDbSignalExecuted {F} _ _.
Arguments EvDbTradeClosed {F} _.

(** [_send_alert]: nothing happens without a callback; an exception of the
    callback is logged and swallowed. *)
Definition send_alert {F : Type} (alert_callback : bool) (a : Alert F)
    : list (Event F) :=
  if alert_callback then [EvAlert a] else [].

Definition is_place_order {F : Type} (e : Event F) : bool :=
  match e with
  | EvPlaceOrder _ _ _ _ _ _ => true
  | _ => false
  end.

Definition is_placed_order {F : Type} (e : Event F) : bool :=
  match e with
  | EvPlaceOrder _ _ _ _ _ (Some _) => true
  | _ => false
  end.

Definition is_daily_loss_alert {F : Type} (e : Event F) : bool :=
  match e with
  | EvAlert (DailyLossAlert _) => true
  | _ => false
  end.

Definition count_events {F : Type} (p : Event F -> bool)
    (evs : list (Event F)) : nat :=
  length (List.filter p evs).

(** The gateway calls of a trace, in order. *)
Definition place_orders {F : Type} (evs : list (Event F)) : list (Event F) :=
  List.filter is_place_order evs.

(** ** TradeExecutor *)

Record RiskLimits (F : Type) : Type := {
  max_position_size_usd : F;
  max_portfolio_heat : F;
  max_trades_per_hour : Z;
  max_trades_per_day : Z;
  max_daily_loss : F;
  stop_loss_percentage : F;
  cooldown_after_loss_seconds : Z;
  circuit_breaker_consecutive_losses : Z
}.
Arguments max_position_size_usd {F} _.
Arguments max_portfolio_heat {F} _.
Arguments max_trades_per_hour {F} _.
Arguments max_trades_per_day {F} _.
Arguments max_daily_loss {F} _.
Arguments stop_loss_percentage {F} _.
Arguments cooldown_after_loss_seconds {F} _.
Arguments circuit_breaker_consecutive_losses {F} _.

Module TradeExecutor.
Section WithFloat.
Context {F : Type} {float_ops : PyFloat F} {hashlib : Hashlib}.

Record t : Type := {
  config : Config F;
  risk_limits : RiskLimits F;
  seen_signals : gset string;
  recent_trades : list datetime;
  last_loss_time : option datetime;
  daily_pnl : F;
  circuit_breaker : CircuitBreaker.t;
  trading_enabled : bool;
  paper_trading : bool;
  paper_trader : option (PaperTrader.t F);
  alert_callback : bool      (* was a callback given? *)
  }.

(** [paper_mode] is [PAPER_TRADING_MODE] read from the process
  environment, compared with ["true"]. *)
Definition init (config : Config F) (paper_mode alert_callback : bool) : t :=
  {| config := config;
   risk_limits :=
     {| max_position_size_usd :=
          dict_get (cfg_max_position_size_usd config) (of_int 500);
        max_portfolio_heat :=
          dict_get (cfg_max_portfolio_heat config) (lit 0.20);
        max_trades_per_hour := dict_get (cfg_max_trades_per_hour config) 20;
        max_trades_per_day := dict_get (cfg_max_trades_per_day config) 100;
        max_daily_loss := dict_get (cfg_max_daily_loss config) (of_int 1000);
        stop_loss_percentage :=
          dict_get (cfg_stop_loss_percentage config) (lit 0.30);
        cooldown_after_loss_seconds :=
          dict_get (cfg_cooldown_after_loss_seconds config) 300;
        circuit_breaker_consecutive_losses :=
          dict_get (cfg_circuit_breaker_consecutive_losses config) 3 |};
   seen_signals := ∅;
   recent_trades := [];
   last_loss_time := None;
   daily_pnl := of_int 0;
   circuit_breaker := CircuitBreaker.init config;
   trading_enabled := dict_get (cfg_enabled config) false;
   paper_trading := paper_mode;
   paper_trader := if paper_mode then Some PaperTrader.init else None;
   alert_callback := alert_callback |}.

(** The answers of the outside world during one [execute_signal]. *)
Record Env : Type := {
  env_now_rate : datetime;        (* [datetime.now()] of the rate check *)
  env_daily_trades : Z;           (* today's Trade rows, counted by the store *)
  env_now_cooldown : datetime;    (* [datetime.now()] of the cooldown check *)
  env_live_balance : F;           (* ["balance"] of [kalshi.get_balance()] *)
  env_live_costs : list F;        (* [total_cost] of each broker position *)
  env_uuid : string;              (* paper order id *)
  env_now_order : datetime;       (* [datetime.utcnow()] of the simulator *)
  env_broker : BrokerReply;       (* the exchange's answer to the order *)
  env_db_signal : option Z;       (* id of the stored Signal row, if any *)
  env_now_executed : datetime;    (* [datetime.utcnow()] of the marking *)
  env_now_trade : datetime;       (* [datetime.now()] put in the window *)
  env_record_trade_raises : option exn;
    (* the exception of the store in [_record_trade], if it raises one *)
  env_mark_executed_raises : option exn
    (* the exception of the store in [_mark_signal_executed], if any *)
  }.

Definition with_recent_trades (self : t) (r : list datetime) : t :=
  {| config := config self; risk_limits := risk_limits self;
   seen_signals := seen_signals self; recent_trades := r;
   last_loss_time := last_loss_time self; daily_pnl := daily_pnl self;
   circuit_breaker := circuit_breaker self;
   trading_enabled := trading_enabled self;
   paper_trading := paper_trading self;
   paper_trader := paper_trader self;
   alert_callback := alert_callback self |}.

Definition check_rate_limits (self : t) (env : Env) : bool * t :=
  let now := env_now_rate env in
  let hour_ago := now - 3600 in
  let self :=
  with_recent_trades self
    (filter (fun t => hour_ago < t) (recent_trades self)) in
  if max_trades_per_hour (risk_limits self)
     <=? Z.of_nat (length (recent_trades self))
  then (false, self) else
  let daily_trades := env_daily_trades env in
  if max_trades_per_day (risk_limits self) <=? daily_trades
  then (false, self)
  else (true, self).

Definition calculate_current_exposure (env : Env) : F :=
  py_sum (map (fun total_cost => fdiv (py_abs total_cost) (of_int 100))
            (env_live_costs env)).

Definition record_trade (env : Env) (signal : TradeSignal F)
  (order : Order) (quantity price : Z) : Trade F :=
  {| trade_signal_id := env_db_signal env;
   trade_order_id := order_id order;
   trade_ticker := ticker signal;
   trade_side := side signal;
   trade_quantity := quantity;
   trade_entry_price := fdiv (of_int price) (of_int 100);
   trade_fill_price := None;
   trade_status := "open";
   trade_exit_price := None;
   trade_pnl := None;
   trade_fees := None;
   trade_close_reason := None;
   trade_closed_at := None |}.

Definition mark_signal_executed (env : Env) (signal : TradeSignal F)
  : list (Event F) :=
  match env_db_signal env with
  | Some _ => [EvDbSignalExecuted (signal_id signal) (env_now_executed env)]
  | None => []
  end.

Definition record_rejected_signal (env : Env) (signal : TradeSignal F)
  (reason : option (Rejection F)) : list (Event F) :=
  match env_db_signal env with
  | Some _ => [EvDbSignalRejected (signal_id signal) reason]
  | None => []
  end.

(** The [except Exception] clause of [execute_signal]. *)
Definition execution_failed (self : t) (evs : list (Event F)) (e : exn)
  : res (option (Trade F)) * t * list (Event F) :=
  (Ok None, self,
   evs ++ [EvLog (LogExecutionError e)]
     ++ send_alert (alert_callback self) (TradeFailedAlert e)).

(** Everything after the order came back from the gateway (lines 439-459).
    The store can raise in [_record_trade], before the hash is added to
    [seen_signals], and in [_mark_signal_executed], after it is added and
    before the rate window is extended; either exception ends in the
    [except] clause. *)
Definition order_placed (self : t) (env : Env) (signal : TradeSignal F)
  (evs : list (Event F)) (order : Order) (quantity limit_price : Z)
  : res (option (Trade F)) * t * list (Event F) :=
  match env_record_trade_raises env with
  | Some e => execution_failed self evs e
  | None =>
  let trade := record_trade env signal order quantity limit_price in
  let evs := evs ++ [EvDbTradeAdded trade] in
  let signal_hash := md5_hexdigest (signal_id signal) in
  let self :=
  {| config := config self; risk_limits := risk_limits self;
     seen_signals := seen_signals self ∪ {[ signal_hash ]};
     recent_trades := recent_trades self;
     last_loss_time := last_loss_time self; daily_pnl := daily_pnl self;
     circuit_breaker := circuit_breaker self;
     trading_enabled := trading_enabled self;
     paper_trading := paper_trading self;
     paper_trader := paper_trader self;
     alert_callback := alert_callback self |} in
  match env_mark_executed_raises env with
  | Some e => execution_failed self evs e
  | None =>
  let self :=
    with_recent_trades self (recent_trades self ++ [env_now_trade env]) in
  (Ok (Some trade), self,
   evs ++ mark_signal_executed env signal
     ++ send_alert (alert_callback self)
          (TradeExecutedAlert (paper_trading self) quantity (side signal)
             (ticker signal) limit_price (edge_percentage signal)
             (confidence signal))
     ++ [EvLog (LogTradeExecuted order)])
  end end.

Definition with_paper_trader (self : t) (pt : PaperTrader.t F) : t :=
  {| config := config self; risk_limits := risk_limits self;
   seen_signals := seen_signals self; recent_trades := recent_trades self;
   last_loss_time := last_loss_time self; daily_pnl := daily_pnl self;
   circuit_breaker := circuit_breaker self;
   trading_enabled := trading_enabled self;
   paper_trading := paper_trading self;
   paper_trader := Some pt;
   alert_callback := alert_callback self |}.

(** The [try] block of [execute_signal]. *)
Definition place_and_record (self : t) (env : Env) (signal : TradeSignal F)
  (evs : list (Event F)) (quantity limit_price : Z)
  : res (option (Trade F)) * t * list (Event F) :=
  let evs := evs ++ [EvLog (LogPlacingOrder (paper_trading self) quantity
                            (side signal) limit_price (ticker signal))] in
  if paper_trading self then
  match paper_trader self with
  | None => execution_failed self evs TypeError
  | Some pt =>
      match PaperTrader.place_order pt (env_uuid env) (env_now_order env)
              (ticker signal) (side signal) quantity limit_price with
      | Raise e =>
          execution_failed self
            (evs ++ [EvPlaceOrder true (ticker signal) (side signal)
                       quantity limit_price None]) e
      | Ok (paper_order, pt') =>
          let order := PaperTrader.to_order paper_order in
          order_placed (with_paper_trader self pt') env signal
            (evs ++ [EvPlaceOrder true (ticker signal) (side signal)
                       quantity limit_price (Some order)])
            order quantity limit_price
      end
  end
  else
  match kalshi_place_order (env_broker env) (side signal)
          quantity limit_price with
  | Raise e =>
      execution_failed self
        (evs ++ [EvPlaceOrder false (ticker signal) (side signal)
                   quantity limit_price None]) e
  | Ok None =>
      (Ok None, self,
       evs ++ [EvPlaceOrder false (ticker signal) (side signal)
                 quantity limit_price None;
               EvLog LogOrderPlacementFailed])
  | Ok (Some order) =>
      order_placed self env signal
        (evs ++ [EvPlaceOrder false (ticker signal) (side signal)
                   quantity limit_price (Some order)])
        order quantity limit_price
  end.

(** Lines 378-407: balance, sizing, limit price, order validation. *)
Definition size_and_place (self : t) (env : Env) (signal : TradeSignal F)
  : res (option (Trade F)) * t * list (Event F) :=
  let balance :=
  if paper_trading self then
    match paper_trader self with
    | Some pt => Ok (PaperTrader.get_balance pt)
    | None => Raise TypeError
    end
  else Ok (env_live_balance env, calculate_current_exposure env) in
  match balance with
  | Raise e => (Raise e, self, [])
  | Ok (current_balance, current_exposure) =>
  match PositionSizer.calculate_position_size signal (config self)
        current_balance current_exposure with
  | Raise e => (Raise e, self, [])
  | Ok (quantity, sizer_log) =>
  let evs := [EvLog (LogSizer sizer_log)] in
  if quantity =? 0 then (Ok None, self, evs ++ [EvLog LogZeroSize]) else
  let limit_price :=
  if truthy_opt (current_price signal)
  then match current_price signal with
       | Some p => to_int (fmul p (of_int 100))
       | None => Raise TypeError
       end
  else Ok 50 in
  match limit_price with
  | Raise e => (Raise e, self, evs)
  | Ok limit_price =>
  match OrderValidator.validate_order (ticker signal) (side signal)
        quantity limit_price with
  | (false, rejection_reason) =>
    (Ok None, self, evs ++ [EvLog (LogOrderValidationFailed rejection_reason)])
  | (true, _) => place_and_record self env signal evs quantity limit_price
  end end end end.

Definition execute_signal (self : t) (env : Env) (signal : TradeSignal F)
  : res (option (Trade F)) * t * list (Event F) :=
  if negb (trading_enabled self)
  then (Ok None, self, [EvLog LogTradingDisabled]) else
  match CircuitBreaker.can_trade (circuit_breaker self) with
  | (false, reason) =>
    (Ok None, self,
     EvLog (LogBreakerRejected reason)
       :: send_alert (alert_callback self) (SignalRejectedAlert reason))
  | (true, _) =>
  match OrderValidator.validate_signal signal (config self)
        (seen_signals self) with
  | (false, rejection_reason) =>
    (Ok None, self,
     EvLog (LogSignalRejected rejection_reason)
       :: record_rejected_signal env signal rejection_reason)
  | (true, _) =>
  let '(within_limits, self) := check_rate_limits self env in
  if negb within_limits
  then (Ok None, self, [EvLog LogRateLimitExceeded]) else
  if fltb (daily_pnl self) (fneg (max_daily_loss (risk_limits self)))
  then (Ok None, self,
      EvLog (LogDailyLossLimit (daily_pnl self))
        :: send_alert (alert_callback self)
             (DailyLossAlert (daily_pnl self))) else
  let in_cooldown :=
  match last_loss_time self with
  | Some last_loss =>
      let seconds_since_loss := env_now_cooldown env - last_loss in
      if seconds_since_loss <? cooldown_after_loss_seconds (risk_limits self)
      then Some seconds_since_loss else None
  | None => None
  end in
  match in_cooldown with
  | Some seconds_since_loss =>
    (Ok None, self, [EvLog (LogCooldown seconds_since_loss)])
  | None => size_and_place self env signal
  end end end.
End WithFloat.
Arguments t F : clear implicits.
Arguments Env F : clear implicits.
End TradeExecutor.

(** ** PositionManager *)

Module ExitCondition.
Definition PROFIT_TARGET : string := "profit_target".
Definition STOP_LOSS : string := "stop_loss".
Definition TIME_DECAY : string := "time_decay".
Definition MANUAL : string := "manual".
Definition MARKET_CLOSED : string := "market_closed".
End ExitCondition.

(** [market.close_time] once read: a point in time from which the clock can
    be subtracted, or a value on which the parsing or the subtraction
    raises. *)
Inductive CloseTime : Set :=
| ClosesAt (t : datetime)
| Unreadable.

(** The fields of [Market] ([src/api/kalshi_client.py]) that the position
    manager reads. *)
Record Market (F : Type) : Type := {
  market_ticker : string;
  market_status : string;
  market_yes_bid : F;
  market_last_price : option F;
  market_close_time : option CloseTime
}.
Arguments market_ticker {F} _.
Arguments market_status {F} _.
Arguments market_yes_bid {F} _.
Arguments market_last_price {F} _.
Arguments market_close_time {F} _.

Module PositionManager.
Section WithFloat.
Context {F : Type} {float_ops : PyFloat F}.

Record t : Type := {
  profit_target_multiplier : F;
  stop_loss_pct : F;
  time_before_close_hours : F;
  alert_callback : bool
  }.

Definition init (config : Config F) (alert_callback : bool) : t :=
  {| profit_target_multiplier :=
     dict_get (cfg_profit_target_multiplier config) (lit 2.0);
   stop_loss_pct := dict_get (cfg_stop_loss_percentage config) (lit 0.30);
   time_before_close_hours :=
     dict_get (cfg_position_timeout_hours config) (of_int 24);
   alert_callback := alert_callback |}.

(** The answers of the outside world during one [_check_position]. *)
Record Env : Type := {
  env_market : option (Market F);   (* [kalshi.get_market(ticker)] *)
  env_now : datetime;               (* [datetime.now()] *)
  env_broker : BrokerReply;         (* the answer to the closing order *)
  env_utcnow : datetime             (* [datetime.utcnow()] *)
  }.

(** The [_close_position] call that [_check_position] ends in, if any:
  the price and the reason it passes. *)
Inductive Exit : Type :=
  | Hold
  | Close (price : option F) (reason : string).

(** [market.status in ["closed", "settled"]] *)
Definition market_is_closed (m : Market F) : bool :=
  String.eqb (market_status m) "closed"
  || String.eqb (market_status m) "settled".

(** The target price of lines 119-123. *)
Definition profit_target (self : t) (trade : Trade F) : F :=
  if String.eqb (trade_side trade) "yes"
  then fmul (trade_entry_price trade)
       (fadd (of_int 1) (fmul (profit_target_multiplier self) (lit 0.05)))
  else fmul (trade_entry_price trade)
       (fsub (of_int 1) (fmul (profit_target_multiplier self) (lit 0.05))).

(** The body of [_check_position] up to its [_close_position] call. *)
Definition exit_decision (self : t) (env : Env) (trade : Trade F) : Exit :=
  match env_market env with
  | None => Hold
  | Some market =>
  if market_is_closed market
  then Close (market_last_price market) ExitCondition.MARKET_CLOSED else
  let current_price :=
  if truthy_opt (market_last_price market)
  then market_last_price market
  else Some (market_yes_bid market) in
  match current_price with
  | None => Hold
  | Some current_price =>
  if negb (truthy current_price) then Hold else
  let entry_price := trade_entry_price trade in
  let pnl_per_contract :=
  if String.eqb (trade_side trade) "yes"
  then fsub current_price entry_price
  else fsub entry_price current_price in
  let pnl_pct :=
  if fltb (of_int 0) entry_price
  then fdiv pnl_per_contract entry_price
  else of_int 0 in
  let profit_target := profit_target self trade in
  if String.eqb (trade_side trade) "yes" && fleb profit_target current_price
  then Close (Some current_price) ExitCondition.PROFIT_TARGET else
  if String.eqb (trade_side trade) "no" && fleb current_price profit_target
  then Close (Some current_price) ExitCondition.PROFIT_TARGET else
  if fltb pnl_pct (fneg (stop_loss_pct self))
  then Close (Some current_price) ExitCondition.STOP_LOSS else
  match market_close_time market with
  | Some (ClosesAt close_time) =>
    let hours_until_close :=
      fdiv (of_int (close_time - env_now env)) (of_int 3600) in
    if fltb hours_until_close (time_before_close_hours self)
    then Close (Some current_price) ExitCondition.TIME_DECAY
    else Hold
  | Some Unreadable => Hold
  | None => Hold
  end end end.

(** The [except Exception] clause of [_close_position]. *)
Definition close_failed (self : t) (trade : Trade F) (evs : list (Event F))
  (e : exn) : Trade F * list (Event F) :=
  (trade, evs ++ send_alert (alert_callback self)
                 (CloseErrorAlert (trade_ticker trade) e)).

Definition close_position (self : t) (env : Env) (trade : Trade F)
  (current_price : option F) (reason : string)
  : Trade F * list (Event F) :=
  let opposite_side :=
  if String.eqb (trade_side trade) "yes" then "no" else "yes" in
  match current_price with
  | None => close_failed self trade [] TypeError
  | Some current_price =>
  match to_int (fmul current_price (of_int 100)) with
  | Raise e => close_failed self trade [] e
  | Ok price_cents =>
  match kalshi_place_order (env_broker env) opposite_side
        (trade_quantity trade) price_cents with
  | Raise e =>
    close_failed self trade
      [EvPlaceOrder false (trade_ticker trade) opposite_side
         (trade_quantity trade) price_cents None] e
  | Ok None =>
    (trade,
     [EvPlaceOrder false (trade_ticker trade) opposite_side
        (trade_quantity trade) price_cents None])
  | Ok (Some order) =>
    let evs := [EvPlaceOrder false (trade_ticker trade) opposite_side
                  (trade_quantity trade) price_cents (Some order)] in
    let entry_price := trade_entry_price trade in
    let exit_price := current_price in
    let pnl_per_contract :=
      if String.eqb (trade_side trade) "yes"
      then fsub exit_price entry_price
      else fsub entry_price exit_price in
    let total_pnl := fmul pnl_per_contract (of_int (trade_quantity trade)) in
    let fees :=
      if fltb (of_int 0) total_pnl
      then fmul (py_abs total_pnl) (lit 0.03)
      else of_int 0 in
    let net_pnl := fsub total_pnl fees in
    let trade :=
      {| trade_signal_id := trade_signal_id trade;
         trade_order_id := trade_order_id trade;
         trade_ticker := trade_ticker trade;
         trade_side := trade_side trade;
         trade_quantity := trade_quantity trade;
         trade_entry_price := trade_entry_price trade;
         trade_fill_price := trade_fill_price trade;
         trade_status := "closed";
         trade_exit_price := Some exit_price;
         trade_pnl := Some net_pnl;
         trade_fees := Some fees;
         trade_close_reason := Some reason;
         trade_closed_at := Some (env_utcnow env) |} in
    let evs := evs ++ [EvDbTradeClosed trade] in
    (* the alert text divides by the entry price *)
    match py_div pnl_per_contract entry_price with
    | Raise e => close_failed self trade evs e
    | Ok _ =>
        (trade,
         evs ++ send_alert (alert_callback self)
                  (PositionClosedAlert (trade_ticker trade) entry_price
                     exit_price net_pnl reason))
    end
  end end end.

Definition check_position (self : t) (env : Env) (trade : Trade F)
  : Trade F * list (Event F) :=
  match exit_decision self env trade with
  | Hold => (trade, [])
  | Close price reason => close_position self env trade price reason
  end.

(** [monitor_positions]: the trades of the store with status ["open"] are
    checked one after the other, each in the world it meets; [world] gives
    the answers of the outside world during the check of a trade.  The
    result is the table after the pass and the trace of the pass. *)
Fixpoint monitor_positions (self : t) (world : Trade F -> Env)
    (trades : list (Trade F)) : list (Trade F) * list (Event F) :=
  match trades with
  | [] => ([], [])
  | trade :: rest =>
      let '(trade', evs) :=
        if String.eqb (trade_status trade) "open"
        then check_position self (world trade) trade
        else (trade, []) in
      let '(rest', evs') := monitor_positions self world rest in
      (trade' :: rest', evs ++ evs')
  end.

(** An entry of ["positions"] in the dict of [get_position_summary]. *)
Record PositionDetail : Type := {
  pd_ticker : string;
  pd_side : string;
  pd_quantity : Z;
  pd_entry_price : F;
  pd_current_price : F;
  pd_unrealized_pnl : F;
  pd_pnl_pct : F
  }.

Record PositionSummary : Type := {
  total_positions : Z;
  total_unrealized_pnl : F;
  positions : list PositionDetail
  }.

(** [market.last_price or market.yes_bid or trade.entry_price] *)
Definition price_or_entry (market : Market F) (trade : Trade F) : F :=
  match market_last_price market with
  | Some p =>
      if truthy p then p
      else if truthy (market_yes_bid market) then market_yes_bid market
      else trade_entry_price trade
  | None =>
      if truthy (market_yes_bid market) then market_yes_bid market
      else trade_entry_price trade
  end.

(** One turn of the loop of [get_position_summary] (lines 256-283) on the
    running total and the list of details. *)
Definition summary_step (markets : Trade F -> option (Market F))
    (acc : F * list PositionDetail) (trade : Trade F)
    : F * list PositionDetail :=
  let '(total_unrealized_pnl, position_details) := acc in
  match markets trade with
  | None => (total_unrealized_pnl, position_details)
  | Some market =>
      let current_price := price_or_entry market trade in
      let pnl_per_contract :=
        if String.eqb (trade_side trade) "yes"
        then fsub current_price (trade_entry_price trade)
        else fsub (trade_entry_price trade) current_price in
      let total_pnl := fmul pnl_per_contract (of_int (trade_quantity trade)) in
      (fadd total_unrealized_pnl total_pnl,
       position_details ++
       [{| pd_ticker := trade_ticker trade;
           pd_side := trade_side trade;
           pd_quantity := trade_quantity trade;
           pd_entry_price := trade_entry_price trade;
           pd_current_price := current_price;
           pd_unrealized_pnl := total_pnl;
           pd_pnl_pct :=
             if fltb (of_int 0) (trade_entry_price trade)
             then fdiv pnl_per_contract (trade_entry_price trade)
             else of_int 0 |}])
  end.

(** [get_position_summary] on the Trade table [trades]; [markets] is the
    answer of [kalshi.get_market] for the ticker of a trade. *)
Definition get_position_summary (markets : Trade F -> option (Market F))
    (trades : list (Trade F)) : PositionSummary :=
  let open_trades :=
    List.filter (fun trade => String.eqb (trade_status trade) "open") trades in
  let '(total_unrealized_pnl, position_details) :=
    fold_left (summary_step markets) open_trades (of_int 0, []) in
  {| total_positions := Z.of_nat (length open_trades);
     total_unrealized_pnl := total_unrealized_pnl;
     positions := position_details |}.
End WithFloat.
Arguments t F : clear implicits.
Arguments Env F : clear implicits.
Arguments Exit F : clear implicits.
Arguments PositionDetail F : clear implicits.
Arguments PositionSummary F : clear implicits.
End PositionManager.

(** * Specification-side definitions

    The quantities the specification names, written after its words, and the
    concrete inputs on which the model is run. *)

Section SizerSpec.
Local Open Scope Q_scope.

(** The quantities of the specification's section 4.2. *)
Definition max_position_of (config : Config Q) : Q :=
  dict_get (cfg_max_position_size_usd config) 500.
Definition max_heat_of (config : Config Q) : Q :=
  dict_get (cfg_max_portfolio_heat config) 0.20.
Definition kelly_fraction_of (config : Config Q) : Q :=
  dict_get (cfg_kelly_fraction config) 0.25.
Definition remaining_heat (config : Config Q) (bankroll exposure : Q) : Q :=
  bankroll * max_heat_of config - exposure.

(** The price the sizer divides by: the signal's price in cents, or 50
    when the signal has no price. *)
Definition quoted_cents (signal : TradeSignal Q) : Z :=
  match current_price signal with
  | Some p => if Qeq_bool p 0 then 50%Z else Qtrunc (p * 100)
  | None => 50%Z
  end.


End SizerSpec.

(** ** Concrete inputs *)

(** A signal on the market ["KXTEST"], the fields that do not matter to the
    pipeline filled in once. *)
Definition a_signal {F : Type} {float_ops : PyFloat F} (id side : string)
    (confidence edge : F) (price : option F) : TradeSignal F :=
  {| signal_id := id; timestamp := 0; source := "speed_arbitrage";
     ticker := "KXTEST"; side := side; signal_type := "BUY";
     confidence := confidence; edge_percentage := edge;
     current_price := price; fair_value := lit 0.5;
     reasoning := "" |}.

(** Edge 0, quoted at 50 cents. *)
Definition signal_zero_edge : TradeSignal Q :=
  a_signal "sig-0" "yes" 0.8%Q 0%Q (Some 0.5%Q).

(** Edge 0.5 with confidence 0.8, quoted at 50 cents: Kelly asks for 15% of
    the bankroll. *)
Definition signal_strong : TradeSignal Q :=
  a_signal "sig-1" "yes" 0.8%Q 0.5%Q (Some 0.5%Q).

(** The same signal without a price. *)
Definition signal_unpriced : TradeSignal Q :=
  a_signal "sig-2" "yes" 0.8%Q 0.5%Q None.


(** ** Circuit breaker: the specification's vocabulary *)

(** A recorded result is a loss when its P&L is negative, a win when it is
    positive. *)
Definition is_loss (r : datetime * Q) : Prop := (snd r < 0)%Q.

(** A breaker two losses into a streak, threshold 3, not tripped. *)
Definition breaker_two_losses : CircuitBreaker.t :=
  {| CircuitBreaker.max_consecutive_losses := 3;
     CircuitBreaker.consecutive_losses := 2;
     CircuitBreaker.is_tripped := false;
     CircuitBreaker.trip_time := None |}.

(** Three losing closes, at seconds 10, 20 and 30. *)
Definition three_losses : list (datetime * Q) :=
  [(10, (-5)%Q); (20, (-1 # 2)%Q); (30, (-12)%Q)].

(** ** Signal validation: the five checks of the specification's 4.1 *)

Section ValidatorSpec.
Context {hashlib : Hashlib}.
Local Open Scope Q_scope.


(** The two thresholds.  The validator reads both from the same key,
    ["min_edge_threshold"], with default 0.05. *)
Definition min_confidence_of (config : Config Q) : Q :=
  dict_get (cfg_min_edge_threshold config) 0.05.
Definition min_edge_of (config : Config Q) : Q :=
  dict_get (cfg_min_edge_threshold config) 0.05.




End ValidatorSpec.

(** A stand-in for MD5 on which the model can be run. *)
Definition toy_md5 : Hashlib := fun s => ("md5:" ++ s)%string.

(** ** Paper simulator: the specification's vocabulary *)

(** 95% of a requested quantity, rounded down to whole contracts. *)
Definition filled_of (quantity : Z) : Z := (95 * quantity) / 100.

(** One cent of slippage below 90 cents, none from 90 cents on. *)
Definition fill_price_of (limit_price : Z) : Z :=
  limit_price + (if limit_price <? 90 then 1 else 0).

(** No position of the ledger is short. *)
Definition ledger_ok (pt : PaperTrader.t Q) : Prop :=
  Forall (fun kv => 0 <= PaperTrader.pos_quantity (snd kv))
         (PaperTrader.paper_positions pt).

(** ** Position supervision: Scenario C of the specification *)

Section ManagerSpec.
Context {F : Type} {float_ops : PyFloat F}.

(** The current price of a market, as the supervisor reads it: the last
    traded price, else the best yes bid; a zero is no price. *)
Definition market_price (m : Market F) : option F :=
  if truthy_opt (market_last_price m) then market_last_price m
  else if truthy (market_yes_bid m) then Some (market_yes_bid m)
  else None.

(** The current price has reached or passed the target, on the side of the
    trade. *)
Definition target_reached (self : PositionManager.t F) (trade : Trade F)
    (price : F) : bool :=
  (String.eqb (trade_side trade) "yes"
   && fleb (PositionManager.profit_target self trade) price)
  || (String.eqb (trade_side trade) "no"
      && fleb price (PositionManager.profit_target self trade)).

(** The supervisor with the default exit parameters (multiplier 2.0). *)
Definition default_manager : PositionManager.t F :=
  PositionManager.init empty_config true.

(** An open yes trade of 10 contracts entered at 0.40. *)
Definition trade_yes_40 : Trade F :=
  {| trade_signal_id := Some 1; trade_order_id := "order-1";
     trade_ticker := "KXTEST"; trade_side := "yes"; trade_quantity := 10;
     trade_entry_price := lit 0.40; trade_fill_price := None;
     trade_status := "open"; trade_exit_price := None; trade_pnl := None;
     trade_fees := None; trade_close_reason := None;
     trade_closed_at := None |}.

(** The open market of that trade, last traded at [price]. *)
Definition market_trading_at (price : F) : Market F :=
  {| market_ticker := "KXTEST"; market_status := "open";
     market_yes_bid := price; market_last_price := Some price;
     market_close_time := None |}.

Definition closing_order : Order :=
  {| order_id := "order-2"; order_ticker := "KXTEST"; order_side := "no";
     order_quantity := 10; order_price := 44; order_status := "resting";
     order_created_at := 100; order_filled_quantity := 0 |}.

(** The world in which the market has reached 0.44 and the exchange accepts
    a closing order. *)
Definition world_at_44 : PositionManager.Env F :=
  {| PositionManager.env_market := Some (market_trading_at (lit 0.44));
     PositionManager.env_now := 100;
     PositionManager.env_broker := BrokerOrder closing_order;
     PositionManager.env_utcnow := 100 |}.
End ManagerSpec.

(** ** Execution: the specification's vocabulary *)

Section ExecutorSpec.
Context {F : Type} {float_ops : PyFloat F} {hashlib : Hashlib}.
Import TradeExecutor.

(** The limit price [execute_signal] computes for a signal (line 398). *)
Definition limit_price_of (signal : TradeSignal F) : res Z :=
  if truthy_opt (current_price signal)
  then match current_price signal with
       | Some p => to_int (fmul p (of_int 100))
       | None => Raise TypeError
       end
  else Ok 50.

(** What a call leaves alone in the executor: everything but the dedup set,
    the rate window and the simulator's ledger. *)
Definition same_settings (self self' : t F) : Prop :=
  config self' = config self
  /\ risk_limits self' = risk_limits self
  /\ last_loss_time self' = last_loss_time self
  /\ daily_pnl self' = daily_pnl self
  /\ circuit_breaker self' = circuit_breaker self
  /\ trading_enabled self' = trading_enabled self
  /\ paper_trading self' = paper_trading self
  /\ alert_callback self' = alert_callback self.

(** The gates in front of the daily-loss check: kill switch, circuit
    breaker, signal validation, rate limits. *)
Definition reaches_loss_check (self : t F) (env : Env F)
    (signal : TradeSignal F) : bool :=
  trading_enabled self
  && negb (CircuitBreaker.is_tripped (circuit_breaker self))
  && fst (OrderValidator.validate_signal signal (config self)
            (seen_signals self))
  && fst (check_rate_limits self env).

(** The daily loss limit is breached. *)
Definition loss_limit_breached (self : t F) : bool :=
  fltb (daily_pnl self) (fneg (max_daily_loss (risk_limits self))).

(** The cooldown check of lines 369-376. *)
Definition in_cooldown (self : t F) (env : Env F) : bool :=
  match last_loss_time self with
  | Some last_loss =>
      env_now_cooldown env - last_loss
      <? cooldown_after_loss_seconds (risk_limits self)
  | None => false
  end.


(** The shape of every call's outcome: the settings are left alone, and
    either the gateway is not called and the dedup set is unchanged, or it is
    called exactly once, for the signal's market and side at the signal's
    limit price, and the signal is added to the dedup set exactly when an
    order came back and [_record_trade] did not raise. *)
Definition trades_at_most_once (self : t F) (env : Env F)
    (signal : TradeSignal F)
    (outcome : res (option (Trade F)) * t F * list (Event F)) : Prop :=
  let '(_, self', events) := outcome in
  same_settings self self'
  /\ ((place_orders events = [] /\ seen_signals self' = seen_signals self)
      \/ exists quantity limit_price reply,
           place_orders events
           = [EvPlaceOrder (paper_trading self) (ticker signal) (side signal)
                quantity limit_price reply]
           /\ limit_price_of signal = Ok limit_price
           /\ seen_signals self'
              = match reply, env_record_trade_raises env with
                | Some _, None =>
                    seen_signals self ∪ {[ md5_hexdigest (signal_id signal) ]}
                | _, _ => seen_signals self
                end).

(** Two calls in a row: the second runs on the state the first leaves, and
    the traces are put end to end. *)
Definition execute_twice (self : t F) (env1 env2 : Env F)
    (signal1 signal2 : TradeSignal F)
    : res (option (Trade F)) * res (option (Trade F)) * t F * list (Event F) :=
  let '(result1, self1, events1) := execute_signal self env1 signal1 in
  let '(result2, self2, events2) := execute_signal self1 env2 signal2 in
  (result1, result2, self2, events1 ++ events2).
End ExecutorSpec.

(** The executor as constructed in paper mode with an alert callback. *)
Definition paper_executor (config : Config Q) : TradeExecutor.t Q :=
  TradeExecutor.init config true true.

Definition enabled_config : Config Q :=
  {| cfg_max_position_size_usd := None;
     cfg_max_portfolio_heat := None;
     cfg_kelly_fraction := None;
     cfg_min_edge_threshold := None;
     cfg_max_trades_per_hour := None;
     cfg_max_trades_per_day := None;
     cfg_max_daily_loss := Some 1000%Q;
     cfg_stop_loss_percentage := None;
     cfg_cooldown_after_loss_seconds := None;
     cfg_circuit_breaker_consecutive_losses := None;
     cfg_enabled := Some true;
     cfg_profit_target_multiplier := None;
     cfg_position_timeout_hours := None |}.

(** Scenario D: the same executor with a daily P&L of -1001 against a loss
    limit of 1000. *)
Definition executor_in_breach : TradeExecutor.t Q :=
  let self := paper_executor enabled_config in
  {| TradeExecutor.config := TradeExecutor.config self;
     TradeExecutor.risk_limits := TradeExecutor.risk_limits self;
     TradeExecutor.seen_signals := TradeExecutor.seen_signals self;
     TradeExecutor.recent_trades := TradeExecutor.recent_trades self;
     TradeExecutor.last_loss_time := TradeExecutor.last_loss_time self;
     TradeExecutor.daily_pnl := (-1001)%Q;
     TradeExecutor.circuit_breaker := TradeExecutor.circuit_breaker self;
     TradeExecutor.trading_enabled := TradeExecutor.trading_enabled self;
     TradeExecutor.paper_trading := TradeExecutor.paper_trading self;
     TradeExecutor.paper_trader := TradeExecutor.paper_trader self;
     TradeExecutor.alert_callback := TradeExecutor.alert_callback self |}.

(** A quiet world: second 1000, no trade yet today, the signal is stored
    under id 7, and the store accepts its writes. *)
Definition quiet_world : TradeExecutor.Env Q :=
  {| TradeExecutor.env_now_rate := 1000;
     TradeExecutor.env_daily_trades := 0;
     TradeExecutor.env_now_cooldown := 1000;
     TradeExecutor.env_live_balance := 10000%Q;
     TradeExecutor.env_live_costs := [];
     TradeExecutor.env_uuid := "0123456789abcdef";
     TradeExecutor.env_now_order := 1000;
     TradeExecutor.env_broker := BrokerNoOrder;
     TradeExecutor.env_db_signal := Some 7;
     TradeExecutor.env_now_executed := 1000;
     TradeExecutor.env_now_trade := 1000;
     TradeExecutor.env_record_trade_raises := None;
     TradeExecutor.env_mark_executed_raises := None |}.

(** The same world with a store that raises in [_record_trade]. *)
Definition world_store_down : TradeExecutor.Env Q :=
  {| TradeExecutor.env_now_rate := 1000;
     TradeExecutor.env_daily_trades := 0;
     TradeExecutor.env_now_cooldown := 1000;
     TradeExecutor.env_live_balance := 10000%Q;
     TradeExecutor.env_live_costs := [];
     TradeExecutor.env_uuid := "0123456789abcdef";
     TradeExecutor.env_now_order := 1000;
     TradeExecutor.env_broker := BrokerNoOrder;
     TradeExecutor.env_db_signal := Some 7;
     TradeExecutor.env_now_executed := 1000;
     TradeExecutor.env_now_trade := 1000;
     TradeExecutor.env_record_trade_raises := Some StoreError;
     TradeExecutor.env_mark_executed_raises := None |}.

(** ** Further vocabulary *)

Section MoreSpec.
Local Open Scope Q_scope.


(** The ledger entry under a key, or the flat entry [place_order] starts
    from when there is none. *)
Definition position_at (pt : PaperTrader.t Q) (ticker side : string)
    : PaperTrader.Position Q :=
  match PaperTrader.dict_lookup (ticker ++ "_" ++ side)%string
          (PaperTrader.paper_positions pt) with
  | Some p => p
  | None =>
      {| PaperTrader.pos_ticker := ticker; PaperTrader.pos_side := side;
         PaperTrader.pos_quantity := 0;
         PaperTrader.pos_avg_price := inject_Z 0;
         PaperTrader.pos_total_cost := 0 |}
  end.

(** Gross P&L in dollars of closing a ledger entry at [exit_price] cents. *)
Definition gross_pnl (pos : PaperTrader.Position Q) (exit_price : Z) : Q :=
  inject_Z (PaperTrader.pos_quantity pos * exit_price
            - PaperTrader.pos_total_cost pos) / 100.
End MoreSpec.

Section MoreExecutorSpec.
Context {F : Type} {float_ops : PyFloat F} {hashlib : Hashlib}.
Import TradeExecutor.

(** A sequence of calls, each on the state the previous one leaves: the
    final state and the whole trace. *)
Fixpoint execute_all (self : t F) (calls : list (Env F * TradeSignal F))
    : t F * list (Event F) :=
  match calls with
  | [] => (self, [])
  | (env, signal) :: rest =>
      let '(_, self', events) := execute_signal self env signal in
      let '(self'', events') := execute_all self' rest in
      (self'', events ++ events')
  end.

(** A gateway call with a non-empty ticker, a side yes or no, a positive
    quantity and a limit price between 1 and 99 cents. *)
Definition well_formed_order (e : Event F) : Prop :=
  match e with
  | EvPlaceOrder _ ticker side quantity limit_price _ =>
      ticker <> "" /\ (side = "yes" \/ side = "no")
      /\ 0 < quantity /\ 1 <= limit_price <= 99
  | _ => True
  end.
End MoreExecutorSpec.

(** What holds of a breaker with threshold [threshold] at every moment: the
    counter is not negative, the breaker is tripped exactly when the counter
    has reached the threshold, and a trip time is recorded exactly while it
    is tripped. *)
Definition breaker_consistent (threshold : Z) (cb : CircuitBreaker.t) : Prop :=
  CircuitBreaker.max_consecutive_losses cb = threshold
  /\ 0 <= CircuitBreaker.consecutive_losses cb
  /\ (CircuitBreaker.is_tripped cb = true
      <-> threshold <= CircuitBreaker.consecutive_losses cb)
  /\ (CircuitBreaker.is_tripped cb = true
      <-> CircuitBreaker.trip_time cb <> None).

(** The exposure in dollars that [get_balance] reads off a ledger. *)
Definition ledger_exposure (d : list (string * PaperTrader.Position Q)) : Q :=
  fold_left Qplus
    (map (fun kv => inject_Z (PaperTrader.pos_total_cost (snd kv)) / 100)%Q d)
    0%Q.

(** The simulator after a first paper order: 20 yes contracts of ["KXTEST"]
    at a limit of 50 cents, of which 19 fill at 51 cents. *)
Definition ledger_after_fill : PaperTrader.t Q :=
  match PaperTrader.place_order PaperTrader.init "0f" 0 "KXTEST" "yes" 20 50
  with
  | Ok (_, pt) => pt
  | Raise _ => PaperTrader.init
  end.

Section MoreManagerSpec.
Context {F : Type} {float_ops : PyFloat F}.

(** What the supervisor never changes in a trade. *)
Definition same_position (t t' : Trade F) : Prop :=
  trade_signal_id t' = trade_signal_id t
  /\ trade_order_id t' = trade_order_id t
  /\ trade_ticker t' = trade_ticker t
  /\ trade_side t' = trade_side t
  /\ trade_quantity t' = trade_quantity t
  /\ trade_entry_price t' = trade_entry_price t
  /\ trade_fill_price t' = trade_fill_price t.

(** A trade after a supervisor step: left exactly as it was, or closed. *)
Definition untouched_or_closed (t t' : Trade F) : Prop :=
  t' = t \/ (trade_status t' = "closed" /\ same_position t t').

(** The price move in favour of a trade, per contract. *)
Definition move_in_favour (t : Trade F) (exit_price : F) : F :=
  if String.eqb (trade_side t) "yes"
  then fsub exit_price (trade_entry_price t)
  else fsub (trade_entry_price t) exit_price.
End MoreManagerSpec.

(** A market that is closed or settled, with the given last price. *)
Definition market_settled_at (price : option Q) : Market Q :=
  {| market_ticker := "KXTEST"; market_status := "settled";
     market_yes_bid := 0%Q; market_last_price := price;
     market_close_time := None |}.

Definition world_settled_at (price : option Q) : PositionManager.Env Q :=
  {| PositionManager.env_market := Some (market_settled_at price);
     PositionManager.env_now := 100;
     PositionManager.env_broker := BrokerOrder closing_order;
     PositionManager.env_utcnow := 100 |}.

(** The world in which the market of [trade_yes_40] trades at [price]. *)
Definition world_trading_at (price : Q) : PositionManager.Env Q :=
  {| PositionManager.env_market := Some (market_trading_at price);
     PositionManager.env_now := 100;
     PositionManager.env_broker := BrokerOrder closing_order;
     PositionManager.env_utcnow := 100 |}.

Section MoreExecutorOutcome.
Context {F : Type} {float_ops : PyFloat F} {hashlib : Hashlib}.
Import TradeExecutor.

(** The ways a call of [execute_signal] can end.  Either the gateway
    returned exactly one order, for a well-formed request at the signal's
    limit price: then, when the store takes its writes, the call returns the
    open trade [_record_trade] builds from that order, the signal is in the
    dedup set and the rate window ends with the time of the trade; when
    [_mark_signal_executed] raises, the call returns no Trade with the
    signal in the dedup set; when [_record_trade] raises, it returns no
    Trade and the dedup set is unchanged.  Or the gateway returned no
    order: then the call returns no Trade (or raises) and the dedup set is
    unchanged. *)
Definition traded_or_not (self : t F) (env : Env F) (signal : TradeSignal F)
    (outcome : res (option (Trade F)) * t F * list (Event F)) : Prop :=
  let '(result, self', events) := outcome in
  (exists order quantity limit_price,
     place_orders events
     = [EvPlaceOrder (paper_trading self) (ticker signal) (side signal)
          quantity limit_price (Some order)]
     /\ fst (OrderValidator.validate_order (F:=F) (ticker signal)
               (side signal) quantity limit_price) = true
     /\ limit_price_of signal = Ok limit_price
     /\ match env_record_trade_raises env, env_mark_executed_raises env with
        | None, None =>
            result
            = Ok (Some (record_trade env signal order quantity limit_price))
            /\ seen_signals self'
               = seen_signals self ∪ {[ md5_hexdigest (signal_id signal) ]}
            /\ exists window,
                 recent_trades self' = window ++ [env_now_trade env]
        | None, Some _ =>
            result = Ok None
            /\ seen_signals self'
               = seen_signals self ∪ {[ md5_hexdigest (signal_id signal) ]}
        | Some _, _ =>
            result = Ok None /\ seen_signals self' = seen_signals self
        end)
  \/ ((result = Ok None \/ exists e, result = Raise e)
      /\ count_events is_placed_order events = 0%nat
      /\ Forall well_formed_order events
      /\ seen_signals self' = seen_signals self).
End MoreExecutorOutcome.

(** The executor of the runs above once three losses in a row have been
    recorded on its breaker. *)
Definition executor_after_losses : TradeExecutor.t Q :=
  let self := paper_executor enabled_config in
  {| TradeExecutor.config := TradeExecutor.config self;
     TradeExecutor.risk_limits := TradeExecutor.risk_limits self;
     TradeExecutor.seen_signals := TradeExecutor.seen_signals self;
     TradeExecutor.recent_trades := TradeExecutor.recent_trades self;
     TradeExecutor.last_loss_time := TradeExecutor.last_loss_time self;
     TradeExecutor.daily_pnl := TradeExecutor.daily_pnl self;
     TradeExecutor.circuit_breaker :=
       CircuitBreaker.record_trades (TradeExecutor.circuit_breaker self)
         three_losses;
     TradeExecutor.trading_enabled := TradeExecutor.trading_enabled self;
     TradeExecutor.paper_trading := TradeExecutor.paper_trading self;
     TradeExecutor.paper_trader := TradeExecutor.paper_trader self;
     TradeExecutor.alert_callback := TradeExecutor.alert_callback self |}.

(** A world in which the store already counts 100 trades today. *)
Definition busy_world : TradeExecutor.Env Q :=
  {| TradeExecutor.env_now_rate := 1000;
     TradeExecutor.env_daily_trades := 100;
     TradeExecutor.env_now_cooldown := 1000;
     TradeExecutor.env_live_balance := 10000%Q;
     TradeExecutor.env_live_costs := [];
     TradeExecutor.env_uuid := "0123456789abcdef";
     TradeExecutor.env_now_order := 1000;
     TradeExecutor.env_broker := BrokerNoOrder;
     TradeExecutor.env_db_signal := Some 7;
     TradeExecutor.env_now_executed := 1000;
     TradeExecutor.env_now_trade := 1000;
     TradeExecutor.env_record_trade_raises := None;
     TradeExecutor.env_mark_executed_raises := None |}.

(** The executor of the runs above with a loss recorded at second 900. *)
Definition executor_in_cooldown : TradeExecutor.t Q :=
  let self := paper_executor enabled_config in
  {| TradeExecutor.config := TradeExecutor.config self;
     TradeExecutor.risk_limits := TradeExecutor.risk_limits self;
     TradeExecutor.seen_signals := TradeExecutor.seen_signals self;
     TradeExecutor.recent_trades := TradeExecutor.recent_trades self;
     TradeExecutor.last_loss_time := Some 900;
     TradeExecutor.daily_pnl := TradeExecutor.daily_pnl self;
     TradeExecutor.circuit_breaker := TradeExecutor.circuit_breaker self;
     TradeExecutor.trading_enabled := TradeExecutor.trading_enabled self;
     TradeExecutor.paper_trading := TradeExecutor.paper_trading self;
     TradeExecutor.paper_trader := TradeExecutor.paper_trader self;
     TradeExecutor.alert_callback := TradeExecutor.alert_callback self |}.

(** * Properties *)

(** ** Exact arithmetic: the boolean tests on [Q] *)

Section QTests.
Local Open Scope Q_scope.

Lemma Qltb_lt (x y : Q) : Qltb x y = true <-> x < y.
Proof. unfold Qltb, Qlt. apply Z.ltb_lt. Qed.

Lemma Qltb_ge (x y : Q) : Qltb x y = false <-> y <= x.
Proof.
  unfold Qltb, Qle. rewrite Z.ltb_ge. reflexivity.
Qed.

Lemma Qle_bool_gt (x y : Q) : Qle_bool x y = false <-> y < x.
Proof.
  rewrite <- not_true_iff_false, Qle_bool_iff. split.
  - apply Qnot_le_lt.
  - apply Qlt_not_le.
Qed.

Lemma Qeq_bool_false (x y : Q) : Qeq_bool x y = false <-> ~ x == y.
Proof. rewrite <- not_true_iff_false, Qeq_bool_iff. reflexivity. Qed.

Lemma inject_Z_nonzero (z : Z) :
  z <> 0%Z -> Qeq_bool (inject_Z z) (inject_Z 0) = false.
Proof.
  intros Hz. apply Qeq_bool_false. intros Heq.
  apply Hz. unfold Qeq in Heq. simpl in Heq. lia.
Qed.

(** On a non-negative rational, truncation is the floor. *)
Lemma Qtrunc_floor (x : Q) : 0 <= x -> Qtrunc x = Qfloor x.
Proof.
  destruct x as [n d]. unfold Qle, Qtrunc, Qfloor. simpl. intros Hn.
  apply Z.quot_div_nonneg; lia.
Qed.

Lemma Qtrunc_zero (x : Q) : x == 0 -> Qtrunc x = 0%Z.
Proof.
  destruct x as [n d]. unfold Qeq, Qtrunc. simpl. intros Hn.
  replace n with 0%Z by lia. reflexivity.
Qed.

Lemma py_min_Qmin (a b : Q) : py_min a b == Qmin a b.
Proof.
  unfold py_min. cbn [fltb Q_PyFloat].
  destruct (Qltb b a) eqn:E.
  - apply Qltb_lt in E. symmetry. apply Q.min_r. lra.
  - apply Qltb_ge in E. symmetry. apply Q.min_l. exact E.
Qed.

Lemma py_min_le_l (a b : Q) : py_min a b <= a.
Proof. rewrite py_min_Qmin. apply Q.le_min_l. Qed.

Lemma py_min_le_r (a b : Q) : py_min a b <= b.
Proof. rewrite py_min_Qmin. apply Q.le_min_r. Qed.
End QTests.

(** ** Position sizing over exact arithmetic *)

Section SizerFacts.
Local Open Scope Q_scope.
Import PositionSizer.

Lemma kelly_degenerate (edge confidence kelly_fraction bankroll : Q) :
  edge <= 0 \/ 1 <= edge ->
  kelly_position_size edge confidence kelly_fraction bankroll = Ok 0.
Proof.
  intros Hedge. unfold kelly_position_size. cbn [fleb of_int Q_PyFloat].
  assert (Qle_bool edge (inject_Z 0) || Qle_bool (inject_Z 1) edge = true)
    as ->; [|reflexivity].
  apply orb_true_iff.
  destruct Hedge as [Hle|Hge]; [left|right]; apply Qle_bool_iff; assumption.
Qed.

Lemma kelly_total (edge confidence kelly_fraction bankroll : Q) :
  exists kelly_usd,
    kelly_position_size edge confidence kelly_fraction bankroll
    = Ok kelly_usd.
Proof.
  unfold kelly_position_size. cbn [fleb of_int Q_PyFloat].
  destruct (Qle_bool edge (inject_Z 0) || Qle_bool (inject_Z 1) edge) eqn:E.
  - eexists; reflexivity.
  - apply orb_false_iff in E. destruct E as [E0 E1].
    apply Qle_bool_gt in E0, E1.
    change (inject_Z 0) with 0 in *. change (inject_Z 1) with 1 in *.
    unfold py_div. cbn [feqb fsub fdiv fmul of_int Q_PyFloat mbind res_bind].
    change (inject_Z 0) with 0. change (inject_Z 1) with 1.
    assert (Qeq_bool (1 - edge) 0 = false) as ->.
    { apply Qeq_bool_false. lra. }
    cbn [mbind res_bind].
    assert (Qeq_bool (edge / (1 - edge)) 0 = false) as ->.
    { apply Qeq_bool_false.
      assert (0 < edge / (1 - edge)); [|lra].
      apply Qlt_shift_div_l; lra. }
    eexists; reflexivity.
Qed.

(** The heat gate: no capacity left, no contracts. *)
Lemma sizer_heat_limit (signal : TradeSignal Q) (config : Config Q)
    (bankroll exposure : Q) :
  remaining_heat config bankroll exposure <= 0 ->
  calculate_position_size signal config bankroll exposure
  = Ok (0%Z, HeatLimitReached).
Proof.
  intros Hheat. unfold calculate_position_size.
  destruct (kelly_total (edge_percentage signal) (confidence signal)
              (dict_get (cfg_kelly_fraction config) (lit 0.25)) bankroll)
    as [kelly_usd ->].
  cbn [mbind res_bind fleb fsub fmul of_int lit Q_PyFloat].
  apply Qle_bool_iff in Hheat. unfold remaining_heat, max_heat_of in Hheat.
  change (inject_Z 0) with 0. rewrite Hheat. reflexivity.
Qed.

(** Past the heat gate, with a price that is not below one cent, the
    sizer returns; this is its result, in the specification's terms. *)
Lemma sizer_sized (signal : TradeSignal Q) (config : Config Q)
    (bankroll exposure kelly_usd : Q) :
  kelly_position_size (edge_percentage signal) (confidence signal)
    (kelly_fraction_of config) bankroll = Ok kelly_usd ->
  0 < remaining_heat config bankroll exposure ->
  quoted_cents signal <> 0%Z ->
  let size_usd :=
    py_min (py_min kelly_usd (max_position_of config))
           (remaining_heat config bankroll exposure) in
  let contracts :=
    Z.max 1 (Qtrunc (size_usd * 100 / inject_Z (quoted_cents signal))) in
  calculate_position_size signal config bankroll exposure
  = Ok (contracts,
        PositionSizing kelly_usd size_usd contracts (quoted_cents signal)).
Proof.
  intros Hkelly Hheat Hcents size_usd contracts.
  unfold calculate_position_size.
  unfold kelly_fraction_of in Hkelly. cbn [lit Q_PyFloat]. rewrite Hkelly.
  assert ((if truthy_opt (current_price signal)
           then match current_price signal with
                | Some p => to_int (fmul p (of_int 100))
                | None => Raise TypeError
                end
           else Ok 50%Z) = Ok (quoted_cents signal)) as ->.
  { unfold quoted_cents, truthy_opt, truthy.
    cbn [feqb fmul of_int to_int Q_PyFloat].
    destruct (current_price signal) as [p|]; [|reflexivity].
    change (inject_Z 0) with 0. destruct (Qeq_bool p 0); reflexivity. }
  cbn [mbind res_bind fleb fsub fmul of_int lit Q_PyFloat].
  apply Qle_bool_gt in Hheat. unfold remaining_heat, max_heat_of in Hheat.
  change (inject_Z 0) with 0. rewrite Hheat.
  unfold contracts_at, py_div.
  cbn [mbind res_bind feqb fdiv fmul of_int to_int Q_PyFloat].
  rewrite (inject_Z_nonzero _ Hcents). reflexivity.
Qed.
End SizerFacts.

(** ** C1, C5: what the sizer returns *)

Section SizerClaims.
Local Open Scope Q_scope.
Import PositionSizer.

(** C1, as stated, fails: a signal with edge 0 (so a Kelly size and a final
    dollar size of 0) on a bankroll of 10000 with no exposure is sized at
    1 contract, not 0. *)
Lemma sizer_zero_edge_counterexample :
  edge_percentage signal_zero_edge <= 0 /\
  calculate_position_size signal_zero_edge empty_config 10000 0
  = Ok (1%Z, PositionSizing 0 0 1 50).
Proof. split; [discriminate | reflexivity]. Qed.

(** C1, amended.  For an edge outside (0,1) the Kelly dollar size is 0.  The
    sizer returns 0 contracts exactly at the heat gate (remaining capacity
    <= 0); past it, for a price of at least one cent or no price, it returns
    at least 1 contract whatever the dollar size, and exactly 1 contract when
    the final dollar size is 0. *)
Theorem sizer_contracts_amended (signal : TradeSignal Q) (config : Config Q)
    (bankroll exposure : Q) :
  (edge_percentage signal <= 0 \/ 1 <= edge_percentage signal ->
   kelly_position_size (edge_percentage signal) (confidence signal)
     (kelly_fraction_of config) bankroll = Ok 0) /\
  (remaining_heat config bankroll exposure <= 0 ->
   calculate_position_size signal config bankroll exposure
   = Ok (0%Z, HeatLimitReached)) /\
  (0 < remaining_heat config bankroll exposure ->
   quoted_cents signal <> 0%Z ->
   exists kelly_usd size_usd contracts,
     calculate_position_size signal config bankroll exposure
     = Ok (contracts,
           PositionSizing kelly_usd size_usd contracts (quoted_cents signal))
     /\ (1 <= contracts)%Z
     /\ (size_usd == 0 -> contracts = 1%Z)).
Proof.
  split; [apply kelly_degenerate|].
  split; [apply sizer_heat_limit|].
  intros Hheat Hcents.
  destruct (kelly_total (edge_percentage signal) (confidence signal)
              (kelly_fraction_of config) bankroll) as [kelly_usd Hkelly].
  exists kelly_usd. eexists. eexists.
  split; [apply (sizer_sized _ _ _ _ _ Hkelly Hheat Hcents)|].
  split; [lia|].
  intros Hzero. rewrite Qtrunc_zero; [reflexivity|].
  rewrite Hzero. field. intros Hc. apply Hcents.
  unfold Qeq in Hc. simpl in Hc. lia.
Qed.

Lemma sizer_contracts_amended_witness :
  edge_percentage signal_zero_edge <= 0 /\
  0 < remaining_heat empty_config 10000 0 /\
  quoted_cents signal_zero_edge <> 0%Z /\
  kelly_position_size (edge_percentage signal_zero_edge)
    (confidence signal_zero_edge) (kelly_fraction_of empty_config) 10000
  = Ok 0 /\
  exists kelly_usd size_usd contracts,
    calculate_position_size signal_zero_edge empty_config 10000 0
    = Ok (contracts,
          PositionSizing kelly_usd size_usd contracts
            (quoted_cents signal_zero_edge))
    /\ (1 <= contracts)%Z
    /\ (size_usd == 0 -> contracts = 1%Z).
Proof.
  assert (H0 : edge_percentage signal_zero_edge <= 0) by discriminate.
  assert (H1 : 0 < remaining_heat empty_config 10000 0) by reflexivity.
  assert (H2 : quoted_cents signal_zero_edge <> 0%Z) by discriminate.
  destruct (sizer_contracts_amended signal_zero_edge empty_config 10000 0)
    as (Hk & _ & Hsized).
  split; [exact H0|]. split; [exact H1|]. split; [exact H2|].
  split.
  - apply Hk. left. exact H0.
  - apply Hsized; [exact H1 | exact H2].
Defined.

(** C5.  The Kelly dollar size always exists; at the heat gate (remaining
    heat <= 0) the result is 0 contracts; past it the final dollar size the
    sizer works with (and logs) is min(kelly_usd, max_position_size_usd,
    remaining_heat), hence exceeds neither bound. *)
Theorem sizer_dollar_size (signal : TradeSignal Q) (config : Config Q)
    (bankroll exposure : Q) :
  exists kelly_usd,
    kelly_position_size (edge_percentage signal) (confidence signal)
      (kelly_fraction_of config) bankroll = Ok kelly_usd /\
    (remaining_heat config bankroll exposure <= 0 ->
     calculate_position_size signal config bankroll exposure
     = Ok (0%Z, HeatLimitReached)) /\
    (0 < remaining_heat config bankroll exposure ->
     quoted_cents signal <> 0%Z ->
     exists size_usd contracts,
       calculate_position_size signal config bankroll exposure
       = Ok (contracts,
             PositionSizing kelly_usd size_usd contracts (quoted_cents signal))
       /\ size_usd == Qmin (Qmin kelly_usd (max_position_of config))
                           (remaining_heat config bankroll exposure)
       /\ size_usd <= max_position_of config
       /\ size_usd <= remaining_heat config bankroll exposure).
Proof.
  destruct (kelly_total (edge_percentage signal) (confidence signal)
              (kelly_fraction_of config) bankroll) as [kelly_usd Hkelly].
  exists kelly_usd. split; [exact Hkelly|].
  split; [apply sizer_heat_limit|].
  intros Hheat Hcents. eexists. eexists.
  split; [apply (sizer_sized _ _ _ _ _ Hkelly Hheat Hcents)|].
  split; [|split].
  - rewrite py_min_Qmin. rewrite (py_min_Qmin kelly_usd). reflexivity.
  - eapply Qle_trans; [apply py_min_le_l | apply py_min_le_r].
  - apply py_min_le_r.
Qed.

Lemma sizer_dollar_size_witness :
  0 < remaining_heat empty_config 10000 0 /\
  quoted_cents signal_strong <> 0%Z /\
  exists kelly_usd size_usd contracts,
    kelly_position_size (edge_percentage signal_strong)
      (confidence signal_strong) (kelly_fraction_of empty_config) 10000
    = Ok kelly_usd /\
    calculate_position_size signal_strong empty_config 10000 0
    = Ok (contracts,
          PositionSizing kelly_usd size_usd contracts
            (quoted_cents signal_strong))
    /\ size_usd == Qmin (Qmin kelly_usd (max_position_of empty_config))
                        (remaining_heat empty_config 10000 0)
    /\ size_usd <= max_position_of empty_config
    /\ size_usd <= remaining_heat empty_config 10000 0.
Proof.
  assert (H1 : 0 < remaining_heat empty_config 10000 0) by reflexivity.
  assert (H2 : quoted_cents signal_strong <> 0%Z) by discriminate.
  split; [exact H1|]. split; [exact H2|].
  destruct (sizer_dollar_size signal_strong empty_config 10000 0)
    as (kelly_usd & Hkelly & _ & Hsized).
  destruct (Hsized H1 H2) as (size_usd & contracts & Hres).
  exists kelly_usd, size_usd, contracts. split; [exact Hkelly | exact Hres].
Defined.
End SizerClaims.

(** ** C2, C4: the circuit breaker *)

Section BreakerFacts.
Import CircuitBreaker.

Lemma record_trade_loss (now : datetime) (cb : t) (pnl : Q) :
  (pnl < 0)%Q ->
  record_trade now cb pnl =
  let cb' := {| max_consecutive_losses := max_consecutive_losses cb;
                consecutive_losses := consecutive_losses cb + 1;
                is_tripped := is_tripped cb;
                trip_time := trip_time cb |} in
  if max_consecutive_losses cb <=? consecutive_losses cb + 1
  then trip now cb' else cb'.
Proof.
  intros Hloss. unfold record_trade. cbn [fltb of_int Q_PyFloat].
  apply Qltb_lt in Hloss. change (inject_Z 0) with 0%Q. rewrite Hloss.
  reflexivity.
Qed.

Lemma record_trade_not_loss (now : datetime) (cb : t) (pnl : Q) :
  (0 <= pnl)%Q ->
  record_trade now cb pnl =
  {| max_consecutive_losses := max_consecutive_losses cb;
     consecutive_losses := 0;
     is_tripped := false;
     trip_time := if is_tripped cb then None else trip_time cb |}.
Proof.
  intros Hpnl. unfold record_trade. cbn [fltb of_int Q_PyFloat].
  apply Qltb_ge in Hpnl. change (inject_Z 0) with 0%Q. rewrite Hpnl.
  cbn [is_tripped]. destruct (is_tripped cb) eqn:E; [reflexivity|].
  reflexivity.
Qed.




(** A streak of losses adds its length to the counter; the breaker it leaves
    is tripped as soon as the counter has reached the threshold. *)
Lemma losing_streak (cb : t) (losses : list (datetime * Q)) :
  Forall is_loss losses ->
  let cb' := record_trades cb losses in
  consecutive_losses cb' = consecutive_losses cb + Z.of_nat (length losses)
  /\ max_consecutive_losses cb' = max_consecutive_losses cb
  /\ (losses <> [] ->
      max_consecutive_losses cb <= consecutive_losses cb' ->
      is_tripped cb' = true)
  /\ (is_tripped cb = false ->
      consecutive_losses cb' < max_consecutive_losses cb ->
      is_tripped cb' = false).
Proof.
  intros Hlosses. revert cb.
  induction Hlosses as [|r losses Hr _ IH]; intros cb; cbv zeta.
  - cbn [record_trades fold_left length Z.of_nat].
    repeat split; try lia; try congruence.
  - unfold record_trades in *. cbn [fold_left length].
    specialize (IH (record_trade (fst r) cb (snd r))). cbv zeta in IH.
    destruct IH as (Hcount & Hmax & Htrip & Hclosed).
    unfold is_loss in Hr.
    rewrite (record_trade_loss _ _ _ Hr) in *. cbv zeta in *.
    set (bumped := {| max_consecutive_losses := max_consecutive_losses cb;
                      consecutive_losses := consecutive_losses cb + 1;
                      is_tripped := is_tripped cb;
                      trip_time := trip_time cb |}) in *.
    assert (Hstep :
      forall b : bool,
        consecutive_losses (if b then trip (fst r) bumped else bumped)
        = consecutive_losses cb + 1
        /\ max_consecutive_losses (if b then trip (fst r) bumped else bumped)
           = max_consecutive_losses cb
        /\ (b = true ->
            is_tripped (if b then trip (fst r) bumped else bumped) = true)
        /\ (b = false ->
            is_tripped (if b then trip (fst r) bumped else bumped)
            = is_tripped cb)).
    { intros [|]; unfold trip, bumped; cbn [is_tripped];
        destruct (is_tripped cb); cbn; repeat split; congruence. }
    destruct (Hstep (max_consecutive_losses cb <=? consecutive_losses cb + 1))
      as (Hc1 & Hm1 & Ht1 & Hf1).
    rewrite Hc1 in Hcount. rewrite Hm1 in Hmax, Htrip, Hclosed.
    split; [lia|]. split; [exact Hmax|]. split.
    + intros _ Hreach. destruct losses as [|r' losses'].
      * cbn [fold_left]. apply Ht1. apply Z.leb_le.
        cbn [fold_left length Z.of_nat] in Hreach, Hcount. lia.
      * apply Htrip; [discriminate | exact Hreach].
    + intros Hnot Hbelow. apply Hclosed; [|exact Hbelow].
      rewrite Hf1; [exact Hnot|]. apply Z.leb_gt. lia.
Qed.
End BreakerFacts.

Section BreakerClaims.
Import CircuitBreaker.



(** C4 fails on the code.  A result with P&L exactly 0 takes the [else]
    branch of [record_trade], the one commented "Reset on win": whatever the
    breaker, the counter is 0 afterwards and the breaker is Closed.  On a
    breaker two losses into a streak the counter goes from 2 to 0. *)
Theorem breakeven_resets_counter :
  (forall (now : datetime) (cb : t),
     consecutive_losses (record_trade now cb 0%Q) = 0
     /\ is_tripped (record_trade now cb 0%Q) = false)
  /\ consecutive_losses breaker_two_losses = 2
  /\ consecutive_losses (record_trade 40 breaker_two_losses 0%Q) = 0.
Proof.
  split; [|split; reflexivity].
  intros now cb. rewrite record_trade_not_loss by apply Qle_refl.
  split; reflexivity.
Qed.
End BreakerClaims.

(** ** C6: the order of the validator's checks, and what they test *)

Section ValidatorClaims.
Context {hashlib : Hashlib}.
Local Open Scope Q_scope.
Import OrderValidator.

Lemma side_is_yes_or_no_spec (s : string) :
  side_is_yes_or_no s = true <-> s = "yes" \/ s = "no".
Proof.
  unfold side_is_yes_or_no. rewrite orb_true_iff, !String.eqb_eq. reflexivity.
Qed.



End ValidatorClaims.

Section ValidatorRuns.
Local Open Scope Q_scope.

End ValidatorRuns.

(** ** C9: the paper simulator's fill *)

Section PaperClaims.
Import PaperTrader.

Lemma fill_quantity_95 (pt : t Q) (quantity : Z) :
  simulated_fill_rate pt = 0.95%Q ->
  0 <= quantity ->
  fill_quantity_of pt quantity = Ok (filled_of quantity).
Proof.
  intros Hrate Hq. unfold fill_quantity_of, filled_of.
  cbn [to_int fmul of_int Q_PyFloat]. rewrite Hrate. f_equal.
  unfold Qtrunc. cbn [Qnum Qden Qmult inject_Z].
  rewrite Z.quot_div_nonneg by lia. f_equal. lia.
Qed.

Lemma dict_lookup_in (key : string) (p : Position Q)
    (d : list (string * Position Q)) :
  dict_lookup key d = Some p -> exists k, In (k, p) d.
Proof.
  induction d as [|[k v] d IH]; cbn [dict_lookup]; [discriminate|].
  destruct (String.eqb k key).
  - intros [= ->]. exists k. left. reflexivity.
  - intros Hd. destruct (IH Hd) as [k' Hin]. exists k'. right. exact Hin.
Qed.

(** C9, as stated, fails: of a paper order for 1 contract at 50 cents
    nothing fills, the order is cancelled and the trade record has no fill
    price; 0 is not 95% of 1. *)
Lemma paper_fill_counterexample :
  match place_order (F:=Q) init "0f" 0 "KXTEST" "yes" 1 50 with
  | Ok (order, pt') =>
      po_filled_count order = 0
      /\ po_status order = "canceled"
      /\ map tr_fill_price (paper_trades pt') = [None]
      /\ 100 * po_filled_count order <> 95 * 1
  | Raise _ => False
  end.
Proof. vm_compute. repeat split; discriminate. Qed.

(** C9, amended.  On a simulator with the fill rate 0.95 it is constructed
    with, a paper order for q >= 1 contracts fills floor(0.95 q) contracts,
    which is always fewer than q.  For q = 1 that is nothing: the order is
    cancelled and has no fill price.  For q >= 2 the order is a partial fill
    at the limit price plus 1 cent when the limit is below 90 cents, and at
    the limit price otherwise. *)
Theorem paper_fill_amended (pt : t Q) (uuid : string) (now : datetime)
    (ticker side : string) (quantity limit_price : Z) :
  simulated_fill_rate pt = 0.95%Q ->
  ledger_ok pt ->
  1 <= quantity ->
  exists order pt' record,
    place_order pt uuid now ticker side quantity limit_price = Ok (order, pt')
    /\ paper_trades pt' = paper_trades pt ++ [record]
    /\ po_filled_count order = filled_of quantity
    /\ tr_fill_quantity record = filled_of quantity
    /\ filled_of quantity < quantity
    /\ (quantity = 1 ->
        filled_of quantity = 0 /\ po_status order = "canceled"
        /\ tr_fill_price record = None)
    /\ (2 <= quantity ->
        0 < filled_of quantity /\ po_status order = "partial"
        /\ tr_fill_price record = Some (fill_price_of limit_price)).
Proof.
  intros Hrate Hledger Hq.
  assert (Hless : filled_of quantity < quantity).
  { unfold filled_of. apply Z.div_lt_upper_bound; lia. }
  unfold place_order.
  rewrite (fill_quantity_95 pt quantity Hrate) by lia.
  cbn [mbind res_bind].
  destruct (0 <? filled_of quantity) eqn:Hfill.
  - apply Z.ltb_lt in Hfill.
    set (key := (ticker ++ "_" ++ side)%string).
    set (pos := match dict_lookup key (paper_positions pt) with
                | Some p => p
                | None => _
                end).
    assert (Hpos : 0 <= pos_quantity pos).
    { unfold pos. destruct (dict_lookup key (paper_positions pt)) as [p|] eqn:E.
      - destruct (dict_lookup_in _ _ _ E) as [k Hin].
        unfold ledger_ok in Hledger. rewrite Forall_forall in Hledger.
        apply (Hledger (k, p)). apply list_elem_of_In. exact Hin.
      - cbn [pos_quantity]. lia. }
    unfold py_div. cbn [feqb of_int Q_PyFloat].
    rewrite inject_Z_nonzero by lia.
    cbn [mbind res_bind].
    eexists. eexists. eexists.
    split; [reflexivity|]. split; [reflexivity|].
    cbn [po_filled_count tr_fill_quantity po_status tr_fill_price].
    split; [reflexivity|]. split; [reflexivity|]. split; [exact Hless|].
    assert (Hneq : (filled_of quantity =? quantity) = false)
      by (apply Z.eqb_neq; lia).
    rewrite Hneq. split.
    + intros ->. vm_compute in Hfill. discriminate.
    + intros _. split; [exact Hfill|]. split; reflexivity.
  - apply Z.ltb_ge in Hfill.
    eexists. eexists. eexists.
    split; [reflexivity|]. split; [reflexivity|].
    cbn [po_filled_count tr_fill_quantity po_status tr_fill_price].
    assert (Hnonneg : 0 <= filled_of quantity).
    { unfold filled_of. apply Z.div_pos; lia. }
    split; [lia|]. split; [reflexivity|]. split; [exact Hless|].
    split.
    + intros _. split; [lia|]. split; reflexivity.
    + intros Hbig. exfalso.
      assert (1 <= filled_of quantity); [|lia].
      unfold filled_of. apply Z.div_le_lower_bound; lia.
Qed.

Lemma paper_fill_amended_witness :
  exists order pt' record,
    place_order (F:=Q) init "0f" 0 "KXTEST" "yes" 20 50 = Ok (order, pt')
    /\ paper_trades pt' = paper_trades (init (F:=Q)) ++ [record]
    /\ po_filled_count order = filled_of 20
    /\ tr_fill_quantity record = filled_of 20
    /\ filled_of 20 < 20
    /\ (20 = 1 ->
        filled_of 20 = 0 /\ po_status order = "canceled"
        /\ tr_fill_price record = None)
    /\ (2 <= 20 ->
        0 < filled_of 20 /\ po_status order = "partial"
        /\ tr_fill_price record = Some (fill_price_of 50)).
Proof.
  apply (paper_fill_amended init "0f" 0 "KXTEST" "yes" 20 50).
  - reflexivity.
  - constructor.
  - lia.
Defined.
End PaperClaims.

(** ** C8: the profit target *)

Section ManagerFacts.
Context {F : Type} {float_ops : PyFloat F}.
Import PositionManager.

(** Whatever the arithmetic: on a market that is found and not closed, once
    the comparison of the current price with the computed target succeeds,
    the supervisor calls [_close_position] at the current price with reason
    ["profit_target"]. *)
Lemma profit_target_exit (self : t F) (env : Env F) (trade : Trade F)
    (market : Market F) (price : F) :
  env_market env = Some market ->
  market_is_closed market = false ->
  market_price market = Some price ->
  target_reached self trade price = true ->
  exit_decision self env trade
  = Close (Some price) ExitCondition.PROFIT_TARGET.
Proof.
  intros Hmarket Hopen Hprice Hreached.
  unfold exit_decision. rewrite Hmarket, Hopen.
  unfold market_price in Hprice. unfold target_reached in Hreached.
  destruct (truthy_opt (market_last_price market)) eqn:Hlast.
  - rewrite Hprice.
    assert (Htruthy : truthy price = true).
    { rewrite Hprice in Hlast. exact Hlast. }
    rewrite Htruthy. cbn [negb].
    destruct (String.eqb (trade_side trade) "yes"
              && fleb (profit_target self trade) price); [reflexivity|].
    cbn [orb] in Hreached. rewrite Hreached. reflexivity.
  - destruct (truthy (market_yes_bid market)) eqn:Hbid; [|discriminate].
    injection Hprice as <-. cbn [negb].
    destruct (String.eqb (trade_side trade) "yes"
              && fleb (profit_target self trade) (market_yes_bid market));
      [reflexivity|].
    cbn [orb] in Hreached. rewrite Hreached. reflexivity.
Qed.
End ManagerFacts.

Section ManagerClaims.
Import PositionManager.

(** C8 on the code.  Scenario C run in the arithmetic of the program
    (binary64): the target the supervisor computes from entry 0.40 and
    multiplier 2.0 is 0.4 * (1 + 2.0 * 0.05) = 0.44000000000000006, the
    price 0.44 is below it, and the trade is left open, without any order.
    The same run over exact rationals closes the trade with reason
    ["profit_target"]. *)
Theorem profit_target_missed_at_44 :
  fltb (lit 0.44) (profit_target (F:=float) default_manager trade_yes_40) = true
  /\ exit_decision (F:=float) default_manager world_at_44 trade_yes_40 = Hold
  /\ check_position (F:=float) default_manager world_at_44 trade_yes_40
     = (trade_yes_40, [])
  /\ exit_decision (F:=Q) default_manager world_at_44 trade_yes_40
     = Close (Some 0.44%Q) "profit_target".
Proof. repeat split; vm_compute; reflexivity. Qed.

(** Over exact rationals the supervisor does close Scenario C's trade. *)
Lemma profit_target_exact_at_44 :
  let '(trade, events) :=
    check_position (F:=Q) default_manager world_at_44 trade_yes_40 in
  trade_status trade = "closed"
  /\ trade_close_reason trade = Some "profit_target"
  /\ count_events is_placed_order events = 1%nat.
Proof. vm_compute. repeat split. Qed.
End ManagerClaims.

(** ** The execution pipeline *)

Section ExecutorFacts.
Context {F : Type} {float_ops : PyFloat F} {hashlib : Hashlib}.
Import TradeExecutor.

Lemma place_orders_app (a b : list (Event F)) :
  place_orders (a ++ b) = place_orders a ++ place_orders b.
Proof. apply List.filter_app. Qed.

Lemma count_events_app (p : Event F -> bool) (a b : list (Event F)) :
  count_events p (a ++ b) = (count_events p a + count_events p b)%nat.
Proof.
  unfold count_events. rewrite List.filter_app. apply List.length_app.
Qed.

Lemma place_orders_send_alert (callback : bool) (a : Alert F) :
  place_orders (send_alert callback a) = [].
Proof. destruct callback; reflexivity. Qed.

Lemma place_orders_mark_signal_executed (env : Env F) (signal : TradeSignal F) :
  place_orders (mark_signal_executed env signal) = [].
Proof.
  unfold mark_signal_executed. destruct (env_db_signal env); reflexivity.
Qed.

Lemma place_orders_record_rejected_signal (env : Env F)
    (signal : TradeSignal F) (reason : option (Rejection F)) :
  place_orders (record_rejected_signal env signal reason) = [].
Proof.
  unfold record_rejected_signal. destruct (env_db_signal env); reflexivity.
Qed.

Lemma place_orders_cons_log (l : LogLine F) (evs : list (Event F)) :
  place_orders (EvLog l :: evs) = place_orders evs.
Proof. reflexivity. Qed.

Lemma same_settings_refl (self : t F) : same_settings self self.
Proof. repeat split. Qed.

Lemma check_rate_limits_window (self : t F) (env : Env F) :
  exists window,
    snd (check_rate_limits self env) = with_recent_trades self window.
Proof.
  unfold check_rate_limits. eexists.
  destruct (_ <=? _); [reflexivity|].
  destruct (_ <=? _); reflexivity.
Qed.
End ExecutorFacts.

Create Rewrite HintDb orders.
#[local] Hint Rewrite
  @place_orders_app @place_orders_send_alert
  @place_orders_mark_signal_executed @place_orders_record_rejected_signal
  @place_orders_cons_log @app_nil_r : orders.

Section ExecutorShape.
Context {F : Type} {float_ops : PyFloat F} {hashlib : Hashlib}.
Import TradeExecutor.

(** A branch that returns without calling the gateway. *)
Local Ltac no_order :=
  split; [repeat split | left; split; [autorewrite with orders; reflexivity
                                      | reflexivity]].

(** What follows the gateway's order: no further gateway call, the
    settings are kept, and the hash joins the dedup set unless
    [_record_trade] raises. *)
Lemma order_placed_shape (self : t F) (env : Env F) (signal : TradeSignal F)
    (evs : list (Event F)) (order : Order) (quantity limit_price : Z) :
  let '(_, self', events) :=
    order_placed self env signal evs order quantity limit_price in
  same_settings self self'
  /\ place_orders events = place_orders evs
  /\ seen_signals self'
     = match env_record_trade_raises env with
       | None => seen_signals self ∪ {[ md5_hexdigest (signal_id signal) ]}
       | Some _ => seen_signals self
       end.
Proof.
  unfold order_placed, execution_failed.
  destruct (env_record_trade_raises env) as [e|].
  { split; [repeat split|]. split; [|reflexivity].
    autorewrite with orders. reflexivity. }
  destruct (env_mark_executed_raises env) as [e|].
  - split; [repeat split|]. split; [|reflexivity].
    autorewrite with orders. reflexivity.
  - split; [repeat split|]. split; [|reflexivity].
    autorewrite with orders. reflexivity.
Qed.

Lemma place_and_record_once (self : t F) (env : Env F) (signal : TradeSignal F)
    (evs : list (Event F)) (quantity limit_price : Z) :
  place_orders evs = [] ->
  limit_price_of signal = Ok limit_price ->
  trades_at_most_once self env signal
    (place_and_record self env signal evs quantity limit_price).
Proof.
  intros Hquiet Hlimit. unfold place_and_record, trades_at_most_once.
  destruct (paper_trading self) eqn:Hpaper.
  - destruct (paper_trader self) as [pt|].
    + destruct (PaperTrader.place_order pt (env_uuid env) (env_now_order env)
                  (ticker signal) (side signal) quantity limit_price)
        as [[paper_order pt']|e].
      * match goal with
        | |- context [order_placed ?s env signal ?l ?o quantity limit_price] =>
            pose proof (order_placed_shape s env signal l o quantity
                          limit_price) as Hshape;
            destruct (order_placed s env signal l o quantity limit_price)
              as [[result self'] events]
        end.
        destruct Hshape as (Hsame & Hcalls & Hseen).
        split; [exact Hsame|]. right.
        eexists quantity, limit_price, (Some _).
        split; [|split; [exact Hlimit | exact Hseen]].
        rewrite Hcalls. autorewrite with orders. rewrite Hquiet.
        reflexivity.
      * unfold execution_failed.
        split; [repeat split|]. right.
        exists quantity, limit_price, None.
        split; [|split; [exact Hlimit | reflexivity]].
        autorewrite with orders. rewrite Hquiet. reflexivity.
    + unfold execution_failed.
      split; [repeat split|]. left. split; [|reflexivity].
      autorewrite with orders. rewrite Hquiet. reflexivity.
  - destruct (kalshi_place_order (env_broker env) (side signal)
                quantity limit_price) as [[order|]|e].
    + match goal with
      | |- context [order_placed ?s env signal ?l ?o quantity limit_price] =>
          pose proof (order_placed_shape s env signal l o quantity
                        limit_price) as Hshape;
          destruct (order_placed s env signal l o quantity limit_price)
            as [[result self'] events]
      end.
      destruct Hshape as (Hsame & Hcalls & Hseen).
      split; [exact Hsame|]. right.
      exists quantity, limit_price, (Some order).
      split; [|split; [exact Hlimit | exact Hseen]].
      rewrite Hcalls. autorewrite with orders. rewrite Hquiet.
      reflexivity.
    + split; [repeat split|]. right.
      exists quantity, limit_price, None.
      split; [|split; [exact Hlimit | reflexivity]].
      autorewrite with orders. rewrite Hquiet. reflexivity.
    + unfold execution_failed.
      split; [repeat split|]. right.
      exists quantity, limit_price, None.
      split; [|split; [exact Hlimit | reflexivity]].
      autorewrite with orders. rewrite Hquiet. reflexivity.
Qed.

Lemma size_and_place_once (self : t F) (env : Env F) (signal : TradeSignal F) :
  trades_at_most_once self env signal (size_and_place self env signal).
Proof.
  unfold size_and_place.
  destruct (if paper_trading self
            then match paper_trader self with
                 | Some pt => Ok (PaperTrader.get_balance pt)
                 | None => Raise TypeError
                 end
            else Ok (env_live_balance env, calculate_current_exposure env))
    as [[current_balance current_exposure]|e]; [|no_order].
  destruct (PositionSizer.calculate_position_size signal (config self)
              current_balance current_exposure) as [[quantity sizer_log]|e];
    [|no_order].
  destruct (quantity =? 0); [no_order|].
  fold (limit_price_of signal).
  destruct (limit_price_of signal) as [limit_price|e] eqn:Hlimit; [|no_order].
  destruct (OrderValidator.validate_order (ticker signal) (side signal)
              quantity limit_price) as [[|] reason]; [|no_order].
  apply place_and_record_once; [reflexivity | exact Hlimit].
Qed.

Lemma execute_signal_once (self : t F) (env : Env F) (signal : TradeSignal F) :
  trades_at_most_once self env signal (execute_signal self env signal).
Proof.
  unfold execute_signal.
  destruct (trading_enabled self); cbn [negb]; [|no_order].
  unfold CircuitBreaker.can_trade.
  destruct (CircuitBreaker.is_tripped (circuit_breaker self)); [no_order|].
  destruct (OrderValidator.validate_signal signal (config self)
              (seen_signals self)) as [[|] reason]; [|no_order].
  destruct (check_rate_limits_window self env) as [window Hwindow].
  destruct (check_rate_limits self env) as [within_limits self1].
  cbn [snd] in Hwindow. subst self1.
  destruct within_limits; cbn [negb]; [|no_order].
  destruct (fltb _ _); [no_order|].
  assert (Hrest : trades_at_most_once self env signal
                    (size_and_place (with_recent_trades self window) env signal)).
  { pose proof (size_and_place_once (with_recent_trades self window) env signal)
      as Hshape.
    unfold trades_at_most_once in *.
    destruct (size_and_place (with_recent_trades self window) env signal)
      as [[result self'] events].
    exact Hshape. }
  destruct (last_loss_time (with_recent_trades self window)) as [last_loss|];
    [|exact Hrest].
  destruct (_ <? _); [no_order | exact Hrest].
Qed.
End ExecutorShape.

Section ExecutorGates.
Context {F : Type} {float_ops : PyFloat F} {hashlib : Hashlib}.
Import TradeExecutor.

(** Orders that came back are among the gateway calls. *)
Lemma placed_among_orders (evs : list (Event F)) :
  count_events is_placed_order evs
  = count_events is_placed_order (place_orders evs).
Proof.
  unfold count_events, place_orders.
  induction evs as [|e evs IH]; [reflexivity|].
  destruct e as [l|a|paper tk sd q lp [o|]|id r|tr|id tm|tr]; cbn; auto.
Qed.

(** The gateway is only called behind the kill switch and the breaker. *)
Lemma execute_signal_gates (self : t F) (env : Env F) (signal : TradeSignal F) :
  place_orders (snd (execute_signal self env signal)) <> [] ->
  trading_enabled self = true
  /\ CircuitBreaker.is_tripped (circuit_breaker self) = false.
Proof.
  unfold execute_signal.
  destruct (trading_enabled self); cbn [negb];
    [|intros Hcalled; exfalso; apply Hcalled; reflexivity].
  unfold CircuitBreaker.can_trade.
  destruct (CircuitBreaker.is_tripped (circuit_breaker self)); [|split; reflexivity].
  intros Hcalled. exfalso. apply Hcalled. cbn [snd].
  autorewrite with orders. reflexivity.
Qed.

(** A signal whose hash is in the dedup set gets past the kill switch and
    the breaker only to be rejected as a duplicate. *)
Lemma execute_signal_duplicate (self : t F) (env : Env F)
    (signal : TradeSignal F) :
  md5_hexdigest (signal_id signal) ∈ seen_signals self ->
  trading_enabled self = true ->
  CircuitBreaker.is_tripped (circuit_breaker self) = false ->
  execute_signal self env signal
  = (Ok None, self,
     EvLog (LogSignalRejected (Some DuplicateSignal))
       :: record_rejected_signal env signal (Some DuplicateSignal)).
Proof.
  intros Hseen Henabled Hclosed. unfold execute_signal.
  rewrite Henabled. cbn [negb]. unfold CircuitBreaker.can_trade.
  rewrite Hclosed. unfold OrderValidator.validate_signal.
  rewrite (bool_decide_eq_true_2 _ Hseen). reflexivity.
Qed.

End ExecutorGates.

(** ** C7: one order per signal id, while the store records the trades *)

Section DedupClaim.
Context {F : Type} {float_ops : PyFloat F} {hashlib : Hashlib}.
Import TradeExecutor.

(** C7, amended.  Submit two signals with the same id, one call after the
    other, the store accepting the trade record of the first call
    ([_record_trade] does not raise).  The two calls together get at most
    one order from the gateway; and if the first call gets one, the second
    is rejected as a duplicate, without any call on the gateway and without
    touching the executor. *)
Theorem same_id_at_most_one_order (self : t F) (env1 env2 : Env F)
    (signal1 signal2 : TradeSignal F) :
  signal_id signal1 = signal_id signal2 ->
  env_record_trade_raises env1 = None ->
  let '(result1, self1, events1) := execute_signal self env1 signal1 in
  let '(result2, self2, events2) := execute_signal self1 env2 signal2 in
  (count_events is_placed_order (events1 ++ events2) <= 1)%nat
  /\ (count_events is_placed_order events1 = 1%nat ->
      result2 = Ok None
      /\ self2 = self1
      /\ events2
         = EvLog (LogSignalRejected (Some DuplicateSignal))
             :: record_rejected_signal env2 signal2 (Some DuplicateSignal)
      /\ place_orders events2 = []).
Proof.
  intros Hid Hstore.
  pose proof (execute_signal_once self env1 signal1) as Hfirst.
  pose proof (execute_signal_gates self env1 signal1) as Hgates.
  destruct (execute_signal self env1 signal1) as [[result1 self1] events1].
  cbn [snd] in Hgates.
  pose proof (execute_signal_once self1 env2 signal2) as Hsecond.
  pose proof (execute_signal_duplicate self1 env2 signal2) as Hdup.
  destruct (execute_signal self1 env2 signal2) as [[result2 self2] events2].
  unfold trades_at_most_once in Hfirst, Hsecond.
  rewrite Hstore in Hfirst.
  rewrite count_events_app, (placed_among_orders events1),
    (placed_among_orders events2).
  assert (Hle : (count_events is_placed_order (place_orders events2) <= 1)%nat).
  { destruct Hsecond as [_ [[-> _]|(q & lp & reply & -> & _)]].
    - cbn. lia.
    - destruct reply; cbn; lia. }
  destruct Hfirst as [Hsame [[Hquiet _]|(q & lp & [order|] & Hcall & _ & Hseen)]].
  - rewrite Hquiet. cbn. split; [lia | discriminate].
  - destruct Hgates as [Henabled Hclosed]; [rewrite Hcall; discriminate|].
    destruct Hsame as (_ & _ & _ & _ & Hbreaker & Hswitch & _).
    assert (Hrejected :
      (result2, self2, events2)
      = (Ok None, self1,
         EvLog (LogSignalRejected (Some DuplicateSignal))
           :: record_rejected_signal env2 signal2 (Some DuplicateSignal))).
    { apply Hdup.
      - rewrite Hseen, <- Hid. apply elem_of_union_r, elem_of_singleton.
        reflexivity.
      - rewrite Hswitch. exact Henabled.
      - rewrite Hbreaker. exact Hclosed. }
    injection Hrejected as -> -> ->.
    autorewrite with orders. rewrite Hcall. cbn.
    split; [lia|]. intros _. repeat split.
  - rewrite Hcall. cbn. split; [lia | discriminate].
Qed.
End DedupClaim.

(** ** C3, C10: the daily loss limit, and signals without a price *)

Section ExecutorClaims.
Context {hashlib : Hashlib}.
Local Open Scope Q_scope.
Import TradeExecutor.

(** C3, amended.  Whenever [daily_pnl < -max_daily_loss], a call of
    [execute_signal] returns no trade and does not call the gateway, and it
    leaves the settings and the dedup set as they are, so the breach lasts.
    The call emits one daily-loss alert when it gets as far as the loss check
    (trading enabled, breaker closed, signal valid, rate limits met) and an
    alert callback is installed, and none otherwise: every such call during
    the breach alerts again. *)
Theorem daily_loss_rejects (self : t Q) (env : Env Q) (signal : TradeSignal Q) :
  daily_pnl self < - max_daily_loss (risk_limits self) ->
  let '(result, self', events) := execute_signal self env signal in
  result = Ok None
  /\ place_orders events = []
  /\ same_settings self self'
  /\ seen_signals self' = seen_signals self
  /\ count_events is_daily_loss_alert events
     = (if reaches_loss_check self env signal && alert_callback self
        then 1 else 0)%nat.
Proof.
  intros Hbreach. unfold execute_signal, reaches_loss_check.
  destruct (trading_enabled self); cbn [negb andb];
    [|repeat split].
  unfold CircuitBreaker.can_trade.
  destruct (CircuitBreaker.is_tripped (circuit_breaker self)); cbn [negb andb].
  { split; [reflexivity|]. split; [autorewrite with orders; reflexivity|].
    split; [apply same_settings_refl|]. split; [reflexivity|].
    destruct (alert_callback self); reflexivity. }
  destruct (OrderValidator.validate_signal signal (config self)
              (seen_signals self)) as [[|] reason]; cbn [fst andb].
  2:{ split; [reflexivity|]. split; [autorewrite with orders; reflexivity|].
      split; [apply same_settings_refl|]. split; [reflexivity|].
      unfold record_rejected_signal. destruct (env_db_signal env); reflexivity. }
  destruct (check_rate_limits_window self env) as [window Hwindow].
  destruct (check_rate_limits self env) as [within_limits self1].
  cbn [snd fst] in *. subst self1.
  destruct within_limits; cbn [negb andb]; [|repeat split].
  cbn [daily_pnl risk_limits with_recent_trades fltb fneg Q_PyFloat].
  apply Qltb_lt in Hbreach. rewrite Hbreach.
  split; [reflexivity|]. split; [autorewrite with orders; reflexivity|].
  split; [repeat split|]. split; [reflexivity|].
  unfold with_recent_trades. cbn [alert_callback].
  destruct (alert_callback self); reflexivity.
Qed.

End ExecutorClaims.

Section ExecutorRuns.
Local Open Scope Q_scope.
Import TradeExecutor.

(** C3, as stated, fails on the alert count: in Scenario D (daily P&L -1001,
    loss limit 1000) two calls of [execute_signal] each return no trade, and
    each emits a daily-loss alert, two in all. *)
Lemma daily_loss_alert_counterexample :
  loss_limit_breached executor_in_breach = true
  /\ let '(result1, result2, _, events) :=
       execute_twice (hashlib:=toy_md5) executor_in_breach
         quiet_world quiet_world signal_strong signal_strong in
     result1 = Ok None /\ result2 = Ok None
     /\ place_orders events = []
     /\ count_events is_daily_loss_alert events = 2%nat.
Proof. vm_compute. repeat split. Qed.

(** C7, as stated, fails when the store is down.  The first call gets its
    order from the gateway, [_record_trade] raises, the [except] clause
    returns [None] and the hash is not added to the dedup set; the same
    signal submitted again gets a second order. *)
Lemma same_id_two_orders_counterexample :
  signal_id signal_strong = signal_id signal_strong
  /\ let '(result1, result2, _, events) :=
       execute_twice (hashlib:=toy_md5) (paper_executor enabled_config)
         world_store_down quiet_world signal_strong signal_strong in
     result1 = Ok None
     /\ (exists trade, result2 = Ok (Some trade))
     /\ count_events is_placed_order events = 2%nat.
Proof. vm_compute. repeat split. eexists. reflexivity. Qed.

Lemma daily_loss_rejects_witness :
  daily_pnl executor_in_breach < - max_daily_loss (risk_limits executor_in_breach)
  /\ let '(result, self', events) :=
       execute_signal (hashlib:=toy_md5) executor_in_breach quiet_world
         signal_strong in
     result = Ok None
     /\ place_orders events = []
     /\ same_settings executor_in_breach self'
     /\ seen_signals self' = seen_signals executor_in_breach
     /\ count_events is_daily_loss_alert events
        = (if reaches_loss_check (hashlib:=toy_md5) executor_in_breach
                quiet_world signal_strong
              && alert_callback executor_in_breach
           then 1 else 0)%nat.
Proof.
  assert (Hbreach : daily_pnl executor_in_breach
                    < - max_daily_loss (risk_limits executor_in_breach))
    by reflexivity.
  split; [exact Hbreach|].
  apply (daily_loss_rejects (hashlib:=toy_md5) executor_in_breach quiet_world
           signal_strong Hbreach).
Defined.
End ExecutorRuns.

Section UnpricedClaim.
Context {hashlib : Hashlib}.
Local Open Scope Q_scope.
Import TradeExecutor.




End UnpricedClaim.

Section Witnesses.
Local Open Scope Q_scope.
Import TradeExecutor.


(** The run behind the witness: the unpriced signal is sized at
    floor(500 * 100 / 50) = 1000 contracts and sent at 50 cents. *)
Lemma unpriced_signal_run :
  let '(_, _, events) :=
    execute_signal (hashlib:=toy_md5) (paper_executor enabled_config)
      quiet_world signal_unpriced in
  exists order,
    place_orders events = [EvPlaceOrder true "KXTEST" "yes" 1000 50 (Some order)].
Proof. vm_compute. eexists. reflexivity. Qed.

Lemma same_id_at_most_one_order_witness :
  signal_id signal_strong = signal_id signal_strong
  /\ env_record_trade_raises quiet_world = None
  /\ let '(result1, self1, events1) :=
       execute_signal (hashlib:=toy_md5) (paper_executor enabled_config)
         quiet_world signal_strong in
     let '(result2, self2, events2) :=
       execute_signal (hashlib:=toy_md5) self1 quiet_world signal_strong in
     (count_events is_placed_order (events1 ++ events2) <= 1)%nat
     /\ (count_events is_placed_order events1 = 1%nat ->
         result2 = Ok None
         /\ self2 = self1
         /\ events2
            = EvLog (LogSignalRejected (Some DuplicateSignal))
                :: record_rejected_signal quiet_world signal_strong
                     (Some DuplicateSignal)
         /\ place_orders events2 = []).
Proof.
  split; [reflexivity|]. split; [reflexivity|].
  apply (@same_id_at_most_one_order Q Q_PyFloat toy_md5
           (paper_executor enabled_config) quiet_world quiet_world
           signal_strong signal_strong eq_refl eq_refl).
Defined.

(** The run behind the witness: the first submission gets its order, the
    second is turned away as a duplicate. *)
Lemma same_id_run :
  let '(result1, result2, _, events) :=
    execute_twice (hashlib:=toy_md5) (paper_executor enabled_config)
      quiet_world quiet_world signal_strong signal_strong in
  (exists trade, result1 = Ok (Some trade))
  /\ result2 = Ok None
  /\ count_events is_placed_order events = 1%nat
  /\ last events = Some (EvDbSignalRejected "sig-1" (Some DuplicateSignal)).
Proof. vm_compute. repeat split. eexists. reflexivity. Qed.
End Witnesses.

(** * Further properties of the code *)

(** ** The Kelly formula and the cost of a sized position *)

Section SizerMore.
Local Open Scope Q_scope.
Import PositionSizer.


End SizerMore.

Section SizerCost.
Local Open Scope Q_scope.
Import PositionSizer.

Lemma Qtrunc_le (x : Q) : (1 <= Qtrunc x)%Z -> inject_Z (Qtrunc x) <= x.
Proof.
  intros Hone. assert (Hx : 0 <= x).
  { destruct x as [n d]. unfold Qtrunc, Qle in *. cbn [Qnum Qden] in *.
    destruct (Z.neg_nonneg_cases n) as [Hneg|Hnn]; [|lia].
    exfalso.
    assert (Hq : (Z.quot (- n) (Z.pos d) = - Z.quot n (Z.pos d))%Z)
      by (apply Z.quot_opp_l; lia).
    assert (0 <= Z.quot (- n) (Z.pos d))%Z by (apply Z.quot_pos; lia).
    lia. }
  rewrite (Qtrunc_floor x Hx). apply Qfloor_le.
Qed.

(** X2.  Past the heat gate and for a positive price, the contracts the
    sizer returns cost, at the price it divided by, no more than the larger
    of the final dollar size and the price of one contract; and the final
    dollar size is within the position limit and the remaining heat. *)
Theorem sized_cost_bound (signal : TradeSignal Q) (config : Config Q)
    (bankroll exposure : Q) :
  0 < remaining_heat config bankroll exposure ->
  (0 < quoted_cents signal)%Z ->
  exists kelly_usd size_usd contracts,
    calculate_position_size signal config bankroll exposure
    = Ok (contracts,
          PositionSizing kelly_usd size_usd contracts (quoted_cents signal))
    /\ inject_Z (contracts * quoted_cents signal) / 100
       <= Qmax size_usd (inject_Z (quoted_cents signal) / 100)
    /\ size_usd <= max_position_of config
    /\ size_usd <= remaining_heat config bankroll exposure.
Proof.
  intros Hheat Hcents.
  destruct (kelly_total (edge_percentage signal) (confidence signal)
              (kelly_fraction_of config) bankroll) as [kelly_usd Hkelly].
  exists kelly_usd. eexists. eexists.
  split; [apply (sizer_sized _ _ _ _ _ Hkelly Hheat); lia|].
  split; [|split].
  - set (size_usd := py_min _ _).
    set (cents := quoted_cents signal) in *.
    assert (Hc : 0 < inject_Z cents).
    { unfold Qlt. cbn. lia. }
    set (x := size_usd * 100 / inject_Z cents).
    assert (Hxc : x * inject_Z cents == size_usd * 100).
    { unfold x. field. lra. }
    destruct (Z_le_gt_dec 1 (Qtrunc x)) as [Hraw|Hraw].
    + rewrite Z.max_r by exact Hraw.
      eapply Qle_trans; [|apply Q.le_max_l].
      pose proof (Qtrunc_le x Hraw) as Hle.
      rewrite inject_Z_mult. apply Qle_shift_div_r; [reflexivity|].
      assert (inject_Z (Qtrunc x) * inject_Z cents <= x * inject_Z cents)
        by nra.
      lra.
    + rewrite Z.max_l by lia. rewrite Z.mul_1_l. apply Q.le_max_r.
  - eapply Qle_trans; [apply py_min_le_l | apply py_min_le_r].
  - apply py_min_le_r.
Qed.
End SizerCost.

Section SizerMoreWitnesses.
Local Open Scope Q_scope.
Import PositionSizer.


Lemma sized_cost_bound_witness :
  0 < remaining_heat empty_config 10000 0
  /\ (0 < quoted_cents signal_strong)%Z
  /\ exists kelly_usd size_usd contracts,
       calculate_position_size signal_strong empty_config 10000 0
       = Ok (contracts,
             PositionSizing kelly_usd size_usd contracts
               (quoted_cents signal_strong))
       /\ inject_Z (contracts * quoted_cents signal_strong) / 100
          <= Qmax size_usd (inject_Z (quoted_cents signal_strong) / 100)
       /\ size_usd <= max_position_of empty_config
       /\ size_usd <= remaining_heat empty_config 10000 0.
Proof.
  assert (H1 : 0 < remaining_heat empty_config 10000 0) by reflexivity.
  assert (H2 : (0 < quoted_cents signal_strong)%Z) by reflexivity.
  split; [exact H1|]. split; [exact H2|].
  apply (sized_cost_bound signal_strong empty_config 10000 0 H1 H2).
Defined.
End SizerMoreWitnesses.

(** ** The circuit breaker along a history *)

Section BreakerMore.
Import CircuitBreaker.

Lemma record_trade_consistent (threshold : Z) (now : datetime) (cb : t)
    (pnl : Q) :
  1 <= threshold ->
  breaker_consistent threshold cb ->
  breaker_consistent threshold (record_trade now cb pnl).
Proof.
  intros Hth (Hmax & Hcount & Htrip & Htime).
  unfold breaker_consistent.
  destruct (Qlt_le_dec pnl 0) as [Hloss|Hpnl].
  - rewrite (record_trade_loss _ _ _ Hloss). cbv zeta. rewrite Hmax.
    destruct (threshold <=? consecutive_losses cb + 1) eqn:Hreach.
    + apply Z.leb_le in Hreach. unfold trip. cbn [is_tripped].
      destruct (is_tripped cb) eqn:Hwas; cbn;
        intuition (first [lia | congruence]).
    + apply Z.leb_gt in Hreach. cbn.
      destruct (is_tripped cb) eqn:Hwas;
        intuition (first [lia | congruence]).
  - rewrite (record_trade_not_loss _ _ _ Hpnl). cbn.
    destruct (is_tripped cb) eqn:Hwas;
      [|destruct (trip_time cb) eqn:Htt];
      intuition (first [lia | congruence]).
Qed.

Lemma record_trades_consistent (threshold : Z) (cb : t)
    (history : list (datetime * Q)) :
  1 <= threshold ->
  breaker_consistent threshold cb ->
  breaker_consistent threshold (record_trades cb history).
Proof.
  intros Hth. revert cb.
  induction history as [|r history IH]; intros cb Hcb; [exact Hcb|].
  unfold record_trades in *. cbn [fold_left]. apply IH.
  apply record_trade_consistent; assumption.
Qed.

(** X3.  Whatever results are recorded on a breaker constructed with a
    threshold of at least 1, in whatever order: the loss counter is never
    negative, the breaker is tripped exactly when the counter has reached
    the threshold, and it has a trip time exactly while it is tripped. *)
Theorem breaker_stays_consistent (config : Config Q)
    (history : list (datetime * Q)) :
  1 <= max_consecutive_losses (init config) ->
  breaker_consistent (max_consecutive_losses (init config))
    (record_trades (init config) history).
Proof.
  intros Hth.
  assert (Hinit : breaker_consistent (max_consecutive_losses (init config))
                    (init config)).
  { unfold breaker_consistent. split; [reflexivity|].
    cbn [init is_tripped consecutive_losses trip_time].
    intuition (first [lia | congruence]). }
  apply record_trades_consistent; assumption.
Qed.

Lemma breaker_stays_consistent_witness :
  1 <= max_consecutive_losses (init (F:=Q) empty_config)
  /\ breaker_consistent (max_consecutive_losses (init (F:=Q) empty_config))
       (record_trades (init (F:=Q) empty_config) three_losses).
Proof.
  assert (H1 : 1 <= max_consecutive_losses (init (F:=Q) empty_config))
    by (vm_compute; discriminate).
  split; [exact H1|].
  apply (breaker_stays_consistent empty_config three_losses H1).
Defined.

Lemma tripped_streak_keeps_time (cb : t) (losses : list (datetime * Q)) :
  Forall is_loss losses ->
  is_tripped cb = true ->
  is_tripped (record_trades cb losses) = true
  /\ trip_time (record_trades cb losses) = trip_time cb.
Proof.
  intros Hlosses. revert cb.
  induction Hlosses as [|r losses Hr _ IH]; intros cb Hwas;
    [split; [exact Hwas | reflexivity]|].
  unfold record_trades in *. cbn [fold_left].
  unfold is_loss in Hr.
  assert (Hstep : is_tripped (record_trade (fst r) cb (snd r)) = true
                  /\ trip_time (record_trade (fst r) cb (snd r)) = trip_time cb).
  { rewrite (record_trade_loss _ _ _ Hr). cbv zeta. unfold trip.
    cbn [is_tripped]. rewrite Hwas. cbn [negb].
    destruct (_ <=? _); cbn; split; auto. }
  destruct Hstep as [Ht Htime].
  destruct (IH _ Ht) as [Ht' Htime'].
  split; [exact Ht' | rewrite Htime'; exact Htime].
Qed.

Lemma closed_streak_trip_time (cb : t) (losses : list (datetime * Q)) :
  Forall is_loss losses ->
  is_tripped cb = false ->
  consecutive_losses cb < max_consecutive_losses cb ->
  max_consecutive_losses cb - consecutive_losses cb
    <= Z.of_nat (length losses) ->
  trip_time (record_trades cb losses)
  = Some (fst (nth (Z.to_nat (max_consecutive_losses cb
                              - consecutive_losses cb - 1))
                   losses (0, 0%Q))).
Proof.
  intros Hlosses. revert cb.
  induction Hlosses as [|r losses Hr Hrest IH]; intros cb Hclosed Hbelow Hlen.
  - cbn [length Z.of_nat] in Hlen. lia.
  - unfold record_trades in *. cbn [fold_left].
    unfold is_loss in Hr. rewrite (record_trade_loss _ _ _ Hr). cbv zeta.
    destruct (max_consecutive_losses cb <=? consecutive_losses cb + 1)
      eqn:Hreach.
    + apply Z.leb_le in Hreach.
      replace (max_consecutive_losses cb - consecutive_losses cb - 1) with 0
        by lia.
      cbn [Z.to_nat nth].
      set (tripped := trip (fst r) _).
      assert (Ht : is_tripped tripped = true /\ trip_time tripped = Some (fst r)).
      { unfold tripped, trip. cbn [is_tripped]. rewrite Hclosed. cbn.
        split; reflexivity. }
      destruct Ht as [Ht Htime].
      destruct (tripped_streak_keeps_time tripped losses Hrest Ht) as [_ Hkeep].
      unfold record_trades in Hkeep. rewrite Hkeep. exact Htime.
    + apply Z.leb_gt in Hreach.
      set (bumped := {| max_consecutive_losses := max_consecutive_losses cb;
                        consecutive_losses := consecutive_losses cb + 1;
                        is_tripped := is_tripped cb;
                        trip_time := trip_time cb |}).
      rewrite (IH bumped); unfold bumped; cbn [max_consecutive_losses
        consecutive_losses is_tripped]; try assumption; try lia.
      * replace (Z.to_nat (max_consecutive_losses cb - consecutive_losses cb - 1))
          with (S (Z.to_nat (max_consecutive_losses cb
                             - (consecutive_losses cb + 1) - 1))) by lia.
        reflexivity.
      * cbn [length] in Hlen. lia.
Qed.

(** X4.  On a fresh breaker with threshold N >= 1, a streak of at least N
    losses leaves the breaker tripped with, as trip time, the clock reading
    of the N-th loss: the losses after the one that tripped it do not move
    the trip time. *)
Theorem trip_time_is_first_trip (config : Config Q)
    (losses : list (datetime * Q)) :
  let threshold := max_consecutive_losses (init config) in
  1 <= threshold ->
  Forall is_loss losses ->
  threshold <= Z.of_nat (length losses) ->
  is_tripped (record_trades (init config) losses) = true
  /\ trip_time (record_trades (init config) losses)
     = Some (fst (nth (Z.to_nat (threshold - 1)) losses (0, 0%Q))).
Proof.
  intros threshold Hth Hlosses Hlen. split.
  - destruct (losing_streak (init config) losses Hlosses)
      as (Hcount & _ & Htrip & _).
    apply Htrip.
    + intros ->. cbn [length Z.of_nat] in Hlen. lia.
    + rewrite Hcount. cbn [consecutive_losses init]. fold threshold. lia.
  - rewrite (closed_streak_trip_time (init config) losses Hlosses);
      cbn [init is_tripped consecutive_losses]; try reflexivity.
    + fold threshold. f_equal. f_equal. f_equal. lia.
    + fold threshold. lia.
    + fold threshold. lia.
Qed.

Lemma trip_time_is_first_trip_witness :
  is_tripped (record_trades (init (F:=Q) empty_config)
                (three_losses ++ [(40, (-1)%Q)])) = true
  /\ trip_time (record_trades (init (F:=Q) empty_config)
                  (three_losses ++ [(40, (-1)%Q)]))
     = Some (fst (nth (Z.to_nat (max_consecutive_losses
                                   (init (F:=Q) empty_config) - 1))
                      (three_losses ++ [(40, (-1)%Q)]) (0, 0%Q))).
Proof.
  apply (trip_time_is_first_trip empty_config (three_losses ++ [(40, (-1)%Q)])).
  - vm_compute. discriminate.
  - repeat constructor.
  - vm_compute. discriminate.
Defined.
End BreakerMore.

(** ** The paper simulator's ledger *)

Section PaperLedger.
Local Open Scope Q_scope.
Import PaperTrader.

Lemma dict_lookup_store_eq (key : string) (v : Position Q)
    (d : list (string * Position Q)) :
  dict_lookup key (dict_store key v d) = Some v.
Proof.
  induction d as [|[k w] d IH]; cbn [dict_store dict_lookup].
  - rewrite String.eqb_refl. reflexivity.
  - destruct (String.eqb k key) eqn:E; cbn [dict_lookup]; rewrite E;
      [reflexivity | exact IH].
Qed.

Lemma dict_lookup_store_ne (key other : string) (v : Position Q)
    (d : list (string * Position Q)) :
  other <> key ->
  dict_lookup other (dict_store key v d) = dict_lookup other d.
Proof.
  intros Hne. induction d as [|[k w] d IH]; cbn [dict_store dict_lookup].
  - destruct (String.eqb key other) eqn:E; [|reflexivity].
    apply String.eqb_eq in E. congruence.
  - destruct (String.eqb k key) eqn:E; cbn [dict_lookup].
    + apply String.eqb_eq in E. subst k.
      destruct (String.eqb key other) eqn:E'; [|reflexivity].
      apply String.eqb_eq in E'. congruence.
    + destruct (String.eqb k other); [reflexivity | exact IH].
Qed.

(** The exposure [get_balance] computes from a ledger. *)
Lemma sum_from (xs : list Q) (a : Q) :
  fold_left Qplus xs a == a + fold_left Qplus xs 0.
Proof.
  revert a. induction xs as [|x xs IH]; intros a; cbn [fold_left].
  - ring.
  - rewrite (IH (a + x)), (IH (0 + x)). ring.
Qed.

Lemma ledger_exposure_store (key : string) (v : Position Q)
    (d : list (string * Position Q)) :
  ledger_exposure (dict_store key v d)
  == ledger_exposure d
     - inject_Z (match dict_lookup key d with
                 | Some p => pos_total_cost p
                 | None => 0%Z
                 end) / 100
     + inject_Z (pos_total_cost v) / 100.
Proof.
  unfold ledger_exposure.
  induction d as [|[k w] d IH]; cbn [dict_store dict_lookup map fold_left].
  - change (inject_Z 0) with 0. cbn [snd]. field.
  - destruct (String.eqb k key); cbn [map fold_left snd].
    + rewrite (sum_from _ (0 + _)), (sum_from _ (0 + inject_Z (pos_total_cost w) / 100)).
      ring.
    + rewrite (sum_from _ (0 + _)), IH,
        (sum_from _ (0 + inject_Z (pos_total_cost w) / 100)).
      ring.
Qed.

Lemma get_balance_exposure (pt : t Q) :
  snd (get_balance pt) = ledger_exposure (paper_positions pt)
  /\ fst (get_balance pt)
     = 10000.0 - ledger_exposure (paper_positions pt) + total_pnl pt.
Proof. split; reflexivity. Qed.
End PaperLedger.

Section PaperMore.
Local Open Scope Q_scope.
Import PaperTrader.

Lemma position_at_nonneg (pt : t Q) (ticker side : string) :
  ledger_ok pt -> (0 <= pos_quantity (position_at pt ticker side))%Z.
Proof.
  intros Hledger. unfold position_at.
  destruct (dict_lookup _ (paper_positions pt)) as [p|] eqn:E.
  - destruct (dict_lookup_in _ _ _ E) as [k Hin].
    unfold ledger_ok in Hledger. rewrite Forall_forall in Hledger.
    apply (Hledger (k, p)). apply list_elem_of_In. exact Hin.
  - cbn [pos_quantity]. lia.
Qed.

Lemma position_at_stored (pt : t Q) (ticker side : string) (v : Position Q)
    (d : list (string * Position Q)) :
  paper_positions pt = dict_store (ticker ++ "_" ++ side)%string v d ->
  position_at pt ticker side = v.
Proof.
  unfold position_at. intros ->. rewrite dict_lookup_store_eq. reflexivity.
Qed.

(** The state a filling order leaves. *)
Lemma place_order_filled (pt : t Q) (uuid : string) (now : datetime)
    (ticker side : string) (quantity limit_price : Z) :
  simulated_fill_rate pt = 0.95 ->
  ledger_ok pt ->
  (2 <= quantity)%Z ->
  let old := position_at pt ticker side in
  let quantity' := (pos_quantity old + filled_of quantity)%Z in
  let cost' := (pos_total_cost old
                + filled_of quantity * fill_price_of limit_price)%Z in
  exists order record,
    place_order pt uuid now ticker side quantity limit_price
    = Ok (order,
          {| paper_trades := paper_trades pt ++ [record];
             paper_positions :=
               dict_store (ticker ++ "_" ++ side)%string
                 {| pos_ticker := pos_ticker old; pos_side := pos_side old;
                    pos_quantity := quantity';
                    pos_avg_price := inject_Z cost' / inject_Z quantity';
                    pos_total_cost := cost' |}
                 (paper_positions pt);
             total_pnl := total_pnl pt;
             simulated_fill_rate := simulated_fill_rate pt;
             simulated_slippage := simulated_slippage pt |}).
Proof.
  intros Hrate Hledger Hq old quantity' cost'.
  assert (Hfill : (0 < filled_of quantity)%Z).
  { unfold filled_of. apply Z.div_str_pos. lia. }
  pose proof (position_at_nonneg pt ticker side Hledger) as Hold.
  fold old in Hold.
  unfold place_order.
  rewrite (fill_quantity_95 pt quantity Hrate) by lia.
  cbn [mbind res_bind].
  apply Z.ltb_lt in Hfill. rewrite Hfill. apply Z.ltb_lt in Hfill.
  unfold py_div. cbn [feqb fdiv of_int Q_PyFloat].
  change (match dict_lookup (ticker ++ "_" ++ side)%string (paper_positions pt)
          with Some p => p | None => _ end) with old.
  fold (fill_price_of limit_price). fold quantity'. fold cost'.
  rewrite inject_Z_nonzero by (unfold quantity'; lia).
  cbn [mbind res_bind]. eexists. eexists. reflexivity.
Qed.

(** X5.  A paper order that fills (q >= 2) is booked on the ledger entry of
    its ticker and side: the entry's quantity grows by the filled quantity,
    its total cost by filled quantity times fill price, and its average
    price is the total cost over the quantity.  The entries under other keys
    and the realised P&L are as before, and no entry is short. *)
Theorem paper_fill_updates_ledger (pt : t Q) (uuid : string) (now : datetime)
    (ticker side : string) (quantity limit_price : Z) :
  simulated_fill_rate pt = 0.95 ->
  ledger_ok pt ->
  (2 <= quantity)%Z ->
  exists order pt',
    place_order pt uuid now ticker side quantity limit_price = Ok (order, pt')
    /\ pos_quantity (position_at pt' ticker side)
       = (pos_quantity (position_at pt ticker side) + filled_of quantity)%Z
    /\ pos_total_cost (position_at pt' ticker side)
       = (pos_total_cost (position_at pt ticker side)
          + filled_of quantity * fill_price_of limit_price)%Z
    /\ pos_avg_price (position_at pt' ticker side)
       == inject_Z (pos_total_cost (position_at pt' ticker side))
          / inject_Z (pos_quantity (position_at pt' ticker side))
    /\ (forall other : string,
          other <> (ticker ++ "_" ++ side)%string ->
          dict_lookup other (paper_positions pt')
          = dict_lookup other (paper_positions pt))
    /\ total_pnl pt' = total_pnl pt
    /\ ledger_ok pt'.
Proof.
  intros Hrate Hledger Hq.
  destruct (place_order_filled pt uuid now ticker side quantity limit_price
              Hrate Hledger Hq) as (order & record & Hplaced).
  cbv zeta in Hplaced.
  match type of Hplaced with _ = Ok (_, ?s) => set (pt' := s) in * end.
  exists order, pt'. split; [exact Hplaced|].
  rewrite (position_at_stored pt' ticker side _ (paper_positions pt) eq_refl).
  cbn [pos_quantity pos_total_cost pos_avg_price paper_positions total_pnl].
  split; [reflexivity|]. split; [reflexivity|]. split; [reflexivity|].
  split; [intros other Hother; apply dict_lookup_store_ne; exact Hother|].
  split; [reflexivity|].
  pose proof (position_at_nonneg pt ticker side Hledger) as Hold.
  assert (Hfill : (0 <= filled_of quantity)%Z).
  { unfold filled_of. apply Z.div_pos; lia. }
  unfold ledger_ok in *. unfold pt'. cbn [paper_positions].
  clear Hplaced pt'. revert Hledger.
  generalize (paper_positions pt) as d.
  induction d as [|[k w] d IH]; intros Hd; cbn [dict_store].
  - constructor; [cbn; lia | constructor].
  - inversion Hd as [|? ? Hw Hrest]; subst.
    destruct (String.eqb k (ticker ++ "_" ++ side)).
    + constructor; [cbn; lia | exact Hrest].
    + constructor; [exact Hw | apply IH; exact Hrest].
Qed.
End PaperMore.

Section PaperBalance.
Local Open Scope Q_scope.
Import PaperTrader.

Lemma position_at_cost (pt : t Q) (ticker side : string) :
  match dict_lookup (ticker ++ "_" ++ side)%string (paper_positions pt) with
  | Some p => pos_total_cost p
  | None => 0%Z
  end = pos_total_cost (position_at pt ticker side).
Proof.
  unfold position_at. destruct (dict_lookup _ _); reflexivity.
Qed.

(** X6.  A paper order that fills moves the simulated balance by what it
    cost: the total exposure grows by filled quantity times fill price (in
    dollars), and the available balance shrinks by the same amount. *)
Theorem paper_fill_moves_balance (pt : t Q) (uuid : string) (now : datetime)
    (ticker side : string) (quantity limit_price : Z) :
  simulated_fill_rate pt = 0.95 ->
  ledger_ok pt ->
  (2 <= quantity)%Z ->
  exists order pt',
    place_order pt uuid now ticker side quantity limit_price = Ok (order, pt')
    /\ snd (get_balance pt')
       == snd (get_balance pt)
          + inject_Z (filled_of quantity * fill_price_of limit_price) / 100
    /\ fst (get_balance pt')
       == fst (get_balance pt)
          - inject_Z (filled_of quantity * fill_price_of limit_price) / 100.
Proof.
  intros Hrate Hledger Hq.
  destruct (place_order_filled pt uuid now ticker side quantity limit_price
              Hrate Hledger Hq) as (order & record & Hplaced).
  cbv zeta in Hplaced.
  match type of Hplaced with _ = Ok (_, ?s) => set (pt' := s) in * end.
  exists order, pt'. split; [exact Hplaced|].
  destruct (get_balance_exposure pt) as [-> ->].
  destruct (get_balance_exposure pt') as [-> ->].
  unfold pt'. cbn [paper_positions total_pnl].
  rewrite ledger_exposure_store, position_at_cost.
  cbn [pos_total_cost]. rewrite inject_Z_plus.
  split; field.
Qed.

Lemma close_net_pnl_spec (pos : Position Q) (exit_price : Z) :
  (0 < gross_pnl pos exit_price ->
   close_net_pnl pos exit_price == gross_pnl pos exit_price * 0.93)
  /\ (gross_pnl pos exit_price <= 0 ->
      close_net_pnl pos exit_price == gross_pnl pos exit_price).
Proof.
  unfold close_net_pnl, gross_pnl, py_max.
  cbn [fltb fsub fmul fdiv of_int lit Q_PyFloat].
  change (inject_Z 100) with 100. change (inject_Z 0) with 0.
  set (g := inject_Z (pos_quantity pos * exit_price - pos_total_cost pos) / 100).
  split; intros Hg.
  - assert (Qltb 0 g = true) as -> by (apply Qltb_lt; exact Hg).
    assert (Qltb 0 (g * 0.07) = true) as -> by (apply Qltb_lt; lra).
    lra.
  - assert (Qltb 0 g = false) as -> by (apply Qltb_ge; exact Hg).
    lra.
Qed.

Lemma close_cases (pt : t Q) (ticker side : string) (exit_price : Z) :
  (pos_quantity (position_at pt ticker side) = 0%Z
   /\ simulate_position_close pt ticker side exit_price = pt)
  \/ exists pos,
       dict_lookup (ticker ++ "_" ++ side)%string (paper_positions pt)
       = Some pos
       /\ pos_quantity pos <> 0%Z
       /\ position_at pt ticker side = pos
       /\ simulate_position_close pt ticker side exit_price
          = {| paper_trades := paper_trades pt;
               paper_positions :=
                 dict_store (ticker ++ "_" ++ side)%string
                   {| pos_ticker := pos_ticker pos; pos_side := pos_side pos;
                      pos_quantity := 0; pos_avg_price := inject_Z 0;
                      pos_total_cost := 0 |}
                   (paper_positions pt);
               total_pnl := fadd (total_pnl pt) (close_net_pnl pos exit_price);
               simulated_fill_rate := simulated_fill_rate pt;
               simulated_slippage := simulated_slippage pt |}.
Proof.
  unfold position_at, simulate_position_close.
  destruct (dict_lookup (ticker ++ "_" ++ side)%string (paper_positions pt))
    as [pos|]; [|left; split; reflexivity].
  destruct (pos_quantity pos =? 0)%Z eqn:Hflat.
  - apply Z.eqb_eq in Hflat. left. split; [exact Hflat | reflexivity].
  - apply Z.eqb_neq in Hflat. right. exists pos.
    repeat split; try reflexivity. exact Hflat.
Qed.

(** X7.  [simulate_position_close] on an entry that is missing or flat
    changes nothing.  On any other entry it zeroes the entry's quantity and
    cost, adds to the realised P&L the gross P&L (quantity times exit price
    minus total cost, in dollars) less a fee of 7% when that is a profit,
    releases the entry's cost from the exposure, and leaves the other
    entries and the trade log alone.  Closing a second time changes
    nothing. *)
Theorem close_books_net_pnl (pt : t Q) (ticker side : string)
    (exit_price : Z) :
  let old := position_at pt ticker side in
  let pt' := simulate_position_close pt ticker side exit_price in
  (pos_quantity old = 0%Z -> pt' = pt)
  /\ (pos_quantity old <> 0%Z ->
      pos_quantity (position_at pt' ticker side) = 0%Z
      /\ pos_total_cost (position_at pt' ticker side) = 0%Z
      /\ (0 < gross_pnl old exit_price ->
          total_pnl pt' == total_pnl pt + gross_pnl old exit_price * 0.93)
      /\ (gross_pnl old exit_price <= 0 ->
          total_pnl pt' == total_pnl pt + gross_pnl old exit_price)
      /\ snd (get_balance pt')
         == snd (get_balance pt) - inject_Z (pos_total_cost old) / 100
      /\ (forall other : string,
            other <> (ticker ++ "_" ++ side)%string ->
            dict_lookup other (paper_positions pt')
            = dict_lookup other (paper_positions pt))
      /\ paper_trades pt' = paper_trades pt)
  /\ simulate_position_close pt' ticker side exit_price = pt'.
Proof.
  cbv zeta.
  destruct (close_cases pt ticker side exit_price)
    as [[Hflat Hsame]|(pos & Hlook & Hopen & Hat & Hclosed)].
  - rewrite Hsame. split; [reflexivity|].
    split; [intros Hne; contradiction | exact Hsame].
  - rewrite Hat, Hclosed.
    match goal with |- context [position_at ?s ticker side] =>
      set (pt' := s) end.
    split; [intros Hz; contradiction|]. split.
    + intros _.
      rewrite (position_at_stored pt' ticker side _ (paper_positions pt)
                 eq_refl).
      unfold pt'.
      cbn [paper_positions total_pnl paper_trades pos_quantity pos_total_cost
           fadd Q_PyFloat].
      destruct (close_net_pnl_spec pos exit_price) as [Hwin Hloss].
      split; [reflexivity|]. split; [reflexivity|].
      split; [intros Hg; rewrite (Hwin Hg); reflexivity|].
      split; [intros Hg; rewrite (Hloss Hg); reflexivity|].
      split.
      { match goal with |- snd (get_balance ?s) == _ =>
          destruct (get_balance_exposure s) as [-> _] end.
        destruct (get_balance_exposure pt) as [-> _].
        cbn [paper_positions]. rewrite ledger_exposure_store, Hlook.
        cbn [pos_total_cost]. change (inject_Z 0) with 0. field. }
      split; [|reflexivity].
      intros other Hother. apply dict_lookup_store_ne. exact Hother.
    + unfold pt', simulate_position_close. cbn [paper_positions].
      rewrite dict_lookup_store_eq. cbn [pos_quantity]. reflexivity.
Qed.
End PaperBalance.

Section PaperRoundTrip.
Local Open Scope Q_scope.
Import PaperTrader.

(** X8.  Opening a position on a flat entry with a paper order that fills,
    and closing it at the price it was filled at, books a P&L of zero: the
    realised P&L, the exposure and the available balance are what they were
    before the order, and the entry is flat again. *)
Theorem paper_round_trip (pt : t Q) (uuid : string) (now : datetime)
    (ticker side : string) (quantity limit_price : Z) :
  simulated_fill_rate pt = 0.95 ->
  ledger_ok pt ->
  (2 <= quantity)%Z ->
  pos_quantity (position_at pt ticker side) = 0%Z ->
  pos_total_cost (position_at pt ticker side) = 0%Z ->
  exists order pt1,
    place_order pt uuid now ticker side quantity limit_price = Ok (order, pt1)
    /\ let pt2 := simulate_position_close pt1 ticker side
                    (fill_price_of limit_price) in
       total_pnl pt2 == total_pnl pt
       /\ snd (get_balance pt2) == snd (get_balance pt)
       /\ fst (get_balance pt2) == fst (get_balance pt)
       /\ pos_quantity (position_at pt2 ticker side) = 0%Z.
Proof.
  intros Hrate Hledger Hq Hflat Hfree.
  destruct (place_order_filled pt uuid now ticker side quantity limit_price
              Hrate Hledger Hq) as (order & record & Hplaced).
  cbv zeta in Hplaced. rewrite Hflat, Hfree in Hplaced.
  match type of Hplaced with _ = Ok (_, ?s) => set (pt1 := s) in * end.
  exists order, pt1. split; [exact Hplaced|]. cbv zeta.
  assert (Hfill : (0 < filled_of quantity)%Z).
  { unfold filled_of. apply Z.div_str_pos. lia. }
  destruct (close_cases pt1 ticker side (fill_price_of limit_price))
    as [[Hzero _]|(pos & Hlook & Hopen & Hat & Hclosed)].
  { exfalso.
    rewrite (position_at_stored pt1 ticker side _ (paper_positions pt) eq_refl)
      in Hzero.
    cbn [pos_quantity] in Hzero. lia. }
  rewrite (position_at_stored pt1 ticker side _ (paper_positions pt) eq_refl)
    in Hat.
  rewrite Hclosed.
  match goal with |- context [total_pnl ?s] => set (pt2 := s) end.
  assert (Hgross : gross_pnl pos (fill_price_of limit_price) == 0).
  { subst pos. unfold gross_pnl. cbn [pos_quantity pos_total_cost].
    match goal with |- inject_Z ?z / 100 == 0 =>
      replace z with 0%Z by lia end.
    reflexivity. }
  assert (Hnet : close_net_pnl pos (fill_price_of limit_price) == 0).
  { destruct (close_net_pnl_spec pos (fill_price_of limit_price)) as [_ Hloss].
    rewrite Hloss; [exact Hgross | rewrite Hgross; apply Qle_refl]. }
  assert (Hpnl : total_pnl pt2 == total_pnl pt).
  { unfold pt2. cbn [total_pnl fadd Q_PyFloat]. unfold pt1 at 1.
    cbn [total_pnl]. rewrite Hnet. ring. }
  assert (Hexp : snd (get_balance pt2) == snd (get_balance pt)).
  { destruct (get_balance_exposure pt2) as [-> _].
    destruct (get_balance_exposure pt) as [-> _].
    unfold pt2. cbn [paper_positions]. rewrite ledger_exposure_store, Hlook.
    unfold pt1. cbn [paper_positions pos_total_cost].
    rewrite ledger_exposure_store, position_at_cost, Hfree.
    subst pos. cbn [pos_total_cost]. change (inject_Z 0) with 0. field. }
  split; [exact Hpnl|]. split; [exact Hexp|]. split.
  - destruct (get_balance_exposure pt2) as [He ->].
    destruct (get_balance_exposure pt) as [He' ->].
    rewrite <- He, <- He', Hexp, Hpnl. reflexivity.
  - rewrite (position_at_stored pt2 ticker side _ (paper_positions pt1) eq_refl).
    reflexivity.
Qed.

End PaperRoundTrip.

Section PaperMoreWitnesses.
Local Open Scope Q_scope.
Import PaperTrader.

Lemma paper_fill_updates_ledger_witness :
  simulated_fill_rate ledger_after_fill = 0.95
  /\ ledger_ok ledger_after_fill
  /\ (2 <= 10)%Z
  /\ exists order pt',
       place_order ledger_after_fill "1f" 5%Z "KXTEST" "yes" 10 95
       = Ok (order, pt')
       /\ pos_quantity (position_at pt' "KXTEST" "yes")
          = (pos_quantity (position_at ledger_after_fill "KXTEST" "yes")
             + filled_of 10)%Z
       /\ pos_total_cost (position_at pt' "KXTEST" "yes")
          = (pos_total_cost (position_at ledger_after_fill "KXTEST" "yes")
             + filled_of 10 * fill_price_of 95)%Z
       /\ pos_avg_price (position_at pt' "KXTEST" "yes")
          == inject_Z (pos_total_cost (position_at pt' "KXTEST" "yes"))
             / inject_Z (pos_quantity (position_at pt' "KXTEST" "yes"))
       /\ (forall other : string,
             other <> ("KXTEST" ++ "_" ++ "yes")%string ->
             dict_lookup other (paper_positions pt')
             = dict_lookup other (paper_positions ledger_after_fill))
       /\ total_pnl pt' = total_pnl ledger_after_fill
       /\ ledger_ok pt'.
Proof.
  assert (H1 : simulated_fill_rate ledger_after_fill = 0.95) by reflexivity.
  assert (H2 : ledger_ok ledger_after_fill).
  { unfold ledger_ok. vm_compute. repeat constructor. discriminate. }
  assert (H3 : (2 <= 10)%Z) by lia.
  split; [exact H1|]. split; [exact H2|]. split; [exact H3|].
  apply (paper_fill_updates_ledger ledger_after_fill "1f" 5%Z "KXTEST" "yes"
           10 95 H1 H2 H3).
Defined.

Lemma paper_fill_moves_balance_witness :
  simulated_fill_rate (init (F:=Q)) = 0.95
  /\ ledger_ok init
  /\ (2 <= 20)%Z
  /\ exists order pt',
       place_order (F:=Q) init "0f" 0%Z "KXTEST" "yes" 20 50 = Ok (order, pt')
       /\ snd (get_balance pt')
          == snd (get_balance (init (F:=Q)))
             + inject_Z (filled_of 20 * fill_price_of 50) / 100
       /\ fst (get_balance pt')
          == fst (get_balance (init (F:=Q)))
             - inject_Z (filled_of 20 * fill_price_of 50) / 100.
Proof.
  assert (H1 : simulated_fill_rate (init (F:=Q)) = 0.95) by reflexivity.
  assert (H2 : ledger_ok init) by constructor.
  assert (H3 : (2 <= 20)%Z) by lia.
  split; [exact H1|]. split; [exact H2|]. split; [exact H3|].
  apply (paper_fill_moves_balance init "0f" 0%Z "KXTEST" "yes" 20 50 H1 H2 H3).
Defined.

Lemma close_books_net_pnl_witness :
  pos_quantity (position_at ledger_after_fill "KXTEST" "yes") <> 0%Z
  /\ 0 < gross_pnl (position_at ledger_after_fill "KXTEST" "yes") 60
  /\ total_pnl (simulate_position_close ledger_after_fill "KXTEST" "yes" 60)
     == total_pnl ledger_after_fill
        + gross_pnl (position_at ledger_after_fill "KXTEST" "yes") 60 * 0.93.
Proof.
  assert (H1 : pos_quantity (position_at ledger_after_fill "KXTEST" "yes")
               <> 0%Z) by (vm_compute; discriminate).
  assert (H2 : 0 < gross_pnl (position_at ledger_after_fill "KXTEST" "yes") 60)
    by reflexivity.
  split; [exact H1|]. split; [exact H2|].
  destruct (close_books_net_pnl ledger_after_fill "KXTEST" "yes" 60)
    as (_ & Hopen & _).
  destruct (Hopen H1) as (_ & _ & Hwin & _).
  exact (Hwin H2).
Defined.

Lemma paper_round_trip_witness :
  simulated_fill_rate (init (F:=Q)) = 0.95
  /\ ledger_ok init
  /\ (2 <= 20)%Z
  /\ pos_quantity (position_at init "KXTEST" "yes") = 0%Z
  /\ pos_total_cost (position_at init "KXTEST" "yes") = 0%Z
  /\ exists order pt1,
       place_order (F:=Q) init "0f" 0%Z "KXTEST" "yes" 20 50 = Ok (order, pt1)
       /\ let pt2 := simulate_position_close pt1 "KXTEST" "yes"
                       (fill_price_of 50) in
          total_pnl pt2 == total_pnl (init (F:=Q))
          /\ snd (get_balance pt2) == snd (get_balance (init (F:=Q)))
          /\ fst (get_balance pt2) == fst (get_balance (init (F:=Q)))
          /\ pos_quantity (position_at pt2 "KXTEST" "yes") = 0%Z.
Proof.
  assert (H1 : simulated_fill_rate (init (F:=Q)) = 0.95) by reflexivity.
  assert (H2 : ledger_ok init) by constructor.
  assert (H3 : (2 <= 20)%Z) by lia.
  assert (H4 : pos_quantity (position_at init "KXTEST" "yes") = 0%Z)
    by reflexivity.
  assert (H5 : pos_total_cost (position_at init "KXTEST" "yes") = 0%Z)
    by reflexivity.
  split; [exact H1|]. split; [exact H2|]. split; [exact H3|].
  split; [exact H4|]. split; [exact H5|].
  apply (paper_round_trip init "0f" 0%Z "KXTEST" "yes" 20 50 H1 H2 H3 H4 H5).
Defined.
End PaperMoreWitnesses.

(** ** Position supervision *)

Section ManagerStructure.
Context {F : Type} {float_ops : PyFloat F}.
Import PositionManager.

Lemma count_placed_send_alert (callback : bool) (a : Alert F) :
  count_events is_placed_order (send_alert callback a) = 0%nat.
Proof. destruct callback; reflexivity. Qed.

Lemma close_position_untouched_or_closed (self : t F) (env : Env F)
    (trade : Trade F) (price : option F) (reason : string) :
  untouched_or_closed trade
    (fst (close_position self env trade price reason)).
Proof.
  unfold close_position, close_failed.
  destruct price as [p|]; [|left; reflexivity].
  destruct (to_int (fmul p (of_int 100))) as [cents|e]; [|left; reflexivity].
  destruct (kalshi_place_order _ _ _ _) as [[order|]|e];
    try (left; reflexivity).
  destruct (py_div _ _); right; split; try reflexivity; repeat split.
Qed.

Lemma check_position_untouched_or_closed (self : t F) (env : Env F)
    (trade : Trade F) :
  untouched_or_closed trade (fst (check_position self env trade)).
Proof.
  unfold check_position.
  destruct (exit_decision self env trade) as [|price reason];
    [left; reflexivity|].
  apply close_position_untouched_or_closed.
Qed.

(** X10.  A pass of [monitor_positions] returns the table trade for trade:
    a trade whose status is not ["open"] comes back exactly as it was, and
    an open trade comes back either exactly as it was or with status
    ["closed"] and the same signal, order, ticker, side, quantity, entry and
    fill price.  So a trade that a pass closed is not touched by the next
    pass. *)
Theorem monitor_closes_only_open (self : t F) (world world' : Trade F -> Env F)
    (trades : list (Trade F)) :
  let after := fst (monitor_positions self world trades) in
  Forall2 (fun t t' =>
             untouched_or_closed t t'
             /\ (trade_status t <> "open" -> t' = t))
          trades after
  /\ Forall2 (fun t' t'' => trade_status t' = "closed" -> t'' = t')
       after (fst (monitor_positions self world' after)).
Proof.
  cbv zeta.
  assert (Hpass : forall (w : Trade F -> Env F) (ts : list (Trade F)),
            Forall2 (fun t t' =>
                       untouched_or_closed t t'
                       /\ (trade_status t <> "open" -> t' = t))
                    ts (fst (monitor_positions self w ts))).
  { intros w ts. induction ts as [|t ts IH]; cbn [monitor_positions].
    - constructor.
    - pose proof (check_position_untouched_or_closed self (w t) t) as Hstep.
      destruct (String.eqb (trade_status t) "open") eqn:Hopen.
      + destruct (check_position self (w t) t) as [t' evs].
        destruct (monitor_positions self w ts) as [ts' evs'].
        cbn [fst] in *. constructor; [|exact IH].
        split; [exact Hstep|]. intros Hne. apply String.eqb_eq in Hopen.
        contradiction.
      + destruct (monitor_positions self w ts) as [ts' evs'].
        cbn [fst] in *. constructor; [|exact IH].
        split; [left; reflexivity | reflexivity]. }
  split; [apply Hpass|].
  eapply Forall2_impl; [apply (Hpass world')|].
  intros t' t'' [_ Hkept] Hclosed. apply Hkept. rewrite Hclosed. discriminate.
Qed.
End ManagerStructure.

Section ManagerAccounts.
Local Open Scope Q_scope.
Import PositionManager.

Lemma kalshi_place_order_accepts (reply : BrokerReply) (side : string)
    (quantity limit_price : Z) :
  side = "yes" \/ side = "no" ->
  (0 < quantity)%Z -> (1 <= limit_price <= 99)%Z ->
  kalshi_place_order reply side quantity limit_price
  = match reply with
    | BrokerOrder o => Ok (Some o)
    | BrokerNoOrder => Ok None
    | BrokerFails => Raise BrokerError
    end.
Proof.
  intros Hside Hq Hp. unfold kalshi_place_order.
  apply side_is_yes_or_no_spec in Hside. rewrite Hside. cbn [negb].
  assert ((1 <=? limit_price)%Z && (limit_price <=? 99)%Z = true) as ->
    by (apply andb_true_iff; split; apply Z.leb_le; lia).
  cbn [negb].
  assert ((quantity <=? 0)%Z = false) as -> by (apply Z.leb_gt; lia).
  reflexivity.
Qed.

Lemma kalshi_place_order_rejects_price (reply : BrokerReply) (side : string)
    (quantity limit_price : Z) :
  ~ (1 <= limit_price <= 99)%Z ->
  exists e, kalshi_place_order reply side quantity limit_price = Raise e.
Proof.
  intros Hp. unfold kalshi_place_order.
  destruct (negb (side_is_yes_or_no side)); [eexists; reflexivity|].
  assert ((1 <=? limit_price)%Z && (limit_price <=? 99)%Z = false) as ->.
  { apply andb_false_iff.
    destruct (Z_le_gt_dec 1 limit_price); [right | left];
      [apply Z.leb_gt | apply Z.leb_gt]; lia. }
  eexists. reflexivity.
Qed.

(** X11.  When the exchange accepts the closing order (a price between 1
    and 99 cents, a positive quantity), [_close_position] sends one order,
    on the opposite side, for the trade's quantity, and returns the trade
    closed at the given price with the given reason.  Its fees are 3% of the
    gross P&L (the price move in favour of the trade times the quantity)
    when that is a profit and 0 otherwise, and its booked P&L is the gross
    P&L less the fees, so never more than the gross P&L. *)
Theorem close_position_accounts (self : t Q) (env : Env Q) (trade : Trade Q)
    (price : Q) (reason : string) (order : Order) :
  (1 <= Qtrunc (price * 100) <= 99)%Z ->
  (0 < trade_quantity trade)%Z ->
  env_broker env = BrokerOrder order ->
  let gross := move_in_favour trade price * inject_Z (trade_quantity trade) in
  exists trade' events net fees,
    close_position self env trade (Some price) reason = (trade', events)
    /\ place_orders events
       = [EvPlaceOrder false (trade_ticker trade)
            (if String.eqb (trade_side trade) "yes" then "no" else "yes")
            (trade_quantity trade) (Qtrunc (price * 100)) (Some order)]
    /\ trade_status trade' = "closed"
    /\ trade_close_reason trade' = Some reason
    /\ trade_exit_price trade' = Some price
    /\ trade_closed_at trade' = Some (env_utcnow env)
    /\ same_position trade trade'
    /\ trade_pnl trade' = Some net
    /\ trade_fees trade' = Some fees
    /\ net == gross - fees
    /\ (0 < gross -> fees == 0.03 * gross)
    /\ (gross <= 0 -> fees == 0)
    /\ net <= gross.
Proof.
  intros Hcents Hq Hbroker gross.
  unfold close_position.
  change (to_int (fmul price (of_int 100))) with (Ok (Qtrunc (price * 100))).
  cbv beta iota.
  rewrite kalshi_place_order_accepts;
    [|destruct (String.eqb (trade_side trade) "yes"); auto | exact Hq
     | exact Hcents].
  rewrite Hbroker.
  set (total := fmul (if String.eqb (trade_side trade) "yes"
                      then fsub price (trade_entry_price trade)
                      else fsub (trade_entry_price trade) price)
                     (of_int (trade_quantity trade))).
  assert (Htotal : total == gross).
  { unfold total, gross, move_in_favour.
    destruct (String.eqb (trade_side trade) "yes"); reflexivity. }
  set (fees := if fltb (of_int 0) total
               then fmul (py_abs total) (lit 0.03) else of_int 0).
  assert (Hfees : (0 < gross -> fees == 0.03 * gross)
                  /\ (gross <= 0 -> fees == 0)).
  { unfold fees, py_abs. cbn [fltb fmul fneg of_int lit Q_PyFloat].
    change (inject_Z 0) with 0. split; intros Hg.
    - assert (Qltb 0 total = true) as -> by (apply Qltb_lt; lra).
      assert (Qltb total 0 = false) as -> by (apply Qltb_ge; lra).
      lra.
    - assert (Qltb 0 total = false) as -> by (apply Qltb_ge; lra).
      reflexivity. }
  destruct Hfees as [Hwin Hloss].
  assert (Hnet : fsub total fees == gross - fees
                 /\ fsub total fees <= gross).
  { cbn [fsub Q_PyFloat]. split; [lra|].
    destruct (Qlt_le_dec 0 gross) as [Hg|Hg];
      [rewrite (Hwin Hg) | rewrite (Hloss Hg)]; lra. }
  destruct Hnet as [Hnet Hle].
  unfold close_failed.
  destruct (py_div _ (trade_entry_price trade));
    (eexists; eexists; exists (fsub total fees), fees;
     split; [reflexivity|];
     split; [autorewrite with orders;
             cbn [place_orders List.filter is_place_order app];
             reflexivity|];
     cbn [trade_status trade_close_reason trade_exit_price trade_closed_at
          trade_pnl trade_fees];
     repeat (split; [reflexivity|]);
     split; [repeat split|];
     split; [reflexivity|]; split; [reflexivity|];
     split; [exact Hnet|]; split; [exact Hwin|]; split; [exact Hloss|];
     exact Hle).
Qed.
End ManagerAccounts.

Section ManagerEdges.
Local Open Scope Q_scope.
Import PositionManager.

(** X12.  On a market that is closed or settled the supervisor tries to
    close at the last traded price.  When the market has no last price, or
    one that is not between 1 and 99 cents (a market settled at 0 or at
    1.00), the attempt fails before anything reaches the exchange: the trade
    comes back exactly as it was, still open, and no order is obtained,
    whatever the exchange would have answered. *)
Theorem settled_market_stays_open (self : t Q) (env : Env Q) (trade : Trade Q)
    (market : Market Q) :
  env_market env = Some market ->
  market_is_closed market = true ->
  match market_last_price market with
  | Some p => ~ (1 <= Qtrunc (p * 100) <= 99)%Z
  | None => True
  end ->
  exit_decision self env trade
  = Close (market_last_price market) ExitCondition.MARKET_CLOSED
  /\ fst (check_position self env trade) = trade
  /\ count_events is_placed_order (snd (check_position self env trade)) = 0%nat.
Proof.
  intros Hmarket Hclosed Hprice.
  assert (Hexit : exit_decision self env trade
                  = Close (market_last_price market)
                      ExitCondition.MARKET_CLOSED).
  { unfold exit_decision. rewrite Hmarket, Hclosed. reflexivity. }
  split; [exact Hexit|].
  unfold check_position. rewrite Hexit. unfold close_position, close_failed.
  destruct (market_last_price market) as [p|].
  - change (to_int (fmul p (of_int 100))) with (Ok (Qtrunc (p * 100))).
    cbv beta iota.
    destruct (kalshi_place_order_rejects_price (env_broker env)
                (if String.eqb (trade_side trade) "yes" then "no" else "yes")
                (trade_quantity trade) (Qtrunc (p * 100)) Hprice) as [e ->].
    cbn [fst snd]. split; [reflexivity|].
    rewrite count_events_app, count_placed_send_alert. reflexivity.
  - cbn [fst snd app]. split; [reflexivity|]. apply count_placed_send_alert.
Qed.

Lemma settled_market_stays_open_witness :
  exit_decision default_manager (world_settled_at (Some 1%Q)) trade_yes_40
  = Close (Some 1%Q) ExitCondition.MARKET_CLOSED
  /\ fst (check_position default_manager (world_settled_at (Some 1%Q))
            trade_yes_40) = trade_yes_40
  /\ count_events is_placed_order
       (snd (check_position default_manager (world_settled_at (Some 1%Q))
               trade_yes_40)) = 0%nat.
Proof.
  apply (settled_market_stays_open default_manager
           (world_settled_at (Some 1%Q)) trade_yes_40
           (market_settled_at (Some 1%Q))).
  - reflexivity.
  - reflexivity.
  - cbn. vm_compute. intros [_ H]. apply H. reflexivity.
Defined.



Lemma close_position_accounts_witness :
  exists trade' events net fees,
    close_position default_manager (world_trading_at 0.44) trade_yes_40
      (Some 0.44) "profit_target" = (trade', events)
    /\ place_orders events
       = [EvPlaceOrder false "KXTEST" "no" 10 44 (Some closing_order)]
    /\ trade_status trade' = "closed"
    /\ trade_pnl trade' = Some net
    /\ trade_fees trade' = Some fees
    /\ net == move_in_favour trade_yes_40 0.44 * 10 - fees
    /\ fees == 0.03 * (move_in_favour trade_yes_40 0.44 * 10).
Proof.
  destruct (close_position_accounts default_manager (world_trading_at 0.44)
              trade_yes_40 0.44 "profit_target" closing_order)
    as (trade' & events & net & fees & Hrun & Horders & Hstatus & _ & _ & _
        & _ & Hpnl & Hfees & Hnet & Hwin & _).
  - vm_compute. split; discriminate.
  - reflexivity.
  - reflexivity.
  - exists trade', events, net, fees.
    split; [exact Hrun|]. split; [exact Horders|]. split; [exact Hstatus|].
    split; [exact Hpnl|]. split; [exact Hfees|]. split; [exact Hnet|].
    apply Hwin. reflexivity.
Defined.
End ManagerEdges.

(** ** The position summary *)

Section PositionSummary.
Context {F : Type} {float_ops : PyFloat F}.
Import PositionManager.

Lemma summary_fold (markets : Trade F -> option (Market F))
    (trades : list (Trade F)) (total : F) (details : list (PositionDetail F)) :
  exists added,
    fold_left (summary_step markets) trades (total, details)
    = (fold_left fadd (map pd_unrealized_pnl added) total, details ++ added)
    /\ length added
       = length (List.filter (fun trade => bool_decide (is_Some (markets trade)))
                   trades)
    /\ Forall (fun d => truthy (pd_current_price d) = true
                        \/ pd_current_price d = pd_entry_price d) added.
Proof.
  revert total details.
  induction trades as [|trade trades IH]; intros total details.
  - exists []. cbn. rewrite app_nil_r. repeat split. constructor.
  - cbn [fold_left List.filter]. unfold summary_step at 2.
    destruct (markets trade) as [market|] eqn:Hmarket.
    + match goal with
      | |- context [fold_left _ trades (?t, _ ++ [?d])] =>
          destruct (IH t (details ++ [d])) as (added & -> & Hlen & Hprice);
          exists (d :: added)
      end.
      rewrite <- app_assoc. cbn [app map fold_left pd_unrealized_pnl].
      split; [reflexivity|].
      rewrite bool_decide_eq_true_2 by (eexists; reflexivity).
      cbn [length]. split; [congruence|].
      constructor; [|exact Hprice]. cbn [pd_current_price pd_entry_price].
      unfold price_or_entry.
      destruct (market_last_price market) as [p|].
      * destruct (truthy p) eqn:Hp; [left; exact Hp|].
        destruct (truthy (market_yes_bid market)) eqn:Hbid;
          [left; exact Hbid | right; reflexivity].
      * destruct (truthy (market_yes_bid market)) eqn:Hbid;
          [left; exact Hbid | right; reflexivity].
    + destruct (IH total details) as (added & -> & Hlen & Hprice).
      exists added. split; [reflexivity|].
      rewrite bool_decide_eq_false_2 by (intros [m Hm]; discriminate).
      split; assumption.
Qed.

(** X23.  The summary of the open positions.  ["positions"] has one entry
    for each open trade whose market the exchange returns, so it can be
    shorter than ["total_positions"], which counts every open trade;
    ["total_unrealized_pnl"] is the sum of the entries' ["unrealized_pnl"],
    added up in order from 0; and an entry is priced at zero only when the
    trade was entered at zero: a market without last price and bid is
    valued at the entry price. *)
Theorem summary_skips_unknown_markets (markets : Trade F -> option (Market F))
    (trades : list (Trade F)) :
  let summary := get_position_summary markets trades in
  let open_trades :=
    List.filter (fun trade => String.eqb (trade_status trade) "open") trades in
  total_positions summary = Z.of_nat (length open_trades)
  /\ length (positions summary)
     = length (List.filter
                 (fun trade => bool_decide (is_Some (markets trade)))
                 open_trades)
  /\ Z.of_nat (length (positions summary)) <= total_positions summary
  /\ total_unrealized_pnl summary
     = py_sum (map pd_unrealized_pnl (positions summary))
  /\ Forall (fun d => truthy (pd_current_price d) = true
                      \/ pd_current_price d = pd_entry_price d)
       (positions summary).
Proof.
  intros summary open_trades. subst summary.
  unfold get_position_summary. fold open_trades.
  destruct (summary_fold markets open_trades (of_int 0) [])
    as (added & -> & Hlen & Hprice).
  cbn [app total_positions positions total_unrealized_pnl].
  split; [reflexivity|]. split; [exact Hlen|].
  split; [|split; [reflexivity | exact Hprice]].
  rewrite Hlen. apply inj_le, List.filter_length_le.
Qed.
End PositionSummary.

(** ** The execution pipeline: what gets through and what does not *)

Section ExecutorOrders.
Context {F : Type} {float_ops : PyFloat F} {hashlib : Hashlib}.
Import TradeExecutor.

Lemma validate_order_accepts (ticker side : string) (quantity price : Z) :
  fst (OrderValidator.validate_order (F:=F) ticker side quantity price) = true
  <-> ticker <> "" /\ (side = "yes" \/ side = "no")
      /\ 0 < quantity /\ 1 <= price <= 99.
Proof.
  unfold OrderValidator.validate_order.
  destruct (String.eqb ticker "") eqn:Hticker.
  { apply String.eqb_eq in Hticker. cbn. split; [discriminate | tauto]. }
  apply String.eqb_neq in Hticker.
  pose proof (side_is_yes_or_no_spec side) as Hside.
  destruct (side_is_yes_or_no side); cbn [negb].
  2:{ cbn. split; [discriminate|]. intros (_ & Hs & _).
      apply Hside in Hs. discriminate. }
  destruct (quantity <=? 0) eqn:Hq.
  { apply Z.leb_le in Hq. cbn. split; [discriminate | lia]. }
  apply Z.leb_gt in Hq.
  destruct ((1 <=? price) && (price <=? 99)) eqn:Hp; cbn [negb fst].
  - apply andb_true_iff in Hp. destruct Hp as [H1 H2].
    apply Z.leb_le in H1, H2. intuition.
  - apply andb_false_iff in Hp. split; [discriminate|].
    intros (_ & _ & _ & H1 & H2).
    destruct Hp as [Hp|Hp]; apply Z.leb_gt in Hp; lia.
Qed.

(** X14.  [validate_order] accepts exactly the orders with a non-empty
    ticker, a side yes or no, a positive quantity and a price between 1 and
    99 cents; and an order it accepts passes the input checks of the
    exchange client, whose result is then the exchange's answer alone. *)
Theorem validated_order_reaches_exchange (ticker side : string)
    (quantity price : Z) (reply : BrokerReply) :
  (fst (OrderValidator.validate_order (F:=F) ticker side quantity price) = true
   <-> ticker <> "" /\ (side = "yes" \/ side = "no")
       /\ 0 < quantity /\ 1 <= price <= 99)
  /\ (fst (OrderValidator.validate_order (F:=F) ticker side quantity price)
      = true ->
      kalshi_place_order reply side quantity price
      = match reply with
        | BrokerOrder o => Ok (Some o)
        | BrokerNoOrder => Ok None
        | BrokerFails => Raise BrokerError
        end).
Proof.
  split; [apply validate_order_accepts|].
  intros Hok. apply validate_order_accepts in Hok.
  destruct Hok as (_ & Hside & Hq & Hp).
  apply kalshi_place_order_accepts; assumption.
Qed.

(** X15.  The hourly and daily ceilings.  When the rate window holds at
    least [max_trades_per_hour] time stamps younger than one hour, or the
    store counts at least [max_trades_per_day] trades today, a call of
    [execute_signal] returns no trade and does not call the gateway; the
    dedup set and the settings are unchanged, and the window is either
    untouched or pruned to its entries younger than one hour. *)
Theorem rate_limit_blocks (self : t F) (env : Env F) (signal : TradeSignal F) :
  let window :=
    filter (fun t => env_now_rate env - 3600 < t) (recent_trades self) in
  max_trades_per_hour (risk_limits self) <= Z.of_nat (length window)
  \/ max_trades_per_day (risk_limits self) <= env_daily_trades env ->
  let '(result, self', events) := execute_signal self env signal in
  result = Ok None
  /\ place_orders events = []
  /\ seen_signals self' = seen_signals self
  /\ same_settings self self'
  /\ (recent_trades self' = recent_trades self
      \/ recent_trades self' = window).
Proof.
  intros window Hfull. unfold execute_signal.
  destruct (trading_enabled self); cbn [negb];
    [|repeat split; left; reflexivity].
  unfold CircuitBreaker.can_trade.
  destruct (CircuitBreaker.is_tripped (circuit_breaker self)).
  { split; [reflexivity|]. split; [autorewrite with orders; reflexivity|].
    repeat split. left. reflexivity. }
  destruct (OrderValidator.validate_signal signal (config self)
              (seen_signals self)) as [[|] reason].
  2:{ split; [reflexivity|]. split; [autorewrite with orders; reflexivity|].
      repeat split. left. reflexivity. }
  assert (Hcheck : check_rate_limits self env
                   = (false, with_recent_trades self window)).
  { unfold check_rate_limits. fold window.
    cbn [risk_limits recent_trades with_recent_trades].
    destruct Hfull as [Hhour|Hday].
    - apply Z.leb_le in Hhour. rewrite Hhour. reflexivity.
    - destruct (_ <=? Z.of_nat _); [reflexivity|].
      apply Z.leb_le in Hday. rewrite Hday. reflexivity. }
  rewrite Hcheck. cbn [negb].
  repeat split. right. reflexivity.
Qed.
End ExecutorOrders.

Section ExecutorConviction.
Context {hashlib : Hashlib}.
Local Open Scope Q_scope.
Import TradeExecutor.

(** X16.  A signal whose confidence or whose edge is below the threshold
    never trades: [execute_signal] returns no trade, does not call the
    gateway, and leaves the executor exactly as it was. *)
Theorem low_conviction_never_trades (self : t Q) (env : Env Q)
    (signal : TradeSignal Q) :
  confidence signal < min_confidence_of (config self)
  \/ edge_percentage signal < min_edge_of (config self) ->
  let '(result, self', events) := execute_signal self env signal in
  result = Ok None /\ self' = self /\ place_orders events = [].
Proof.
  intros Hlow. unfold execute_signal.
  destruct (trading_enabled self); cbn [negb]; [|repeat split].
  unfold CircuitBreaker.can_trade.
  destruct (CircuitBreaker.is_tripped (circuit_breaker self)).
  { repeat split. autorewrite with orders. reflexivity. }
  assert (Hrejected : fst (OrderValidator.validate_signal signal (config self)
                             (seen_signals self)) = false).
  { unfold OrderValidator.validate_signal.
    destruct (bool_decide _); [reflexivity|].
    unfold min_confidence_of, min_edge_of in Hlow.
    cbn [fltb lit Q_PyFloat].
    destruct (Qltb (confidence signal) _) eqn:Hconf; [reflexivity|].
    destruct (Qltb (edge_percentage signal) _) eqn:Hedge; [reflexivity|].
    apply Qltb_ge in Hconf, Hedge. exfalso. destruct Hlow; lra. }
  destruct (OrderValidator.validate_signal signal (config self)
              (seen_signals self)) as [[|] reason]; [discriminate|].
  repeat split. autorewrite with orders. reflexivity.
Qed.

Lemma py_sum_nonneg (xs : list Q) :
  Forall (fun x => 0 <= x) xs -> 0 <= py_sum xs.
Proof.
  unfold py_sum. cbn [fadd of_int Q_PyFloat]. change (inject_Z 0) with 0.
  intros Hxs. rewrite sum_from. 
  induction Hxs as [|x xs Hx _ IH]; cbn [fold_left]; [lra|].
  rewrite sum_from. rewrite sum_from in IH. lra.
Qed.

(** X17.  The exposure the live executor computes from the broker's
    positions is never negative, whatever the sign of the reported costs:
    it is the sum of their absolute values, in dollars. *)
Theorem live_exposure_nonneg (env : Env Q) :
  0 <= calculate_current_exposure env.
Proof.
  unfold calculate_current_exposure. apply py_sum_nonneg.
  apply Forall_forall. intros x Hx. apply list_elem_of_In in Hx.
  apply in_map_iff in Hx. destruct Hx as (c & <- & _).
  unfold py_abs. cbn [fltb fneg fdiv of_int Q_PyFloat].
  change (inject_Z 0) with 0. change (inject_Z 100) with 100.
  destruct (Qltb c 0) eqn:Hc.
  - apply Qltb_lt in Hc. apply Qle_shift_div_l; [reflexivity | lra].
  - apply Qltb_ge in Hc. apply Qle_shift_div_l; [reflexivity | lra].
Qed.
End ExecutorConviction.

Section ExecutorOutcome.
Context {F : Type} {float_ops : PyFloat F} {hashlib : Hashlib}.
Import TradeExecutor.

Lemma count_placed_mark (env : Env F) (signal : TradeSignal F) :
  count_events is_placed_order (mark_signal_executed env signal) = 0%nat.
Proof.
  unfold mark_signal_executed. destruct (env_db_signal env); reflexivity.
Qed.

Lemma count_placed_rejected (env : Env F) (signal : TradeSignal F)
    (reason : option (Rejection F)) :
  count_events is_placed_order (record_rejected_signal env signal reason)
  = 0%nat.
Proof.
  unfold record_rejected_signal. destruct (env_db_signal env); reflexivity.
Qed.

Lemma count_placed_cons_log (l : LogLine F) (evs : list (Event F)) :
  count_events is_placed_order (EvLog l :: evs)
  = count_events is_placed_order evs.
Proof. reflexivity. Qed.

Lemma well_formed_send_alert (callback : bool) (a : Alert F) :
  Forall well_formed_order (send_alert callback a).
Proof. destruct callback; repeat constructor. Qed.

Lemma well_formed_mark (env : Env F) (signal : TradeSignal F) :
  Forall well_formed_order (mark_signal_executed env signal).
Proof.
  unfold mark_signal_executed.
  destruct (env_db_signal env); repeat constructor.
Qed.

Lemma well_formed_rejected (env : Env F) (signal : TradeSignal F)
    (reason : option (Rejection F)) :
  Forall well_formed_order (record_rejected_signal env signal reason).
Proof.
  unfold record_rejected_signal.
  destruct (env_db_signal env); repeat constructor.
Qed.

(** A trace put together from well-formed pieces is well formed; [H] proves
    it of the gateway call of the branch. *)
Local Ltac wf_trace H :=
  repeat first
    [ assumption
    | apply List.Forall_nil
    | apply well_formed_send_alert
    | apply well_formed_mark
    | apply well_formed_rejected
    | apply Forall_app_2
    | apply List.Forall_cons
    | exact I
    | apply H ].

(** No order came back in a trace put together from pieces without one. *)
Local Ltac no_order_back H :=
  repeat rewrite count_events_app;
  rewrite ?count_placed_cons_log, ?count_placed_send_alert, ?count_placed_mark,
    ?count_placed_rejected, ?H;
  reflexivity.

(** What follows the gateway's order, by what the store does. *)
Lemma order_placed_outcome (self : t F) (env : Env F) (signal : TradeSignal F)
    (evs : list (Event F)) (order : Order) (quantity limit_price : Z) :
  let '(result, self', events) :=
    order_placed self env signal evs order quantity limit_price in
  (Forall well_formed_order evs -> Forall well_formed_order events)
  /\ match env_record_trade_raises env, env_mark_executed_raises env with
     | None, None =>
         result
         = Ok (Some (record_trade env signal order quantity limit_price))
         /\ seen_signals self'
            = seen_signals self ∪ {[ md5_hexdigest (signal_id signal) ]}
         /\ recent_trades self' = recent_trades self ++ [env_now_trade env]
     | None, Some _ =>
         result = Ok None
         /\ seen_signals self'
            = seen_signals self ∪ {[ md5_hexdigest (signal_id signal) ]}
     | Some _, _ =>
         result = Ok None /\ seen_signals self' = seen_signals self
     end.
Proof.
  unfold order_placed, execution_failed.
  destruct (env_record_trade_raises env) as [e|].
  { split; [intros Hwf; wf_trace I | split; reflexivity]. }
  destruct (env_mark_executed_raises env) as [e|].
  - split; [intros Hwf; wf_trace I | split; reflexivity].
  - split; [intros Hwf; wf_trace I | repeat split].
Qed.

Lemma place_and_record_outcome (self : t F) (env : Env F)
    (signal : TradeSignal F) (evs : list (Event F)) (quantity limit_price : Z) :
  place_orders evs = [] ->
  count_events is_placed_order evs = 0%nat ->
  Forall well_formed_order evs ->
  fst (OrderValidator.validate_order (F:=F) (ticker signal) (side signal)
         quantity limit_price) = true ->
  limit_price_of signal = Ok limit_price ->
  traded_or_not self env signal
    (place_and_record self env signal evs quantity limit_price)
  /\ Forall well_formed_order
       (snd (place_and_record self env signal evs quantity limit_price)).
Proof.
  intros Hquiet Hnone Hwf Hvalid Hlimit.
  assert (Horder : forall paper reply,
            well_formed_order
              (EvPlaceOrder (F:=F) paper (ticker signal) (side signal)
                 quantity limit_price reply)).
  { intros paper reply. cbn. apply (validate_order_accepts (F:=F)).
    exact Hvalid. }
  assert (Hplaced : forall (self0 : t F) paper order,
    let evs' := (evs ++ [EvLog (LogPlacingOrder paper quantity (side signal)
                                  limit_price (ticker signal))])
                ++ [EvPlaceOrder paper (ticker signal) (side signal)
                      quantity limit_price (Some order)] in
    seen_signals self0 = seen_signals self ->
    paper = paper_trading self ->
    traded_or_not self env signal
      (order_placed self0 env signal evs' order quantity limit_price)
    /\ Forall well_formed_order
         (snd (order_placed self0 env signal evs' order quantity
                 limit_price))).
  { intros self0 paper order evs' Hseen0 ->.
    pose proof (order_placed_shape self0 env signal evs' order quantity
                  limit_price) as Hshape.
    pose proof (order_placed_outcome self0 env signal evs' order quantity
                  limit_price) as Hout.
    destruct (order_placed self0 env signal evs' order quantity limit_price)
      as [[result self'] events].
    destruct Hshape as (_ & Hcalls & _). destruct Hout as (Hwf' & Hcases).
    cbn [snd]. split; [|apply Hwf'; unfold evs'; wf_trace Horder].
    unfold traded_or_not. left. exists order, quantity, limit_price.
    split.
    { rewrite Hcalls. unfold evs'. autorewrite with orders.
      rewrite Hquiet. reflexivity. }
    split; [exact Hvalid|]. split; [exact Hlimit|].
    rewrite Hseen0 in Hcases.
    destruct (env_record_trade_raises env) as [e|]; [exact Hcases|].
    destruct (env_mark_executed_raises env) as [e|]; [exact Hcases|].
    destruct Hcases as (Hresult & Hseen & Hwindow).
    split; [exact Hresult|]. split; [exact Hseen|].
    eexists. exact Hwindow. }
  unfold place_and_record.
  destruct (paper_trading self) eqn:Hpaper.
  - destruct (paper_trader self) as [pt|].
    + destruct (PaperTrader.place_order pt (env_uuid env) (env_now_order env)
                  (ticker signal) (side signal) quantity limit_price)
        as [[paper_order pt']|e].
      * apply Hplaced; reflexivity.
      * unfold execution_failed, traded_or_not. cbn [snd].
        split; [|wf_trace Horder].
        right. split; [left; reflexivity|].
        split; [no_order_back Hnone|]. split; [wf_trace Horder | reflexivity].
    + unfold execution_failed, traded_or_not. cbn [snd].
      split; [|wf_trace Horder].
      right. split; [left; reflexivity|].
      split; [no_order_back Hnone|]. split; [wf_trace Horder | reflexivity].
  - destruct (kalshi_place_order (env_broker env) (side signal)
                quantity limit_price) as [[order|]|e].
    + apply Hplaced; reflexivity.
    + unfold traded_or_not. cbn [snd]. split; [|wf_trace Horder].
      right. split; [left; reflexivity|].
      split; [no_order_back Hnone|]. split; [wf_trace Horder | reflexivity].
    + unfold execution_failed, traded_or_not. cbn [snd].
      split; [|wf_trace Horder].
      right. split; [left; reflexivity|].
      split; [no_order_back Hnone|]. split; [wf_trace Horder | reflexivity].
Qed.

(** A branch that returns [None] or raises, with a trace of log lines,
    alerts and store writes only. *)
Local Ltac quiet_branch :=
  split; [|wf_trace I];
  right; split; [first [left; reflexivity | right; eexists; reflexivity]|];
  split; [no_order_back I|]; split; [wf_trace I | reflexivity].

Lemma size_and_place_outcome (self : t F) (env : Env F)
    (signal : TradeSignal F) :
  traded_or_not self env signal (size_and_place self env signal)
  /\ Forall well_formed_order (snd (size_and_place self env signal)).
Proof.
  unfold size_and_place.
  destruct (if paper_trading self
            then match paper_trader self with
                 | Some pt => Ok (PaperTrader.get_balance pt)
                 | None => Raise TypeError
                 end
            else Ok (env_live_balance env, calculate_current_exposure env))
    as [[current_balance current_exposure]|e]; [|quiet_branch].
  destruct (PositionSizer.calculate_position_size signal (config self)
              current_balance current_exposure) as [[quantity sizer_log]|e];
    [|quiet_branch].
  destruct (quantity =? 0); [quiet_branch|].
  fold (limit_price_of signal).
  destruct (limit_price_of signal) as [limit_price|e] eqn:Hlimit;
    [|quiet_branch].
  destruct (OrderValidator.validate_order (ticker signal) (side signal)
              quantity limit_price) as [[|] reason] eqn:Hvalid;
    [|quiet_branch].
  apply place_and_record_outcome;
    [reflexivity | reflexivity | wf_trace I | rewrite Hvalid; reflexivity
    | exact Hlimit].
Qed.

Lemma execute_signal_outcome (self : t F) (env : Env F)
    (signal : TradeSignal F) :
  traded_or_not self env signal (execute_signal self env signal)
  /\ Forall well_formed_order (snd (execute_signal self env signal)).
Proof.
  unfold execute_signal.
  destruct (trading_enabled self); cbn [negb]; [|quiet_branch].
  unfold CircuitBreaker.can_trade.
  destruct (CircuitBreaker.is_tripped (circuit_breaker self));
    [quiet_branch|].
  destruct (OrderValidator.validate_signal signal (config self)
              (seen_signals self)) as [[|] reason]; [|quiet_branch].
  destruct (check_rate_limits_window self env) as [window Hwindow].
  destruct (check_rate_limits self env) as [within_limits self1].
  cbn [snd] in Hwindow. subst self1.
  destruct within_limits; cbn [negb]; [|quiet_branch].
  destruct (fltb _ _); [quiet_branch|].
  assert (Hrest :
    traded_or_not self env signal
      (size_and_place (with_recent_trades self window) env signal)
    /\ Forall well_formed_order
         (snd (size_and_place (with_recent_trades self window) env signal))).
  { pose proof (size_and_place_outcome (with_recent_trades self window)
                  env signal) as [Hshape Hwf].
    split; [|exact Hwf]. unfold traded_or_not in *.
    destruct (size_and_place (with_recent_trades self window) env signal)
      as [[result self'] events].
    exact Hshape. }
  destruct (last_loss_time (with_recent_trades self window)) as [last_loss|];
    [|exact Hrest].
  destruct (_ <? _); [quiet_branch | exact Hrest].
Qed.

(** X18.  [execute_signal] never sends a malformed order: every call it
    makes on the gateway, in any state and for any signal, has a non-empty
    ticker, a side yes or no, a positive quantity and a limit price between
    1 and 99 cents. *)
Theorem orders_are_well_formed (self : t F) (env : Env F)
    (signal : TradeSignal F) :
  Forall well_formed_order (snd (execute_signal self env signal)).
Proof. apply execute_signal_outcome. Qed.

(** X19.  A call of [execute_signal] gets at most one order from the
    gateway, and returns a Trade only if it got one.  The Trade it returns
    is open, for the signal's ticker and side, with a positive quantity
    and, as entry price, the limit price (between 1 and 99 cents) over 100,
    and nothing of an exit; the signal is then in the dedup set, and the
    rate window ends with the time of the trade.  Conversely, when the
    gateway returned an order, what the call returns depends on the store:
    the Trade when both store writes succeed; no Trade, with the signal in
    the dedup set, when [_mark_signal_executed] raises; no Trade, and a
    dedup set without the signal unless it was there before, when
    [_record_trade] raises. *)
Theorem trade_returned_only_with_order (self : t F) (env : Env F)
    (signal : TradeSignal F) :
  let '(result, self', events) := execute_signal self env signal in
  (count_events is_placed_order events <= 1)%nat
  /\ (forall trade, result = Ok (Some trade) ->
      count_events is_placed_order events = 1%nat
      /\ trade_status trade = "open"
      /\ trade_ticker trade = ticker signal
      /\ trade_side trade = side signal
      /\ 0 < trade_quantity trade
      /\ (exists limit_price,
            1 <= limit_price <= 99
            /\ limit_price_of signal = Ok limit_price
            /\ trade_entry_price trade
               = fdiv (of_int limit_price) (of_int 100))
      /\ trade_exit_price trade = None
      /\ trade_pnl trade = None
      /\ trade_close_reason trade = None
      /\ md5_hexdigest (signal_id signal) ∈ seen_signals self'
      /\ last (recent_trades self') = Some (env_now_trade env))
  /\ (count_events is_placed_order events = 1%nat ->
      match env_record_trade_raises env, env_mark_executed_raises env with
      | None, None => exists trade, result = Ok (Some trade)
      | None, Some _ =>
          result = Ok None
          /\ md5_hexdigest (signal_id signal) ∈ seen_signals self'
      | Some _, _ =>
          result = Ok None /\ seen_signals self' = seen_signals self
      end).
Proof.
  pose proof (execute_signal_outcome self env signal) as [Hshape _].
  destruct (execute_signal self env signal) as [[result self'] events].
  unfold traded_or_not in Hshape.
  destruct Hshape as
    [(order & q & lp & Hcall & Hvalid & Hlimit & Hcases)
    |(Hnone & Hcount & _ & _)].
  - apply (validate_order_accepts (F:=F)) in Hvalid.
    destruct Hvalid as (_ & _ & Hq & Hlp).
    assert (Hone : count_events is_placed_order events = 1%nat).
    { rewrite placed_among_orders, Hcall. reflexivity. }
    split; [rewrite Hone; constructor|]. split.
    + intros trade Htrade. split; [exact Hone|].
      destruct (env_record_trade_raises env) as [e|];
        [destruct Hcases as [Hnone _]; congruence|].
      destruct (env_mark_executed_raises env) as [e|];
        [destruct Hcases as [Hnone _]; congruence|].
      destruct Hcases as (Hresult & Hseen & window & Hwin).
      rewrite Hresult in Htrade. injection Htrade as <-.
      cbn [record_trade trade_status trade_ticker
        trade_side trade_quantity trade_entry_price trade_exit_price
        trade_pnl trade_close_reason].
      repeat (split; [reflexivity|]). split; [exact Hq|].
      split; [exists lp; repeat split; try lia; exact Hlimit|].
      repeat (split; [reflexivity|]).
      split; [rewrite Hseen; apply elem_of_union_r, elem_of_singleton;
              reflexivity|].
      rewrite Hwin. apply last_snoc.
    + intros _.
      destruct (env_record_trade_raises env) as [e|]; [exact Hcases|].
      destruct (env_mark_executed_raises env) as [e|].
      * destruct Hcases as [Hresult Hseen]. split; [exact Hresult|].
        rewrite Hseen. apply elem_of_union_r, elem_of_singleton. reflexivity.
      * destruct Hcases as (Hresult & _). eexists. exact Hresult.
  - split; [rewrite Hcount; repeat constructor|]. split.
    + intros trade ->. destruct Hnone as [Hn|[e Hn]]; discriminate.
    + intros Hone. rewrite Hcount in Hone. discriminate.
Qed.
End ExecutorOutcome.

(** ** Sequences of calls *)

Section ExecutorSequences.
Context {F : Type} {float_ops : PyFloat F} {hashlib : Hashlib}.
Import TradeExecutor.

Lemma same_settings_trans (a b c : t F) :
  same_settings a b -> same_settings b c -> same_settings a c.
Proof.
  unfold same_settings. intros Hab Hbc.
  destruct Hab as (? & ? & ? & ? & ? & ? & ? & ?).
  destruct Hbc as (? & ? & ? & ? & ? & ? & ? & ?).
  repeat split; congruence.
Qed.

(** A call leaves the settings alone and never takes an id out of the dedup
    set. *)
Lemma execute_signal_keeps (self : t F) (env : Env F) (signal : TradeSignal F) :
  same_settings self (execute_signal self env signal).1.2
  /\ seen_signals self ⊆ seen_signals (execute_signal self env signal).1.2.
Proof.
  pose proof (execute_signal_once self env signal) as Hshape.
  destruct (execute_signal self env signal) as [[result self'] events].
  cbn [fst snd]. unfold trades_at_most_once in Hshape.
  destruct Hshape as [Hsame Hseen]. split; [exact Hsame|].
  destruct Hseen as [[_ ->]|(q & lp & [order|] & _ & _ & ->)];
    [reflexivity | | reflexivity].
  destruct (env_record_trade_raises env);
    [reflexivity | apply union_subseteq_l].
Qed.

Lemma execute_all_keeps (calls : list (Env F * TradeSignal F)) (self : t F) :
  same_settings self (execute_all self calls).1
  /\ seen_signals self ⊆ seen_signals (execute_all self calls).1.
Proof.
  revert self. induction calls as [|[env signal] calls IH]; intros self.
  - split; [apply same_settings_refl | reflexivity].
  - cbn [execute_all].
    pose proof (execute_signal_keeps self env signal) as [Hsame Hseen].
    destruct (execute_signal self env signal) as [[result self1] events].
    cbn [fst snd] in Hsame, Hseen.
    specialize (IH self1). destruct (execute_all self1 calls) as [self2 events'].
    cbn [fst] in *. destruct IH as [Hsame' Hseen']. split.
    + exact (same_settings_trans _ _ _ Hsame Hsame').
    + etrans; eassumption.
Qed.

(** A call for an id of the dedup set: whichever gate turns it away, it
    returns no trade and leaves no mark on the executor. *)
Lemma execute_signal_seen (self : t F) (env : Env F) (signal : TradeSignal F) :
  md5_hexdigest (signal_id signal) ∈ seen_signals self ->
  let '(result, self', events) := execute_signal self env signal in
  result = Ok None /\ self' = self /\ place_orders events = [].
Proof.
  intros Hseen.
  pose proof (execute_signal_duplicate self env signal Hseen) as Hdup.
  unfold execute_signal in *.
  destruct (trading_enabled self); cbn [negb] in *; [|repeat split].
  unfold CircuitBreaker.can_trade in *.
  destruct (CircuitBreaker.is_tripped (circuit_breaker self)).
  { repeat split. autorewrite with orders. reflexivity. }
  rewrite Hdup by reflexivity.
  repeat split. autorewrite with orders. reflexivity.
Qed.

(** X20.  A signal that has traded never trades again, whatever is
    submitted in between: after a call of [execute_signal] that returned a
    Trade, and after any further sequence of calls, a call for the same
    signal returns no trade, does not call the gateway and leaves the
    executor as it was. *)
Theorem traded_signal_never_trades_again (self : t F) (env env' : Env F)
    (signal : TradeSignal F) (calls : list (Env F * TradeSignal F))
    (trade : Trade F) :
  (execute_signal self env signal).1.1 = Ok (Some trade) ->
  let self1 := (execute_signal self env signal).1.2 in
  let self2 := (execute_all self1 calls).1 in
  let '(result, self3, events) := execute_signal self2 env' signal in
  result = Ok None /\ self3 = self2 /\ place_orders events = [].
Proof.
  intros Htraded self1 self2. apply execute_signal_seen.
  apply (proj2 (execute_all_keeps calls self1)).
  subst self1.
  pose proof (execute_signal_outcome self env signal) as [Hshape _].
  destruct (execute_signal self env signal) as [[result self'] events].
  cbn [fst snd] in *. subst result.
  unfold traded_or_not in Hshape.
  destruct Hshape as
    [(order & q & lp & _ & _ & _ & Hcases)
    |([Hnone|[e Hraise]] & _)]; [|discriminate..].
  destruct (env_record_trade_raises env) as [e|];
    [destruct Hcases as [Hnone _]; discriminate|].
  destruct (env_mark_executed_raises env) as [e|];
    [destruct Hcases as [Hnone _]; discriminate|].
  destruct Hcases as (_ & -> & _).
  apply elem_of_union_r, elem_of_singleton. reflexivity.
Qed.

(** A call behind the kill switch or a tripped breaker changes nothing. *)
Lemma execute_signal_halted (self : t F) (env : Env F)
    (signal : TradeSignal F) :
  trading_enabled self = false
  \/ CircuitBreaker.is_tripped (circuit_breaker self) = true ->
  let '(result, self', events) := execute_signal self env signal in
  result = Ok None /\ self' = self /\ place_orders events = [].
Proof.
  intros Hhalted. unfold execute_signal.
  destruct (trading_enabled self); cbn [negb]; [|repeat split].
  destruct Hhalted as [Hoff|Htripped]; [discriminate|].
  unfold CircuitBreaker.can_trade. rewrite Htripped.
  repeat split. autorewrite with orders. reflexivity.
Qed.

(** X21.  Nothing in the executor re-arms it: with trading disabled, or
    with the circuit breaker tripped, no sequence of calls of
    [execute_signal], whatever the signals and the answers of the outside
    world, reaches the gateway or changes the executor. *)
Theorem halted_executor_stays_halted (self : t F)
    (calls : list (Env F * TradeSignal F)) :
  trading_enabled self = false
  \/ CircuitBreaker.is_tripped (circuit_breaker self) = true ->
  let '(self', events) := execute_all self calls in
  self' = self /\ place_orders events = [].
Proof.
  intros Hhalted. induction calls as [|[env signal] calls IH];
    [split; reflexivity|].
  cbn [execute_all].
  pose proof (execute_signal_halted self env signal Hhalted) as Hcall.
  destruct (execute_signal self env signal) as [[result self1] events].
  destruct Hcall as (_ & -> & Hquiet).
  destruct (execute_all self calls) as [self2 events'].
  destruct IH as [-> Hquiet']. split; [reflexivity|].
  rewrite place_orders_app, Hquiet, Hquiet'. reflexivity.
Qed.

(** X22.  The cooldown after a loss.  While fewer than
    [cooldown_after_loss_seconds] seconds have passed since the recorded
    loss time, [execute_signal] returns no trade and does not call the
    gateway; the dedup set and the settings are unchanged. *)
Theorem cooldown_blocks (self : t F) (env : Env F) (signal : TradeSignal F)
    (last_loss : datetime) :
  last_loss_time self = Some last_loss ->
  env_now_cooldown env - last_loss
  < cooldown_after_loss_seconds (risk_limits self) ->
  let '(result, self', events) := execute_signal self env signal in
  result = Ok None
  /\ place_orders events = []
  /\ seen_signals self' = seen_signals self
  /\ same_settings self self'.
Proof.
  intros Hloss Hrecent. unfold execute_signal.
  destruct (trading_enabled self); cbn [negb];
    [|repeat split].
  unfold CircuitBreaker.can_trade.
  destruct (CircuitBreaker.is_tripped (circuit_breaker self)).
  { split; [reflexivity|]. split; [autorewrite with orders; reflexivity|].
    repeat split. }
  destruct (OrderValidator.validate_signal signal (config self)
              (seen_signals self)) as [[|] reason].
  2:{ split; [reflexivity|]. split; [autorewrite with orders; reflexivity|].
      repeat split. }
  destruct (check_rate_limits_window self env) as [window Hwindow].
  destruct (check_rate_limits self env) as [within_limits self1].
  cbn [snd] in Hwindow. subst self1.
  destruct within_limits; cbn [negb]; [|repeat split].
  cbn [with_recent_trades daily_pnl risk_limits last_loss_time
       alert_callback].
  destruct (fltb _ _).
  { split; [reflexivity|]. split; [autorewrite with orders; reflexivity|].
    repeat split. }
  rewrite Hloss. apply Z.ltb_lt in Hrecent. rewrite Hrecent.
  repeat split.
Qed.
End ExecutorSequences.

(** ** Runs *)

Section ExecutorRuns2.
Import TradeExecutor.
Local Open Scope Q_scope.

Lemma rate_limit_blocks_witness :
  let self := paper_executor enabled_config in
  let window :=
    filter (fun t => (env_now_rate busy_world - 3600 < t)%Z)
      (recent_trades self) in
  ((max_trades_per_hour (risk_limits self) <= Z.of_nat (length window))%Z
   \/ (max_trades_per_day (risk_limits self) <= env_daily_trades busy_world)%Z)
  /\ let '(result, self', events) :=
       execute_signal (hashlib:=toy_md5) self busy_world signal_strong in
     result = Ok None
     /\ place_orders events = []
     /\ seen_signals self' = seen_signals self
     /\ same_settings self self'
     /\ (recent_trades self' = recent_trades self
         \/ recent_trades self' = window).
Proof.
  intros self window.
  assert (Hfull :
    (max_trades_per_hour (risk_limits self) <= Z.of_nat (length window))%Z
    \/ (max_trades_per_day (risk_limits self)
        <= env_daily_trades busy_world)%Z).
  { right. vm_compute. discriminate. }
  split; [exact Hfull|].
  apply (@rate_limit_blocks Q Q_PyFloat toy_md5 self busy_world signal_strong
           Hfull).
Defined.

Lemma low_conviction_never_trades_witness :
  (confidence signal_zero_edge
   < min_confidence_of (config (paper_executor enabled_config))
   \/ edge_percentage signal_zero_edge
      < min_edge_of (config (paper_executor enabled_config)))
  /\ let '(result, self', events) :=
       execute_signal (hashlib:=toy_md5) (paper_executor enabled_config)
         quiet_world signal_zero_edge in
     result = Ok None /\ self' = paper_executor enabled_config
     /\ place_orders events = [].
Proof.
  assert (Hlow :
    confidence signal_zero_edge
    < min_confidence_of (config (paper_executor enabled_config))
    \/ edge_percentage signal_zero_edge
       < min_edge_of (config (paper_executor enabled_config))).
  { right. reflexivity. }
  split; [exact Hlow|].
  apply (@low_conviction_never_trades toy_md5 (paper_executor enabled_config)
           quiet_world signal_zero_edge Hlow).
Defined.

Lemma traded_signal_never_trades_again_witness :
  exists trade,
    (execute_signal (hashlib:=toy_md5) (paper_executor enabled_config)
       quiet_world signal_strong).1.1 = Ok (Some trade)
    /\ let self1 :=
         (execute_signal (hashlib:=toy_md5) (paper_executor enabled_config)
            quiet_world signal_strong).1.2 in
       let self2 :=
         (execute_all (hashlib:=toy_md5) self1
            [(quiet_world, signal_unpriced)]).1 in
       let '(result, self3, events) :=
         execute_signal (hashlib:=toy_md5) self2 quiet_world signal_strong in
       result = Ok None /\ self3 = self2 /\ place_orders events = [].
Proof.
  eexists. split.
  - vm_compute. reflexivity.
  - eapply (@traded_signal_never_trades_again Q Q_PyFloat toy_md5
              (paper_executor enabled_config) quiet_world quiet_world
              signal_strong [(quiet_world, signal_unpriced)]).
    vm_compute. reflexivity.
Defined.

Lemma halted_executor_stays_halted_witness :
  (trading_enabled executor_after_losses = false
   \/ CircuitBreaker.is_tripped (circuit_breaker executor_after_losses) = true)
  /\ let '(self', events) :=
       execute_all (hashlib:=toy_md5) executor_after_losses
         [(quiet_world, signal_strong); (quiet_world, signal_unpriced)] in
     self' = executor_after_losses /\ place_orders events = [].
Proof.
  assert (Hhalted :
    trading_enabled executor_after_losses = false
    \/ CircuitBreaker.is_tripped (circuit_breaker executor_after_losses)
       = true).
  { right. reflexivity. }
  split; [exact Hhalted|].
  apply (@halted_executor_stays_halted Q Q_PyFloat toy_md5
           executor_after_losses
           [(quiet_world, signal_strong); (quiet_world, signal_unpriced)]
           Hhalted).
Defined.

Lemma cooldown_blocks_witness :
  last_loss_time executor_in_cooldown = Some 900%Z
  /\ (env_now_cooldown quiet_world - 900
      < cooldown_after_loss_seconds (risk_limits executor_in_cooldown))%Z
  /\ let '(result, self', events) :=
       execute_signal (hashlib:=toy_md5) executor_in_cooldown quiet_world
         signal_strong in
     result = Ok None
     /\ place_orders events = []
     /\ seen_signals self' = seen_signals executor_in_cooldown
     /\ same_settings executor_in_cooldown self'.
Proof.
  assert (Hrecent :
    (env_now_cooldown quiet_world - 900
     < cooldown_after_loss_seconds (risk_limits executor_in_cooldown))%Z).
  { reflexivity. }
  split; [reflexivity|]. split; [exact Hrecent|].
  apply (@cooldown_blocks Q Q_PyFloat toy_md5 executor_in_cooldown
           quiet_world signal_strong 900%Z eq_refl Hrecent).
Defined.
End ExecutorRuns2.
